(** * Agroverse Shop: the order ledger of [agroverse_shop_checkout.gs]

    A shallow embedding of the Google Apps Script back end (checkout
    session creation, webhook ingestion, order status, tracking e-mails)
    and of the tracking-link helper of [js/order-status.js].

    Modelling conventions.
    - JavaScript strings are Stdlib [string]s read as sequences of ASCII
      characters; [trim] and [toUpperCase] are the ASCII parts of the
      JavaScript primitives (codes above 127 stand for no character of the
      model: they are neither white space nor letters).
    - A sheet is the list of its rows, a row the list of its cells;
      reading a cell past the end of a row gives the empty text, as the
      rectangular arrays of [getValues] do. [Ledger] is the script on
      sheets whose cells are texts; [Typed] is the script on sheets whose
      cells are texts, numbers, truth values or dates, and the two agree
      on sheets of texts.
    - Handlers run in a state-and-exception monad over a [World] (sheet,
      sent mail, calls to the payment processor, log, clock ticks); the
      platform services whose behaviour the script cannot decide (clock,
      mail transport, payment processor, JSON text codec) are the fields of
      an [Env]. *)

From Stdlib Require Import String Ascii List Bool Arith ZArith Lia.
From Stdlib Require Import QArith_base Qreduction DecimalString.
Import ListNotations.

Set Implicit Arguments.
Local Close Scope Q_scope.
Local Open Scope list_scope.
Local Open Scope string_scope.

(* ================================================================== *)
(** ** JavaScript string primitives used by the script *)

Module Js.

Definition code (c : ascii) : nat := nat_of_ascii c.

(** White space removed by [String.prototype.trim] (ASCII part):
    TAB, LF, VT, FF, CR and SPACE. *)
Definition is_space (c : ascii) : bool :=
  (((9 <=? code c) && (code c <=? 13)) || (code c =? 32))%nat.

Definition is_digit (c : ascii) : bool :=
  ((48 <=? code c) && (code c <=? 57))%nat.

Definition is_upper (c : ascii) : bool :=
  ((65 <=? code c) && (code c <=? 90))%nat.

Definition is_lower (c : ascii) : bool :=
  ((97 <=? code c) && (code c <=? 122))%nat.

Fixpoint trimStart (s : string) : string :=
  match s with
  | EmptyString => EmptyString
  | String c r => if is_space c then trimStart r else s
  end.

Fixpoint trimEnd (s : string) : string :=
  match s with
  | EmptyString => EmptyString
  | String c r =>
      match trimEnd r with
      | EmptyString => if is_space c then EmptyString else String c EmptyString
      | r' => String c r'
      end
  end.

Definition trim (s : string) : string := trimEnd (trimStart s).

Definition upper_char (c : ascii) : ascii :=
  if is_lower c then ascii_of_nat (code c - 32) else c.

Fixpoint toUpperCase (s : string) : string :=
  match s with
  | EmptyString => EmptyString
  | String c r => String (upper_char c) (toUpperCase r)
  end.

(** [s.startsWith(p)] *)
Fixpoint startsWith (s p : string) {struct p} : bool :=
  match p with
  | EmptyString => true
  | String a p' =>
      match s with
      | EmptyString => false
      | String b s' => Ascii.eqb a b && startsWith s' p'
      end
  end.

(** Truthiness of a string value: every string but the empty one. *)
Definition truthy (s : string) : bool :=
  match s with EmptyString => false | _ => true end.

(** [a || b] on a possibly undefined string and a string default. *)
Definition or_else (a : option string) (b : string) : string :=
  match a with
  | Some s => if truthy s then s else b
  | None => b
  end.

(** [a || b] where [b] may be undefined too. *)
Definition or_opt (a b : option string) : option string :=
  match a with
  | Some s => if truthy s then a else b
  | None => b
  end.

(** [a === b] between a possibly undefined string and a string. *)
Definition strict_eq (a : option string) (b : string) : bool :=
  match a with
  | Some s => String.eqb s b
  | None => false
  end.

Definition nl : string := String (ascii_of_nat 10) EmptyString.

(** Every character of [w] satisfies [p]. *)
Definition all_chars (p : ascii -> bool) (w : string) : Prop :=
  forall c, In c (list_ascii_of_string w) -> p c = true.

End Js.

(* ================================================================== *)
(** ** Regular expressions: the fragment the two patterns are written in *)

Module Regex.

Inductive regex : Type :=
| Void : regex
| Eps : regex
| Class : (ascii -> bool) -> regex
| Cat : regex -> regex -> regex
| Alt : regex -> regex -> regex
| Star : regex -> regex.

(** [r+] *)
Definition Plus (r : regex) : regex := Cat r (Star r).

(** [r{n}] *)
Fixpoint Times (n : nat) (r : regex) : regex :=
  match n with
  | O => Eps
  | S k => Cat r (Times k r)
  end.

(** A literal text. *)
Fixpoint Lit (s : string) : regex :=
  match s with
  | EmptyString => Eps
  | String c r => Cat (Class (Ascii.eqb c)) (Lit r)
  end.

(** [\d] and [[A-Z]] *)
Definition digit : regex := Class Js.is_digit.
Definition upper : regex := Class Js.is_upper.

Fixpoint nullable (r : regex) : bool :=
  match r with
  | Void => false
  | Eps => true
  | Class _ => false
  | Cat a b => nullable a && nullable b
  | Alt a b => nullable a || nullable b
  | Star _ => true
  end.

Fixpoint deriv (c : ascii) (r : regex) : regex :=
  match r with
  | Void => Void
  | Eps => Void
  | Class p => if p c then Eps else Void
  | Cat a b =>
      if nullable a then Alt (Cat (deriv c a) b) (deriv c b)
      else Cat (deriv c a) b
  | Alt a b => Alt (deriv c a) (deriv c b)
  | Star a => Cat (deriv c a) (Star a)
  end.

(** [/^r$/.test(s)]: the whole of [s] is a word of [r]. *)
Fixpoint test (r : regex) (s : string) : bool :=
  match s with
  | EmptyString => nullable r
  | String c s' => test (deriv c r) s'
  end.

(** The words of a regular expression. *)
Inductive Lang : regex -> string -> Prop :=
| LEps : Lang Eps ""
| LClass : forall (p : ascii -> bool) c, p c = true -> Lang (Class p) (String c "")
| LCat : forall a b u v, Lang a u -> Lang b v -> Lang (Cat a b) (u ++ v)
| LAltL : forall a b u, Lang a u -> Lang (Alt a b) u
| LAltR : forall a b u, Lang b u -> Lang (Alt a b) u
| LStarNil : forall a, Lang (Star a) ""
| LStarApp : forall a u v, Lang a u -> Lang (Star a) v -> Lang (Star a) (u ++ v).

End Regex.

(* ================================================================== *)
(** ** Carrier links *)

Module Carrier.
Import Regex.

(** [/^\d+[A-Z]{2}\d+US$/] *)
Definition USPS_PATTERN : regex :=
  Cat (Plus digit) (Cat (Times 2 upper) (Cat (Plus digit) (Lit "US"))).

(** [/^\d{12}$/] *)
Definition FEDEX_PATTERN : regex := Times 12 digit.

Definition usps_link (t : string) : string :=
  "https://tools.usps.com/go/TrackConfirmAction?tLabels=" ++ t.
Definition ups_link (t : string) : string :=
  "https://www.ups.com/track?tracknum=" ++ t.
Definition fedex_link (t : string) : string :=
  "https://www.fedex.com/fedextrack/?trknbr=" ++ t.

(** What the specification says of the shapes, in its own words. *)
Definition digits (s : string) : Prop := Js.all_chars Js.is_digit s.

(** "one or more digits, two capital letters, one or more digits, US" *)
Definition usps_shape (t : string) : Prop :=
  exists d1 a b d2,
    t = d1 ++ String a (String b "") ++ d2 ++ "US" /\
    d1 <> "" /\ digits d1 /\
    Js.is_upper a = true /\ Js.is_upper b = true /\
    d2 <> "" /\ digits d2.

(** "prefix 1Z" *)
Definition ups_shape (t : string) : Prop := exists r, t = "1Z" ++ r.

(** "exactly 12 digits" *)
Definition fedex_shape (t : string) : Prop :=
  String.length t = 12 /\ digits t.

End Carrier.

(** The helper of the Apps Script back end. *)
Module Server.
Import Regex Carrier.

Definition getTrackingUrl (trackingNumber : string) : string :=
  let trimmed := Js.toUpperCase (Js.trim trackingNumber) in
  if test USPS_PATTERN trimmed then usps_link trimmed
  else if Js.startsWith trimmed "1Z" then ups_link trimmed
  else if test FEDEX_PATTERN trimmed then fedex_link trimmed
  else usps_link trimmed.

End Server.

(** The helper of [js/order-status.js]: [null] for a missing or empty
    tracking number. *)
Module OrderStatus.
Import Regex Carrier.

Definition getTrackingUrl (trackingNumber : option string) : option string :=
  match trackingNumber with
  | None => None
  | Some tn =>
      if negb (Js.truthy tn) then None
      else
        let trimmed := Js.toUpperCase (Js.trim tn) in
        if test USPS_PATTERN trimmed then Some (usps_link trimmed)
        else if Js.startsWith trimmed "1Z" then Some (ups_link trimmed)
        else if test FEDEX_PATTERN trimmed then Some (fedex_link trimmed)
        else Some (usps_link trimmed)
  end.

End OrderStatus.

(* ================================================================== *)
(** ** The Apps Script back end *)

Module Ledger.

(** *** Values *)

(** JSON documents (what [JSON.stringify] prints and [JSON.parse] reads). *)
#[local] Unset Elimination Schemes.
Inductive json : Type :=
| JNull : json
| JBool : bool -> json
| JNum : Q -> json
| JStr : string -> json
| JArr : list json -> json
| JObj : list (string * json) -> json.
#[local] Set Elimination Schemes.

(** A thrown [Error] object: its [name] and [message]. *)
Record exn : Type := JsError { err_name : string; err_message : string }.

Definition Error (msg : string) : exn := JsError "Error" msg.
Definition TypeError (msg : string) : exn := JsError "TypeError" msg.

(** [Error.prototype.toString] *)
Definition toString (e : exn) : string :=
  match err_message e with
  | EmptyString => err_name e
  | m => match err_name e with
         | EmptyString => m
         | n => n ++ ": " ++ m
         end
  end.

Inductive result (A : Type) : Type :=
| Ok : A -> result A
| Throw : exn -> result A.
Arguments Ok {A} _.
Arguments Throw {A} _.

(** *** Requests *)

Record CartItem : Type :=
  { stripePriceId : string; item_quantity : Z }.

Record Cart : Type :=
  { items : option (list CartItem); cart_sessionId : option string }.

(** The shipping form the client posts with the cart. *)
Record ShippingForm : Type :=
  { form_address : option string; form_city : option string;
    form_state : option string; form_zip : option string;
    form_country : option string }.

Record CustomerDetails : Type := { email : option string }.

Record Address : Type :=
  { line1 : option string; city : option string; state : option string;
    postal_code : option string; country : option string }.

Record ShippingDetails : Type :=
  { name : option string; address : option Address }.

Record Custom : Type := { custom_name : option string }.

Record DisplayItem : Type :=
  { custom : option Custom; description : option string;
    quantity : option Z; amount : option Z }.

(** The checkout session object of a completion event. *)
Record Session : Type :=
  { id : string;
    customer_details : option CustomerDetails;
    customer_email : option string;
    shipping_details : option ShippingDetails;
    display_items : option (list DisplayItem) }.

(** The parsed body of a POST, through the fields the handlers read:
    [action], [cart], [shippingAddress], [environment] of a checkout
    request; [type] and [data.object] of a processor event.  [data] is
    [None] when the body has no [data], [Some None] when [data] has no
    [object]. *)
Record Body : Type :=
  { action : option string;
    cart : option Cart;
    shippingAddress : option ShippingForm;
    environment : option string;
    type : option string;
    data : option (option Session) }.

(** A POST: the [stripe-signature] parameter and [e.postData.contents] as
    [JSON.parse] reads it ([Throw] for a text that does not parse). *)
Record PostEvent : Type :=
  { stripe_signature : option string; contents : result Body }.

(** A GET: the [action] and [sessionId] parameters. *)
Record GetEvent : Type :=
  { get_action : option string; get_sessionId : option string }.

(** *** The payment processor *)

Record LineItem : Type := { price : string; line_quantity : Z }.

Record ShippingAddress : Type :=
  { sa_line1 : option string; sa_city : option string;
    sa_state : option string; sa_postal_code : option string;
    sa_country : string }.

Record Metadata : Type :=
  { cartSessionId : string; meta_environment : string; source : string }.

Record Payload : Type :=
  { mode : string;
    line_items : list LineItem;
    success_url : string;
    cancel_url : string;
    shipping_address_collection : option (list string);
    billing_address_collection : string;
    phone_number_collection : bool;
    metadata : Metadata;
    shipping_address : option ShippingAddress }.

(** One call of [UrlFetchApp.fetch]; the form encoding of the payload
    ([buildFormData]) is left structured. *)
Record StripeRequest : Type :=
  { url : string; authorization : string; content_type : string;
    payload : Payload }.

(** The processor's answer as parsed: [error.message], [url], [id]. *)
Record StripeSession : Type :=
  { session_error : option string;
    session_url : option string;
    session_id : option string }.

(** *** Responses *)

Record Order : Type :=
  { order_sessionId : string; order_email : string; order_date : string;
    order_status : string; order_items : json;
    order_shippingAddress : json; order_trackingNumber : string;
    order_emailSent : string; order_lastUpdated : string }.

(** The four JSON bodies the handlers answer with: [{error}],
    [{received: true}], [{checkoutUrl, sessionId}] and
    [{status: 'success', order}]. *)
Inductive Response : Type :=
| RespError : string -> Response
| RespReceived : Response
| RespCheckout : option string -> option string -> Response
| RespOrder : Order -> Response.

(** *** Platform and state *)

Record Mail : Type := { to : string; subject : string; body : string }.

Record Config : Type :=
  { stripeSecretKey : string; stripeWebhookSecret : string;
    sheetId : string; sheetName : string }.

Record Env : Type :=
  { CONFIG : Config;
    (** [new Date().toISOString()] at the n-th reading of the clock *)
    clock : nat -> string;
    (** [MailApp.sendEmail]: [Some e] when the transport throws [e] *)
    transport : Mail -> option exn;
    (** the processor's answer to a request, parsed *)
    processor : StripeRequest -> result StripeSession;
    JSON_stringify : json -> string;
    JSON_parse : string -> result json }.

Definition Row : Type := list string.

Record World : Type :=
  { sheet : list Row;
    outbox : list Mail;
    requests : list StripeRequest;
    log : list string;
    ticks : nat }.

(** The handlers: state passing with exceptions; a throw keeps the
    changes made before it. *)
Definition M (A : Type) : Type := World -> result A * World.

Definition ret {A} (a : A) : M A := fun w => (Ok a, w).

Definition throw {A} (e : exn) : M A := fun w => (Throw e, w).

Definition bind {A B} (m : M A) (k : A -> M B) : M B :=
  fun w =>
    match m w with
    | (Ok a, w') => k a w'
    | (Throw e, w') => (Throw e, w')
    end.

(** [try { m } catch (error) { h error }] *)
Definition try_catch {A} (m : M A) (h : exn -> M A) : M A :=
  fun w =>
    match m w with
    | (Ok a, w') => (Ok a, w')
    | (Throw e, w') => h e w'
    end.

Definition lift {A} (r : result A) : M A := fun w => (r, w).

Declare Scope js_scope.
Delimit Scope js_scope with js.
Notation "x <- m ;; k" := (bind m (fun x => k))
  (at level 100, m at next level, right associativity) : js_scope.
Notation "m ;; k" := (bind m (fun _ => k))
  (at level 100, right associativity) : js_scope.

Local Open Scope js_scope.

(** *** Platform operations *)

Definition Logger_log (msg : string) : M unit :=
  fun w => (Ok tt, {| sheet := sheet w; outbox := outbox w;
                      requests := requests w;
                      log := (log w ++ [msg])%list; ticks := ticks w |}).

(** [new Date().toISOString()] *)
Definition now (env : Env) : M string :=
  fun w => (Ok (clock env (ticks w)),
            {| sheet := sheet w; outbox := outbox w;
               requests := requests w; log := log w;
               ticks := S (ticks w) |}).

Definition set_sheet (f : list Row -> list Row) : M unit :=
  fun w => (Ok tt, {| sheet := f (sheet w); outbox := outbox w;
                      requests := requests w; log := log w;
                      ticks := ticks w |}).

(** [SpreadsheetApp.openById(..).getSheetByName(..)]: the rows held now. *)
Definition getSheet : M (list Row) := fun w => (Ok (sheet w), w).

(** [MailApp.sendEmail] *)
Definition MailApp_sendEmail (env : Env) (m : Mail) : M unit :=
  fun w =>
    match transport env m with
    | Some e => (Throw e, w)
    | None => (Ok tt, {| sheet := sheet w;
                         outbox := (outbox w ++ [m])%list;
                         requests := requests w; log := log w;
                         ticks := ticks w |})
    end.

(** [UrlFetchApp.fetch] followed by [JSON.parse(response.getContentText())] *)
Definition UrlFetchApp_fetch (env : Env) (r : StripeRequest) : M StripeSession :=
  fun w =>
    (processor env r,
     {| sheet := sheet w; outbox := outbox w;
        requests := (requests w ++ [r])%list; log := log w;
        ticks := ticks w |}).

(** *** Sheet access *)

(** [row[k]] in the arrays of [getValues]: empty text past the row's end. *)
Definition cell (r : Row) (k : nat) : string := nth k r "".

(** [sheet.getDataRange().getValues()]: an empty sheet reads as one
    empty cell. *)
Definition getValues (sh : list Row) : list Row :=
  match sh with
  | [] => [[""]]
  | _ => sh
  end.

(** Overwrite position [n], filling the gap with [d] when the list is
    shorter. *)
Fixpoint update_nth {A} (d : A) (f : A -> A) (n : nat) (l : list A) : list A :=
  match n, l with
  | O, [] => [f d]
  | O, x :: r => f x :: r
  | S k, [] => d :: update_nth d f k []
  | S k, x :: r => x :: update_nth d f k r
  end.

(** [sheet.getRange(row, col).setValue(v)], both 1-based. *)
Definition setValue (row col : nat) (v : string) : M unit :=
  set_sheet (update_nth [] (update_nth "" (fun _ => v) (col - 1)) (row - 1)).

Definition appendRow (r : Row) : M unit :=
  set_sheet (fun sh => (sh ++ [r])%list).

(** [sheet.getRange(row, 1, 1, 9).getValues()[0]] *)
Definition getRange9 (sh : list Row) (row : nat) : Row :=
  map (cell (nth (row - 1) sh [])) (seq 0 9).

(** [data[i][0] === sessionId] for [i = from, from+1, ...] over [rows];
    the 1-based row number of the first hit, 0 for none. *)
Fixpoint findFrom (i : nat) (rows : list Row) (sessionId : option string) : nat :=
  match rows with
  | [] => 0
  | r :: rest =>
      if Js.strict_eq sessionId (cell r 0) then i + 1
      else findFrom (S i) rest sessionId
  end.

Definition findOrderRow (sh : list Row) (sessionId : option string) : nat :=
  findFrom 1 (tl (getValues sh)) sessionId.

(** *** Ingestion *)

Definition customerEmail_of (session : Session) : string :=
  Js.or_else
    (Js.or_opt (match customer_details session with
                | Some cd => email cd
                | None => None
                end)
               (customer_email session))
    "".

Definition or_num (a : option Z) (d : Z) : Z :=
  match a with
  | Some z => if Z.eqb z 0 then d else z
  | None => d
  end.

Definition format_item (item : DisplayItem) : json :=
  JObj [ ("name", JStr (Js.or_else
                          (Js.or_opt (match custom item with
                                      | Some c => custom_name c
                                      | None => None
                                      end)
                                     (description item))
                          "Product"));
         ("quantity", JNum (inject_Z (or_num (quantity item) 1)));
         ("price", JNum (Qred (Qmake (or_num (amount item) 0) 100))) ].

Definition format_items (session : Session) : json :=
  JArr (map format_item
            (match display_items session with Some l => l | None => [] end)).

Definition format_address (session : Session) : json :=
  let shippingAddress :=
    match shipping_details session with
    | Some sd => match address sd with
                 | Some a => a
                 | None => Build_Address None None None None None
                 end
    | None => Build_Address None None None None None
    end in
  JObj [ ("fullName", JStr (Js.or_else
                              (match shipping_details session with
                               | Some sd => name sd
                               | None => None
                               end) ""));
         ("address", JStr (Js.or_else (line1 shippingAddress) ""));
         ("city", JStr (Js.or_else (city shippingAddress) ""));
         ("state", JStr (Js.or_else (state shippingAddress) ""));
         ("zip", JStr (Js.or_else (postal_code shippingAddress) ""));
         ("country", JStr (Js.or_else (country shippingAddress) "US")) ].

Definition saveOrderToSheet (env : Env) (session : option Session) : M unit :=
  try_catch
    (sh <- getSheet ;;
     match session with
     | None =>
         throw (TypeError "Cannot read properties of undefined (reading 'id')")
     | Some session =>
         let existingRow := findOrderRow sh (Some (id session)) in
         if Nat.ltb 0 existingRow then
           Logger_log ("Order already exists: " ++ id session)
         else
           let customerEmail := customerEmail_of session in
           let items := format_items session in
           let formattedAddress := format_address session in
           date <- now env ;;
           lastUpdated <- now env ;;
           appendRow [ id session; customerEmail; date; "Placed";
                       JSON_stringify env items;
                       JSON_stringify env formattedAddress;
                       ""; "No"; lastUpdated ] ;;
           Logger_log ("Order saved: " ++ id session)
     end)
    (fun error =>
       Logger_log ("Error saving order: " ++ toString error) ;;
       throw error).

Definition handleStripeWebhook (env : Env) (e : PostEvent) : M Response :=
  try_catch
    (let signature := stripe_signature e in
     event <- lift (contents e) ;;
     (if Js.strict_eq (type event) "checkout.session.completed" then
        match data event with
        | None =>
            throw (TypeError
                     "Cannot read properties of undefined (reading 'object')")
        | Some session => saveOrderToSheet env session
        end
      else ret tt) ;;
     ret RespReceived)
    (fun error =>
       Logger_log ("Error handling webhook: " ++ toString error) ;;
       ret (RespError (toString error))).

(** *** Status *)

Definition getOrderStatus (env : Env) (sessionId : option string) : M Response :=
  try_catch
    (sh <- getSheet ;;
     let row := findOrderRow sh sessionId in
     if Nat.leb row 0 then ret (RespError "Order not found")
     else
       let data := getRange9 sh row in
       items <- lift (JSON_parse env
                        (if Js.truthy (cell data 4) then cell data 4 else "[]")) ;;
       shippingAddress <-
         lift (JSON_parse env
                 (if Js.truthy (cell data 5) then cell data 5 else "{}")) ;;
       ret (RespOrder
              {| order_sessionId := cell data 0;
                 order_email := cell data 1;
                 order_date := cell data 2;
                 order_status := cell data 3;
                 order_items := items;
                 order_shippingAddress := shippingAddress;
                 order_trackingNumber := cell data 6;
                 order_emailSent := cell data 7;
                 order_lastUpdated := cell data 8 |}))
    (fun error =>
       Logger_log ("Error getting order status: " ++ toString error) ;;
       ret (RespError (toString error))).

Definition doGet (env : Env) (e : GetEvent) : M Response :=
  try_catch
    (if Js.strict_eq (get_action e) "getOrderStatus"
     then getOrderStatus env (get_sessionId e)
     else ret (RespError "Invalid action"))
    (fun error =>
       Logger_log ("Error in doGet: " ++ toString error) ;;
       ret (RespError (toString error))).

(** *** Checkout sessions *)

Definition createCheckoutSession (env : Env) (data : Body) : M Response :=
  try_catch
    (let environment := Js.or_else (environment data) "production" in
     match cart data with
     | None => throw (Error "Cart is empty")
     | Some cart =>
         match items cart with
         | None => throw (Error "Cart is empty")
         | Some [] => throw (Error "Cart is empty")
         | Some cart_items =>
             let lineItems :=
               map (fun item => {| price := stripePriceId item;
                                   line_quantity := item_quantity item |})
                   cart_items in
             let baseUrl :=
               if String.eqb environment "development"
               then "http://127.0.0.1:8000"
               else "https://www.agroverse.shop" in
             let successUrl :=
               baseUrl ++ "/order-status?session_id={CHECKOUT_SESSION_ID}" in
             let cancelUrl := baseUrl ++ "/checkout" in
             let meta :=
               {| cartSessionId := Js.or_else (cart_sessionId cart) "";
                  meta_environment := environment;
                  source := "agroverse_shop" |} in
             let payload :=
               match shippingAddress data with
               | None =>
                   {| mode := "payment";
                      line_items := lineItems;
                      success_url := successUrl;
                      cancel_url := cancelUrl;
                      shipping_address_collection := Some ["US"];
                      billing_address_collection := "required";
                      phone_number_collection := true;
                      metadata := meta;
                      shipping_address := None |}
               | Some shippingAddress =>
                   {| mode := "payment";
                      line_items := lineItems;
                      success_url := successUrl;
                      cancel_url := cancelUrl;
                      shipping_address_collection := None;
                      billing_address_collection := "required";
                      phone_number_collection := true;
                      metadata := meta;
                      shipping_address :=
                        Some {| sa_line1 := form_address shippingAddress;
                                sa_city := form_city shippingAddress;
                                sa_state := form_state shippingAddress;
                                sa_postal_code := form_zip shippingAddress;
                                sa_country :=
                                  Js.or_else (form_country shippingAddress) "US" |} |}
               end in
             session <-
               UrlFetchApp_fetch env
                 {| url := "https://api.stripe.com/v1/checkout/sessions";
                    authorization := "Bearer " ++ stripeSecretKey (CONFIG env);
                    content_type := "application/x-www-form-urlencoded";
                    payload := payload |} ;;
             match session_error session with
             | Some message => throw (Error message)
             | None =>
                 ret (RespCheckout (session_url session) (session_id session))
             end
         end
     end)
    (fun error =>
       Logger_log ("Error creating checkout session: " ++ toString error) ;;
       ret (RespError (toString error))).

Definition doPost (env : Env) (e : PostEvent) : M Response :=
  try_catch
    (data <- lift (contents e) ;;
     if Js.strict_eq (action data) "createCheckoutSession"
     then createCheckoutSession env data
     else
       match stripe_signature e with
       | Some (String _ _) => handleStripeWebhook env e
       | _ => ret (RespError "Invalid action")
       end)
    (fun error =>
       Logger_log ("Error in doPost: " ++ toString error) ;;
       ret (RespError (toString error))).

(** *** Tracking e-mails *)

(** The message [sendTrackingEmail] composes. *)
Definition tracking_mail (email sessionId trackingNumber status : string) : Mail :=
  let trackingUrl := Server.getTrackingUrl trackingNumber in
  let subject := "Your Agroverse Order Has Shipped!" in
  let body :=
    Js.trim
      (Js.nl ++ "Hello," ++ Js.nl ++ Js.nl ++
       "Your order (" ++ sessionId ++ ") has been shipped!" ++ Js.nl ++ Js.nl ++
       "Tracking Number: " ++ trackingNumber ++ Js.nl ++
       (if Js.truthy trackingUrl
        then "Track your package: " ++ trackingUrl else "") ++ Js.nl ++ Js.nl ++
       "Status: " ++ status ++ Js.nl ++ Js.nl ++
       "Thank you for your purchase!" ++ Js.nl ++ Js.nl ++
       "Best regards," ++ Js.nl ++
       "Agroverse Team" ++ Js.nl ++ "    ") in
  {| to := email; subject := subject; body := body |}.

Definition sendTrackingEmail (env : Env)
           (email sessionId trackingNumber status : string) : M unit :=
  try_catch
    (MailApp_sendEmail env
       (tracking_mail email sessionId trackingNumber status) ;;
     Logger_log ("Tracking email sent to: " ++ email))
    (fun error => Logger_log ("Error sending email: " ++ toString error)).

(** The test of the scan: a tracking number that is not blank and an
    "Email Sent" cell other than [Yes]. *)
Definition due (row : Row) : bool :=
  let trackingNumber := cell row 6 in
  let emailSent := cell row 7 in
  Js.truthy trackingNumber && Js.truthy (Js.trim trackingNumber)
  && negb (String.eqb emailSent "Yes").

(** The body of the scan loop at index [i] (0-based in [data]). *)
Definition scan_row (env : Env) (i : nat) (row : Row) : M unit :=
  let sessionId := cell row 0 in
  let email := cell row 1 in
  let status := cell row 3 in
  let trackingNumber := cell row 6 in
  if due row then
    sendTrackingEmail env email sessionId trackingNumber status ;;
    setValue (i + 1) 8 "Yes" ;;
    lastUpdated <- now env ;;
    setValue (i + 1) 9 lastUpdated
  else ret tt.

(** [for (let i = from; i < data.length; i++)] over the rows from [from]. *)
Fixpoint scan_from (env : Env) (i : nat) (rows : list Row) : M unit :=
  match rows with
  | [] => ret tt
  | row :: rest => scan_row env i row ;; scan_from env (S i) rest
  end.

Definition sendTrackingEmails (env : Env) : M unit :=
  try_catch
    (sh <- getSheet ;;
     let data := getValues sh in
     scan_from env 1 (tl data))
    (fun error =>
       Logger_log ("Error sending tracking emails: " ++ toString error)).

(** *** The operations of the back end *)

Inductive Op : Type :=
| Post : PostEvent -> Op
| Get : GetEvent -> Op
| Tick : Op.

(** The world an operation leaves. *)
Definition step (env : Env) (op : Op) (w : World) : World :=
  match op with
  | Post e => snd (doPost env e w)
  | Get e => snd (doGet env e w)
  | Tick => snd (sendTrackingEmails env w)
  end.

(** Delivering the same event [n] times in a row. *)
Fixpoint deliver (env : Env) (e : PostEvent) (n : nat) (w : World) : World :=
  match n with
  | O => w
  | S k => deliver env e k (snd (handleStripeWebhook env e w))
  end.

(** [n] runs of the scan in a row. *)
Fixpoint runs (env : Env) (n : nat) (w : World) : World :=
  match n with
  | O => w
  | S k => runs env k (snd (sendTrackingEmails env w))
  end.

(** *** Vocabulary of the specification *)

(** The orders a sheet holds under a transaction id: the data rows (all
    but the first, the header) whose first cell is that id. *)
Definition orders_of (sh : list Row) (k : string) : list Row :=
  filter (fun r => String.eqb (cell r 0) k) (tl sh).

(** The notification a run owes for a row. *)
Definition mail_of (row : Row) : Mail :=
  tracking_mail (cell row 1) (cell row 0) (cell row 6) (cell row 3).

(** A row marked as notified at time [t]. *)
Definition marked (t : string) (row : Row) : Row :=
  update_nth "" (fun _ => t) 8 (update_nth "" (fun _ => "Yes") 7 row).

(** What one pass of the scan makes of a row: marked if it was due,
    untouched if not. *)
Definition scanned (row row' : Row) : Prop :=
  if due row then exists t, row' = marked t row else row' = row.

(** The messages the transport accepts. *)
Definition accepted (env : Env) (ms : list Mail) : list Mail :=
  filter (fun m => match transport env m with
                   | None => true
                   | Some _ => false
                   end) ms.

(** The row [saveOrderToSheet] appends for a session when the clock has
    been read [n] times. *)
Definition new_row (env : Env) (n : nat) (session : Session) : Row :=
  [ id session; customerEmail_of session; clock env n; "Placed";
    JSON_stringify env (format_items session);
    JSON_stringify env (format_address session);
    ""; "No"; clock env (S n) ].

(** The order [getOrderStatus] reports for that row. *)
Definition new_order (env : Env) (n : nat) (session : Session) : Order :=
  {| order_sessionId := id session;
     order_email := customerEmail_of session;
     order_date := clock env n;
     order_status := "Placed";
     order_items := format_items session;
     order_shippingAddress := format_address session;
     order_trackingNumber := "";
     order_emailSent := "No";
     order_lastUpdated := clock env (S n) |}.

(** The text codec gives back the document it printed, and prints it as
    a text that is not empty. *)
Definition round_trips (env : Env) (j : json) : Prop :=
  JSON_stringify env j <> "" /\
  JSON_parse env (JSON_stringify env j) = Ok j.

(** A sheet as the script expects it: a header row, and at most one
    order under each transaction id. *)
Definition well_formed (sh : list Row) : Prop :=
  sh <> [] /\ forall k, length (orders_of sh k) <= 1.

(** A body that carries the completed checkout session [s]. *)
Definition completion_of (b : Body) (s : Session) : Prop :=
  type b = Some "checkout.session.completed" /\ data b = Some (Some s).

(** A request with no cart, or a cart with no item. *)
Definition cart_is_empty (b : Body) : Prop :=
  match cart b with
  | None => True
  | Some c => match items c with
              | None | Some [] => True
              | Some (_ :: _) => False
              end
  end.

(** A mail transport that delivers every message. *)
Definition transport_up (env : Env) : Prop :=
  forall m, transport env m = None.

End Ledger.

(* ================================================================== *)
(** ** A JSON text codec and a platform for closed examples *)

Module Codec.
Import Ledger.

Definition dquote : ascii := ascii_of_nat 34.
Definition backslash : ascii := ascii_of_nat 92.

Definition print_N (n : N) : string := NilZero.string_of_uint (N.to_uint n).

Fixpoint print_fraction (fuel : nat) (r d : N) : string :=
  match fuel with
  | O => ""
  | S f =>
      if N.eqb r 0 then ""
      else print_N (r * 10 / d) ++ print_fraction f ((r * 10) mod d) d
  end.

Definition print_number (q : Q) : string :=
  let a := Z.to_N (Z.abs (Qnum q)) in
  let d := Npos (Qden q) in
  (if Z.ltb (Qnum q) 0 then "-" else "") ++
  print_N (a / d) ++
  (if N.eqb (a mod d) 0 then "" else "." ++ print_fraction 17 (a mod d) d).

Fixpoint escape (s : string) : string :=
  match s with
  | EmptyString => EmptyString
  | String c r =>
      if Ascii.eqb c dquote || Ascii.eqb c backslash
      then String backslash (String c (escape r))
      else String c (escape r)
  end.

Definition print_string (s : string) : string :=
  String dquote (escape s ++ String dquote "").

Fixpoint stringify (j : json) : string :=
  match j with
  | JNull => "null"
  | JBool true => "true"
  | JBool false => "false"
  | JNum q => print_number q
  | JStr s => print_string s
  | JArr l =>
      "[" ++ (fix elements (l : list json) : string :=
                match l with
                | [] => ""
                | x :: r =>
                    stringify x ++
                    match r with [] => "" | _ => "," ++ elements r end
                end) l ++ "]"
  | JObj l =>
      "{" ++ (fix members (l : list (string * json)) : string :=
                match l with
                | [] => ""
                | (k, v) :: r =>
                    print_string k ++ ":" ++ stringify v ++
                    match r with [] => "" | _ => "," ++ members r end
                end) l ++ "}"
  end.

Fixpoint skip_ws (s : string) : string :=
  match s with
  | String c r => if Js.is_space c then skip_ws r else s
  | EmptyString => s
  end.

(** The text of a string up to its closing quote, and what follows. *)
Fixpoint read_string (s : string) : option (string * string) :=
  match s with
  | EmptyString => None
  | String c r =>
      if Ascii.eqb c dquote then Some ("", r)
      else if Ascii.eqb c backslash then
        match r with
        | String e r' =>
            match read_string r' with
            | Some (t, rest) => Some (String e t, rest)
            | None => None
            end
        | EmptyString => None
        end
      else
        match read_string r with
        | Some (t, rest) => Some (String c t, rest)
        | None => None
        end
  end.

(** Leading decimal digits: their value, their number, what follows. *)
Fixpoint read_digits (s : string) (acc : N) (count : nat) : N * nat * string :=
  match s with
  | String c r =>
      if Js.is_digit c
      then read_digits r (acc * 10 + N.of_nat (Js.code c - 48)) (S count)
      else (acc, count, s)
  | EmptyString => (acc, count, s)
  end.

Definition read_number (s : string) : option (Q * string) :=
  let (neg, s1) :=
    match s with
    | String "-"%char r => (true, r)
    | _ => (false, s)
    end in
  match read_digits s1 0 0 with
  | (_, O, _) => None
  | (ip, _, rest) =>
      let sign := fun z : Z => if neg then Z.opp z else z in
      match rest with
      | String "."%char r =>
          match read_digits r 0 0 with
          | (_, O, _) => None
          | (fp, k, rest') =>
              let scale := (10 ^ N.of_nat k)%N in
              Some (Qred (Qmake (sign (Z.of_N (ip * scale + fp)))
                                (N.succ_pos (N.pred scale))),
                    rest')
          end
      | _ => Some (Qmake (sign (Z.of_N ip)) 1, rest)
      end
  end.

Fixpoint read_value (fuel : nat) (s : string) : option (json * string) :=
  match fuel with
  | O => None
  | S f =>
      let fix elements (n : nat) (s : string) (acc : list json)
        : option (list json * string) :=
        match n with
        | O => None
        | S n' =>
            match read_value f s with
            | Some (v, r) =>
                match skip_ws r with
                | String ","%char r' => elements n' r' (v :: acc)
                | String "]"%char r' => Some (rev (v :: acc), r')
                | _ => None
                end
            | None => None
            end
        end in
      let fix members (n : nat) (s : string) (acc : list (string * json))
        : option (list (string * json) * string) :=
        match n with
        | O => None
        | S n' =>
            match skip_ws s with
            | String c r =>
                if Ascii.eqb c dquote then
                  match read_string r with
                  | Some (k, r1) =>
                      match skip_ws r1 with
                      | String ":"%char r2 =>
                          match read_value f r2 with
                          | Some (v, r3) =>
                              match skip_ws r3 with
                              | String ","%char r4 => members n' r4 ((k, v) :: acc)
                              | String "}"%char r4 => Some (rev ((k, v) :: acc), r4)
                              | _ => None
                              end
                          | None => None
                          end
                      | _ => None
                      end
                  | None => None
                  end
                else None
            | EmptyString => None
            end
        end in
      match skip_ws s with
      | String "["%char r =>
          match skip_ws r with
          | String "]"%char r' => Some (JArr [], r')
          | _ => match elements (String.length r) r [] with
                 | Some (l, r') => Some (JArr l, r')
                 | None => None
                 end
          end
      | String "{"%char r =>
          match skip_ws r with
          | String "}"%char r' => Some (JObj [], r')
          | _ => match members (String.length r) r [] with
                 | Some (l, r') => Some (JObj l, r')
                 | None => None
                 end
          end
      | String c r as t =>
          if Ascii.eqb c dquote then
            match read_string r with
            | Some (v, r') => Some (JStr v, r')
            | None => None
            end
          else if String.prefix "null" t then Some (JNull, String.substring 4 (String.length t - 4) t)
          else if String.prefix "true" t then Some (JBool true, String.substring 4 (String.length t - 4) t)
          else if String.prefix "false" t then Some (JBool false, String.substring 5 (String.length t - 5) t)
          else match read_number t with
               | Some (q, r') => Some (JNum q, r')
               | None => None
               end
      | EmptyString => None
      end
  end.

Definition SyntaxError : exn := JsError "SyntaxError" "Unexpected token in JSON".

Definition parse (s : string) : result json :=
  match read_value (S (String.length s)) s with
  | Some (v, rest) =>
      match skip_ws rest with
      | EmptyString => Ok v
      | _ => Throw SyntaxError
      end
  | None => Throw SyntaxError
  end.

End Codec.

Module Scenario.
Import Ledger.

Definition config : Config :=
  {| stripeSecretKey := "sk_test_key"; stripeWebhookSecret := "whsec_secret";
     sheetId := "sheet-1"; sheetName := "Orders" |}.

Definition stamp (n : nat) : string :=
  "2025-01-01T00:00:0" ++ Codec.print_N (N.of_nat n) ++ ".000Z".

(** A platform on which every service answers. *)
Definition env : Env :=
  {| CONFIG := config;
     clock := stamp;
     transport := fun _ => None;
     processor := fun _ =>
       Ok {| session_error := None;
             session_url := Some "https://checkout.stripe.com/c/pay/cs_1";
             session_id := Some "cs_1" |};
     JSON_stringify := Codec.stringify;
     JSON_parse := Codec.parse |}.

(** The same platform with a mail transport that refuses every message. *)
Definition env_mail_down : Env :=
  {| CONFIG := config;
     clock := stamp;
     transport := fun _ => Some (Error "Invalid email");
     processor := processor env;
     JSON_stringify := Codec.stringify;
     JSON_parse := Codec.parse |}.

Definition header : Row :=
  [ "Order ID"; "Email"; "Date"; "Status"; "Items"; "Shipping Address";
    "Tracking Number"; "Email Sent"; "Last Updated" ].

Definition world_of (sh : list Row) : World :=
  {| sheet := sh; outbox := []; requests := []; log := []; ticks := 0 |}.

(** A sheet with its header row and no order. *)
Definition fresh : World := world_of [header].

(** The completion event of the specification's scenario. *)
Definition tx_1 : Session :=
  {| id := "tx_1";
     customer_details := Some {| email := Some "a@b.com" |};
     customer_email := None;
     shipping_details := None;
     display_items :=
       Some [ {| custom := Some {| custom_name := Some "Cacao" |};
                 description := None;
                 quantity := Some 2%Z;
                 amount := Some 2500%Z |} ] |}.

Definition event_body (ty : string) (s : Session) : Body :=
  {| action := None; cart := None; shippingAddress := None;
     environment := None; type := Some ty; data := Some (Some s) |}.

Definition completed (s : Session) (signature : option string) : PostEvent :=
  {| stripe_signature := signature;
     contents := Ok (event_body "checkout.session.completed" s) |}.

Definition order_row (k tracking sent : string) : Row :=
  [ k; "a@b.com"; stamp 0; "Placed"; "[]"; "{}"; tracking; sent; stamp 1 ].

(** The scenario's event as the processor posts it. *)
Definition tx_1_event : PostEvent :=
  completed tx_1 (Some "t=1735689600,v1=5257a869e7ecebeda32affa62cdca3fa51cad7e7").

(** The same body under a signature nobody computed. *)
Definition tx_1_forged : PostEvent := completed tx_1 (Some "forged").

(** Another type of event about the same session. *)
Definition tx_1_expired : PostEvent :=
  {| stripe_signature := stripe_signature tx_1_event;
     contents := Ok (event_body "checkout.session.expired" tx_1) |}.

(** A sheet with one shipped order waiting for its notification. *)
Definition shipped : World :=
  world_of [header; order_row "tx_1" "1Z999AA10123456784" "No"].

(** Two of them. *)
Definition shipped_twice : World :=
  world_of [header; order_row "tx_1" "1Z999AA10123456784" "No";
            order_row "tx_2" "123456789012" "No"].

(** A sheet whose one order has a blank in its tracking cell. *)
Definition blank_tracking : World :=
  world_of [header; order_row "tx_2" " " "No"].

(** Does [s] occur in [t]? *)
Fixpoint occurs (s t : string) : bool :=
  Js.startsWith t s ||
  match t with
  | EmptyString => false
  | String _ r => occurs s r
  end.

(** Every message sent so far carries the UPS link of the scenario. *)
Definition mails_carry_ups_link (w : World) : bool :=
  forallb (fun m => occurs (Server.getTrackingUrl "1Z999AA10123456784") (body m))
          (outbox w).

(** A checkout request with a cart that holds nothing. *)
Definition empty_cart_request : Body :=
  {| action := Some "createCheckoutSession";
     cart := Some {| items := Some []; cart_sessionId := Some "cart_1" |};
     shippingAddress := None; environment := None;
     type := None; data := None |}.

(** A checkout request for two bags. *)
Definition cart_request : Body :=
  {| action := Some "createCheckoutSession";
     cart := Some {| items := Some [ {| stripePriceId := "price_1";
                                        item_quantity := 2%Z |} ];
                     cart_sessionId := Some "cart_1" |};
     shippingAddress := None; environment := None;
     type := None; data := None |}.

End Scenario.

(* ================================================================== *)
(** ** Histories of the back end *)

Module Traces.
Import Ledger.

(** The operations of a history, one after the other. *)
Fixpoint run_ops (env : Env) (ops : list Op) (w : World) : World :=
  match ops with
  | [] => w
  | op :: rest => run_ops env rest (step env op w)
  end.

(** The text [getOrderStatus] hands to [JSON.parse] for a cell:
    [cell || fallback]. *)
Definition cell_or (c fallback : string) : string :=
  if Js.truthy c then c else fallback.

(** The order [getOrderStatus] builds from a row and its two parsed
    documents. *)
Definition order_of_row (row : Row) (items shippingAddress : json) : Order :=
  {| order_sessionId := cell row 0;
     order_email := cell row 1;
     order_date := cell row 2;
     order_status := cell row 3;
     order_items := items;
     order_shippingAddress := shippingAddress;
     order_trackingNumber := cell row 6;
     order_emailSent := cell row 7;
     order_lastUpdated := cell row 8 |}.

(** What [getOrderStatus] answers on a sheet, as a function of the sheet
    alone. *)
Definition status_answer (env : Env) (sh : list Row) (k : option string) : Response :=
  let row := findOrderRow sh k in
  if Nat.leb row 0 then RespError "Order not found"
  else
    let data := getRange9 sh row in
    match JSON_parse env (cell_or (cell data 4) "[]") with
    | Throw x => RespError (toString x)
    | Ok items =>
        match JSON_parse env (cell_or (cell data 5) "{}") with
        | Throw x => RespError (toString x)
        | Ok shippingAddress => RespOrder (order_of_row data items shippingAddress)
        end
    end.

(** Two orders that differ at most in Email Sent and Last Updated. *)
Definition same_but_notified (o o' : Order) : Prop :=
  order_sessionId o' = order_sessionId o /\ order_email o' = order_email o /\
  order_date o' = order_date o /\ order_status o' = order_status o /\
  order_items o' = order_items o /\
  order_shippingAddress o' = order_shippingAddress o /\
  order_trackingNumber o' = order_trackingNumber o.

(** Two answers that are the same, or two orders that differ at most in
    Email Sent and Last Updated. *)
Definition answers_agree (r r' : Response) : Prop :=
  match r, r' with
  | RespOrder o, RespOrder o' => same_but_notified o o'
  | _, _ => r' = r
  end.

(** Two rows that differ at most in the Email Sent and Last Updated
    cells. *)
Definition agree_off_flags (row row' : Row) : Prop :=
  forall j, j <> 7 -> j <> 8 -> cell row' j = cell row j.

(** A POST body the webhook handler cannot ingest: it does not parse, or
    it is a completed event with no session object in it. *)
Definition malformed (e : PostEvent) : Prop :=
  match contents e with
  | Throw _ => True
  | Ok b =>
      type b = Some "checkout.session.completed" /\
      (data b = None \/ data b = Some None)
  end.

(** The base address of the redirects for a requested environment. *)
Definition base_url (environment : option string) : string :=
  if Js.strict_eq environment "development"
  then "http://127.0.0.1:8000"
  else "https://www.agroverse.shop".

(** A text that ends with a character that is no white space. *)
Definition ends_solid (t : string) : Prop :=
  exists r c, t = r ++ String c "" /\ Js.is_space c = false.

(** The body of the notification once the template's outer white space
    is gone. *)
Definition mail_text (sessionId trackingNumber status : string) : string :=
  "Hello," ++ Js.nl ++ Js.nl ++
  "Your order (" ++ sessionId ++ ") has been shipped!" ++ Js.nl ++ Js.nl ++
  "Tracking Number: " ++ trackingNumber ++ Js.nl ++
  "Track your package: " ++ Server.getTrackingUrl trackingNumber ++ Js.nl ++ Js.nl ++
  "Status: " ++ status ++ Js.nl ++ Js.nl ++
  "Thank you for your purchase!" ++ Js.nl ++ Js.nl ++
  "Best regards," ++ Js.nl ++
  "Agroverse Team".

End Traces.

Module Cases.
Import Ledger Scenario.

(** A second completed session, with nothing but its id and a fallback
    e-mail. *)
Definition tx_2 : Session :=
  {| id := "tx_2";
     customer_details := None;
     customer_email := Some "c@d.com";
     shipping_details := None;
     display_items := None |}.

Definition tx_2_event : PostEvent := completed tx_2 (Some "t=1,v1=00").

(** A POST whose body is not JSON. *)
Definition garbled : PostEvent :=
  {| stripe_signature := Some "t=1,v1=00";
     contents := Throw (JsError "SyntaxError" "Unexpected token < in JSON at position 0") |}.

(** A completion event with no [data.object]. *)
Definition hollow : PostEvent :=
  {| stripe_signature := Some "t=1,v1=00";
     contents := Ok {| action := None; cart := None; shippingAddress := None;
                       environment := None;
                       type := Some "checkout.session.completed";
                       data := Some None |} |}.

(** A sheet with a shipped order and an order whose Items cell was
    damaged by hand. *)
Definition edited : World :=
  world_of [ header;
             [ "tx_1"; "a@b.com"; stamp 0; "Shipped"; ""; ""; "1Z999AA10123456784";
               "No"; stamp 1 ];
             [ "tx_3"; "e@f.com"; stamp 0; "Placed"; "[oops"; "{}"; ""; "No"; stamp 1 ] ].

Definition status_request (k : string) : GetEvent :=
  {| get_action := Some "getOrderStatus"; get_sessionId := Some k |}.

(** A history: two orders, a replay, a checkout request, an
    administrator-free scan and a status query. *)
Definition history : list Op :=
  [ Post tx_1_event; Post tx_2_event; Post tx_1_forged;
    Post {| stripe_signature := None; contents := Ok cart_request |};
    Tick; Get (status_request "tx_2") ].

End Cases.

(* ================================================================== *)
(** ** The checkout page ([js/checkout.js]) *)

Module CheckoutPage.
Import Regex.

(** The object [validateShippingForm] reads: each field a string, or
    undefined. *)
Record FormData : Type :=
  { fullName : option string; email : option string; phone : option string;
    address : option string; city : option string; state : option string;
    zip : option string; country : option string }.

Record Validation : Type := { valid : bool; errors : list string }.

(** [!x] for a possibly undefined string. *)
Definition falsy (x : option string) : bool :=
  match x with
  | Some s => negb (Js.truthy s)
  | None => true
  end.

(** The string of a field that is known to be one. *)
Definition text (x : option string) : string :=
  match x with
  | Some s => s
  | None => ""
  end.

(** [t.includes(s)] *)
Fixpoint includes (t s : string) : bool :=
  Js.startsWith t s ||
  match t with
  | EmptyString => false
  | String _ r => includes r s
  end.

(** [/^\d{5}(-\d{4})?$/] *)
Definition ZIP_PATTERN : regex :=
  Cat (Times 5 digit) (Alt Eps (Cat (Lit "-") (Times 4 digit))).

(** [if (bad) errors.push(message)] *)
Definition push_if (bad : bool) (message : string) (errors : list string)
  : list string :=
  if bad then (errors ++ [message])%list else errors.

Definition validateShippingForm (formData : FormData) : Validation :=
  let errors := [] in
  let errors :=
    push_if (falsy (fullName formData) ||
             Nat.ltb (String.length (Js.trim (text (fullName formData)))) 2)
            "Full name is required" errors in
  let errors :=
    push_if (falsy (email formData) ||
             negb (includes (text (email formData)) "@"))
            "Valid email is required" errors in
  let errors :=
    push_if (falsy (phone formData) ||
             Nat.ltb (String.length (Js.trim (text (phone formData)))) 10)
            "Valid phone number is required" errors in
  let errors :=
    push_if (falsy (address formData) ||
             Nat.ltb (String.length (Js.trim (text (address formData)))) 5)
            "Street address is required" errors in
  let errors :=
    push_if (falsy (city formData) ||
             Nat.ltb (String.length (Js.trim (text (city formData)))) 2)
            "City is required" errors in
  let errors :=
    push_if (falsy (state formData) ||
             Nat.ltb (String.length (Js.trim (text (state formData)))) 2)
            "State is required" errors in
  let errors :=
    push_if (falsy (zip formData) ||
             negb (test ZIP_PATTERN (text (zip formData))))
            "Valid ZIP code is required" errors in
  let errors :=
    push_if (falsy (country formData)) "Country is required" errors in
  {| valid := Nat.eqb (length errors) 0; errors := errors |}.

(** A form: the value of the first element with a given [name], if there
    is one. *)
Definition Form : Type := string -> option string.

(** [form.querySelector('[name=...]')?.value || fallback] *)
Definition field (form : Form) (name fallback : string) : option string :=
  Some (Js.or_else (form name) fallback).

Definition getFormData (form : Form) : FormData :=
  {| fullName := field form "fullName" "";
     email := field form "email" "";
     phone := field form "phone" "";
     address := field form "address" "";
     city := field form "city" "";
     state := field form "state" "";
     zip := field form "zip" "";
     country := field form "country" "US" |}.

(** *** The conditions in words *)

(** A field that holds at least [n] characters once trimmed. *)
Definition at_least (n : nat) (x : option string) : Prop :=
  exists s, x = Some s /\ n <= String.length (Js.trim s).

(** A text with an at sign somewhere in it. *)
Definition has_at (x : option string) : Prop :=
  exists a b, x = Some (a ++ "@" ++ b).

(** Five digits, or five digits, a hyphen and four digits. *)
Definition zip_shape (z : string) : Prop :=
  (String.length z = 5 /\ Js.all_chars Js.is_digit z) \/
  (exists a b,
      z = a ++ "-" ++ b /\
      String.length a = 5 /\ Js.all_chars Js.is_digit a /\
      String.length b = 4 /\ Js.all_chars Js.is_digit b).

Definition acceptable (f : FormData) : Prop :=
  at_least 2 (fullName f) /\ has_at (email f) /\ at_least 10 (phone f) /\
  at_least 5 (address f) /\ at_least 2 (city f) /\ at_least 2 (state f) /\
  (exists z, zip f = Some z /\ zip_shape z) /\
  (exists c, country f = Some c /\ c <> "").

(** The messages, in the order of the checks. *)
Definition messages : list string :=
  [ "Full name is required"; "Valid email is required";
    "Valid phone number is required"; "Street address is required";
    "City is required"; "State is required"; "Valid ZIP code is required";
    "Country is required" ].

(** [l] is [m] with some entries left out. *)
Fixpoint sublist (l m : list string) : bool :=
  match l, m with
  | [], _ => true
  | _ :: _, [] => false
  | x :: l', y :: m' =>
      if String.eqb x y then sublist l' m' else sublist l m'
  end.

(** A filled-in form. *)
Definition sample_form : Form :=
  fun name =>
    if String.eqb name "fullName" then Some " Ada Lovelace "
    else if String.eqb name "email" then Some "ada@example.com"
    else if String.eqb name "phone" then Some "555-010-0199"
    else if String.eqb name "address" then Some "12 Cacao Lane"
    else if String.eqb name "city" then Some "Oakland"
    else if String.eqb name "state" then Some "CA"
    else if String.eqb name "zip" then Some "94607-1234"
    else None.

End CheckoutPage.

(* ================================================================== *)
(** ** The shopping cart ([js/cart.js])

    The cart lives in [localStorage] as JSON text under one key. Numbers
    are exact: quantities are integers, a price is a rational that is
    stored and never computed with
    here ([calculateSubtotal], which multiplies and adds floating-point
    prices, is left out). A stored text either fails to parse or parses to
    a cart object. *)

Module CartJs.

Record Item : Type :=
  { productId : string; name : string; price : Q; quantity : Z;
    image : string; stripePriceId : string }.

Record Cart : Type :=
  { sessionId : string; items : list Item; createdAt : string;
    updatedAt : string }.

(** The argument of [addToCart]: any of its properties may be missing. *)
Record Product : Type :=
  { product_productId : option string; product_name : option string;
    product_price : option Q; product_quantity : option Z;
    product_image : option string; product_stripePriceId : option string }.

Record Platform : Type :=
  { (** [new Date().toISOString()] at the n-th reading *)
    clock : nat -> string;
    (** [generateSessionId()] at the n-th reading *)
    session_ids : nat -> string;
    JSON_stringify : Cart -> string;
    (** [JSON.parse] of a stored text that holds a cart; [Throw] for a
        text that does not parse *)
    JSON_parse : string -> Ledger.result Cart;
    (** [localStorage.setItem] throws for this text *)
    quota_exceeded : string -> bool;
    (** [parseInt(n, 10)] for an integer [n] of 10^21 or more: such a
        number prints in exponent form, and [parseInt] reads the digits
        before its point or exponent *)
    parseInt_exponent : Z -> Z }.

(** The page's state: the text under [agroverse_cart], the [cartUpdated]
    events dispatched so far (each with the cart it carries), and the
    number of clock and id readings. *)
Record Browser : Type :=
  { storage : option string; events : list Cart; ticks : nat }.

Definition S_ (A : Type) : Type := Browser -> A * Browser.

Definition tick (st : Browser) : Browser :=
  {| storage := storage st; events := events st; ticks := S (ticks st) |}.

Definition generateSessionId (p : Platform) : S_ string :=
  fun st => (session_ids p (ticks st), tick st).

Definition now (p : Platform) : S_ string :=
  fun st => (clock p (ticks st), tick st).

(** The cart [getCart] and [clearCart] build from nothing. *)
Definition empty_cart (p : Platform) : S_ Cart :=
  fun st =>
    let (sid, st1) := generateSessionId p st in
    let (created, st2) := now p st1 in
    let (updated, st3) := now p st2 in
    ({| sessionId := sid; items := []; createdAt := created;
        updatedAt := updated |}, st3).

Definition getCart (p : Platform) : S_ Cart :=
  fun st =>
    match storage st with
    | Some (String _ _ as cartData) =>
        match JSON_parse p cartData with
        | Ledger.Ok cart => (cart, st)
        | Ledger.Throw _ => empty_cart p st
        end
    | _ => empty_cart p st
    end.

Definition saveCart (p : Platform) (cart : Cart) : S_ bool :=
  fun st =>
    let (updated, st1) := now p st in
    let cart := {| sessionId := sessionId cart; items := items cart;
                   createdAt := createdAt cart; updatedAt := updated |} in
    let text := JSON_stringify p cart in
    if quota_exceeded p text then (false, st1)
    else (true, {| storage := Some text;
                   events := (events st1 ++ [cart])%list;
                   ticks := ticks st1 |}).

(** [!x] for a possibly missing string, and for a possibly missing
    number. *)
Definition no_text (x : option string) : bool :=
  match x with
  | Some s => negb (Js.truthy s)
  | None => true
  end.

Definition no_number (x : option Q) : bool :=
  match x with
  | Some q => Z.eqb (Qnum q) 0
  | None => true
  end.

Definition text_of (x : option string) : string :=
  match x with Some s => s | None => "" end.

Definition number_of (x : option Q) : Q :=
  match x with Some q => q | None => 0%Q end.

(** [product.quantity || 1] *)
Definition quantity_or_1 (x : option Z) : Z :=
  match x with
  | Some z => if Z.eqb z 0 then 1%Z else z
  | None => 1%Z
  end.

Definition with_quantity (it : Item) (q : Z) : Item :=
  {| productId := productId it; name := name it; price := price it;
     quantity := q; image := image it; stripePriceId := stripePriceId it |}.

(** [i = items.findIndex(item => item.productId === pid)] followed by
    [items[i].quantity = f(items[i].quantity)]: [None] when no item has the
    id. *)
Fixpoint update_first (pid : string) (f : Z -> Z) (l : list Item)
  : option (list Item) :=
  match l with
  | [] => None
  | it :: rest =>
      if String.eqb (productId it) pid
      then Some (with_quantity it (f (quantity it)) :: rest)
      else match update_first pid f rest with
           | Some rest' => Some (it :: rest')
           | None => None
           end
  end.

Definition with_items (cart : Cart) (l : list Item) : Cart :=
  {| sessionId := sessionId cart; items := l; createdAt := createdAt cart;
     updatedAt := updatedAt cart |}.

Definition addToCart (p : Platform) (product : Product) : S_ bool :=
  fun st =>
    let (cart, st1) := getCart p st in
    if no_text (product_productId product) || no_text (product_name product)
       || no_number (product_price product)
    then (false, st1)
    else
      let pid := text_of (product_productId product) in
      let q := quantity_or_1 (product_quantity product) in
      match update_first pid (fun old => (old + q)%Z) (items cart) with
      | Some l => saveCart p (with_items cart l) st1
      | None =>
          saveCart p
            (with_items cart
               (items cart ++
                [ {| productId := pid;
                     name := text_of (product_name product);
                     price := number_of (product_price product);
                     quantity := q;
                     image := Js.or_else (product_image product) "";
                     stripePriceId :=
                       Js.or_else (product_stripePriceId product) "" |} ])%list)
            st1
      end.

Definition removeFromCart (p : Platform) (pid : string) : S_ bool :=
  fun st =>
    let (cart, st1) := getCart p st in
    saveCart p
      (with_items cart
         (filter (fun item => negb (String.eqb (productId item) pid)) (items cart)))
      st1.

(** [parseInt(quantity, 10)] of an integer above zero: below 10^21 the
    number prints in plain digits and is read back whole. *)
Definition parseInt (p : Platform) (quantity : Z) : Z :=
  if Z.ltb quantity (10 ^ 21) then quantity else parseInt_exponent p quantity.

Definition updateQuantity (p : Platform) (pid : string) (q : Z) : S_ bool :=
  fun st =>
    if Z.leb q 0 then removeFromCart p pid st
    else
      let (cart, st1) := getCart p st in
      match update_first pid (fun _ => parseInt p q) (items cart) with
      | Some l => saveCart p (with_items cart l) st1
      | None => (false, st1)
      end.

Definition clearCart (p : Platform) : S_ bool :=
  fun st =>
    let (cart, st1) := empty_cart p st in
    saveCart p cart st1.

(** [items.reduce((total, item) => total + item.quantity, 0)] *)
Definition total_quantity (l : list Item) : Z :=
  fold_left (fun total item => (total + quantity item)%Z) l 0%Z.

Definition getCartItemCount (p : Platform) : S_ Z :=
  fun st =>
    let (cart, st1) := getCart p st in
    (total_quantity (items cart), st1).

(** *** The four writing operations of [window.Cart] *)

Inductive CartOp : Type :=
| Add : Product -> CartOp
| Remove : string -> CartOp
| UpdateQuantity : string -> Z -> CartOp
| Clear : CartOp.

Definition run (p : Platform) (op : CartOp) : S_ bool :=
  match op with
  | Add product => addToCart p product
  | Remove pid => removeFromCart p pid
  | UpdateQuantity pid q => updateQuantity p pid q
  | Clear => clearCart p
  end.

(** *** Vocabulary *)

(** The storage holds a text that parses to [c]. *)
Definition holds (p : Platform) (st : Browser) (c : Cart) : Prop :=
  exists t, storage st = Some t /\ t <> "" /\ JSON_parse p t = Ledger.Ok c.

(** The storage holds nothing [getCart] can use. *)
Definition unusable (p : Platform) (st : Browser) : Prop :=
  match storage st with
  | None => True
  | Some t => t = "" \/ exists x, JSON_parse p t = Ledger.Throw x
  end.

Definition ids (l : list Item) : list string := map productId l.

(** The quantities under a product id, added up. *)
Definition quantity_of (pid : string) (l : list Item) : Z :=
  total_quantity (filter (fun item => String.eqb (productId item) pid) l).

(** The items of the other products, in cart order. *)
Definition others (pid : string) (l : list Item) : list Item :=
  filter (fun item => negb (String.eqb (productId item) pid)) l.

(** A product [addToCart] accepts: id and name not empty, price a number
    other than zero. *)
Definition sellable (product : Product) : Prop :=
  (exists i, product_productId product = Some i /\ i <> "") /\
  (exists n, product_name product = Some n /\ n <> "") /\
  (exists q, product_price product = Some q /\ Qnum q <> 0%Z).

(** The codec gives back the cart it printed, as a text that is not
    empty. *)
Definition round_trips (p : Platform) (c : Cart) : Prop :=
  JSON_stringify p c <> "" /\
  JSON_parse p (JSON_stringify p c) = Ledger.Ok c.

(** The storage is as the cart's own operations leave it: no text, an
    empty text, or the text [JSON.stringify] prints for a cart, which
    [JSON.parse] reads back. (A text put there by other means may parse to
    a value that is no cart, such as [null] or [{}]; [cart.items] then
    fails in every operation that reads the cart. [JSON_parse] gives
    carts, so such a text is outside the model.) *)
Definition stored_by_script (p : Platform) (st : Browser) : Prop :=
  match storage st with
  | None => True
  | Some t => t = "" \/ exists c, t = JSON_stringify p c /\ round_trips p c
  end.

(** The item an accepted product becomes when it is new to the cart. *)
Definition item_of (product : Product) : Item :=
  {| productId := text_of (product_productId product);
     name := text_of (product_name product);
     price := number_of (product_price product);
     quantity := quantity_or_1 (product_quantity product);
     image := Js.or_else (product_image product) "";
     stripePriceId := Js.or_else (product_stripePriceId product) "" |}.

(** The cart [saveCart] stores and announces when handed [c] in state
    [st]. *)
Definition saved (p : Platform) (st : Browser) (c : Cart) : Cart :=
  {| sessionId := sessionId c; items := items c; createdAt := createdAt c;
     updatedAt := clock p (ticks st) |}.

(** The state after a successful [saveCart] of [c] in state [st]. *)
Definition written (p : Platform) (st : Browser) (c : Cart) : Browser :=
  {| storage := Some (JSON_stringify p (saved p st c));
     events := (events st ++ [saved p st c])%list;
     ticks := S (ticks st) |}.

End CartJs.

(** A cart codec and a page for closed examples. *)
Module CartCases.
Import CartJs.

Definition item_json (it : Item) : Ledger.json :=
  Ledger.JObj [ ("productId", Ledger.JStr (productId it));
                ("name", Ledger.JStr (name it));
                ("price", Ledger.JNum (price it));
                ("quantity", Ledger.JNum (inject_Z (quantity it)));
                ("image", Ledger.JStr (image it));
                ("stripePriceId", Ledger.JStr (stripePriceId it)) ].

Definition cart_json (c : Cart) : Ledger.json :=
  Ledger.JObj [ ("sessionId", Ledger.JStr (sessionId c));
                ("items", Ledger.JArr (map item_json (items c)));
                ("createdAt", Ledger.JStr (createdAt c));
                ("updatedAt", Ledger.JStr (updatedAt c)) ].

Definition keyed (k : string) (kv : string * Ledger.json) : option Ledger.json :=
  if String.eqb (fst kv) k then Some (snd kv) else None.

Definition json_item (j : Ledger.json) : option Item :=
  match j with
  | Ledger.JObj [a; b; c; d; e; f] =>
      match keyed "productId" a, keyed "name" b, keyed "price" c,
            keyed "quantity" d, keyed "image" e, keyed "stripePriceId" f with
      | Some (Ledger.JStr i), Some (Ledger.JStr n), Some (Ledger.JNum q),
        Some (Ledger.JNum k), Some (Ledger.JStr im), Some (Ledger.JStr sp) =>
          Some {| productId := i; name := n; price := q; quantity := Qnum k;
                  image := im; stripePriceId := sp |}
      | _, _, _, _, _, _ => None
      end
  | _ => None
  end.

Fixpoint json_items (l : list Ledger.json) : option (list Item) :=
  match l with
  | [] => Some []
  | j :: r =>
      match json_item j, json_items r with
      | Some it, Some its => Some (it :: its)
      | _, _ => None
      end
  end.

Definition json_cart (j : Ledger.json) : option Cart :=
  match j with
  | Ledger.JObj [a; b; c; d] =>
      match keyed "sessionId" a, keyed "items" b, keyed "createdAt" c,
            keyed "updatedAt" d with
      | Some (Ledger.JStr s), Some (Ledger.JArr l), Some (Ledger.JStr ca),
        Some (Ledger.JStr ua) =>
          match json_items l with
          | Some its => Some {| sessionId := s; items := its; createdAt := ca;
                                updatedAt := ua |}
          | None => None
          end
      | _, _, _, _ => None
      end
  | _ => None
  end.

(** The carts [cart_json] prints, read back; the cases below store no
    other document. *)
Definition parse_cart (t : string) : Ledger.result Cart :=
  match Codec.parse t with
  | Ledger.Ok j =>
      match json_cart j with
      | Some c => Ledger.Ok c
      | None => Ledger.Throw (Ledger.TypeError "not a cart")
      end
  | Ledger.Throw x => Ledger.Throw x
  end.

Definition page : Platform :=
  {| clock := Scenario.stamp;
     session_ids := fun n => "cart_" ++ Codec.print_N (N.of_nat n) ++ "_abc";
     JSON_stringify := fun c => Codec.stringify (cart_json c);
     JSON_parse := parse_cart;
     quota_exceeded := fun _ => false;
     parseInt_exponent := fun _ => 1%Z |}.

Definition cacao : Product :=
  {| product_productId := Some "cacao-200g"; product_name := Some "Cacao";
     product_price := Some (Qmake 25 1); product_quantity := Some 2%Z;
     product_image := None; product_stripePriceId := Some "price_1" |}.

Definition nibs : Item :=
  {| productId := "nibs"; name := "Nibs"; price := Qmake 12 1; quantity := 1%Z;
     image := ""; stripePriceId := "price_2" |}.

Definition cacao_item : Item :=
  {| productId := "cacao-200g"; name := "Cacao"; price := Qmake 25 1;
     quantity := 3%Z; image := ""; stripePriceId := "price_1" |}.

Definition stored_cart : Cart :=
  {| sessionId := "cart_0_abc"; items := [nibs; cacao_item];
     createdAt := Scenario.stamp 1; updatedAt := Scenario.stamp 2 |}.

(** A page whose storage holds [stored_cart]. *)
Definition visited : Browser :=
  {| storage := Some (JSON_stringify page stored_cart); events := []; ticks := 3 |}.

(** A first visit: nothing stored. *)
Definition first_visit : Browser :=
  {| storage := None; events := []; ticks := 0 |}.

End CartCases.

(* ================================================================== *)
(** ** The form encoding of the processor call ([buildFormData]) *)

Module FormEncoding.

(** The characters [encodeURIComponent] leaves as they are: letters,
    digits and [- _ . ! ~ * ' ( )]. *)
Definition unreserved (c : ascii) : bool :=
  Js.is_upper c || Js.is_lower c || Js.is_digit c
  || existsb (Ascii.eqb c) (list_ascii_of_string "-_.!~*'()").

Definition hex_digit (n : nat) : ascii :=
  nth n (list_ascii_of_string "0123456789ABCDEF") "0"%char.

(** [%XX] for the byte [b] *)
Definition percent (b : nat) : string :=
  String "%" (String (hex_digit (b / 16)) (String (hex_digit (b mod 16)) "")).

(** One character: itself when unreserved, else the bytes of its UTF-8
    form, each as [%XX]; the codes 128 to 255 are read as the code points
    U+0080 to U+00FF, which take two bytes. *)
Definition encode_char (c : ascii) : string :=
  if unreserved c then String c ""
  else if Nat.ltb (Js.code c) 128 then percent (Js.code c)
  else percent (192 + Js.code c / 64) ++ percent (128 + Js.code c mod 64).

Fixpoint encodeURIComponent (s : string) : string :=
  match s with
  | EmptyString => EmptyString
  | String c r => encode_char c ++ encodeURIComponent r
  end.

(** A property value as [buildFormData] tells them apart: [undefined],
    [null], an object or array (given as the JSON document
    [JSON.stringify] prints for it), or a primitive through its text. *)
Inductive value : Type :=
| Undefined : value
| Null : value
| Object : Ledger.json -> value
| Text : string -> value.

(** The text of a value that is kept, before encoding. *)
Definition raw (stringify : Ledger.json -> string) (v : value) : option string :=
  match v with
  | Undefined | Null => None
  | Object j => Some (stringify j)
  | Text s => Some s
  end.

(** [params.join('&')] *)
Fixpoint join (sep : string) (l : list string) : string :=
  match l with
  | [] => ""
  | [x] => x
  | x :: r => x ++ sep ++ join sep r
  end.

(** The object is given as its properties in enumeration order. *)
Fixpoint params (stringify : Ledger.json -> string) (data : list (string * value))
  : list string :=
  match data with
  | [] => []
  | (key, v) :: rest =>
      match v with
      | Undefined | Null => params stringify rest
      | Object j =>
          (key ++ "=" ++ encodeURIComponent (stringify j)) :: params stringify rest
      | Text s => (key ++ "=" ++ encodeURIComponent s) :: params stringify rest
      end
  end.

Definition buildFormData (stringify : Ledger.json -> string)
           (data : list (string * value)) : string :=
  join "&" (params stringify data).

(** *** Vocabulary of the properties *)

(** The character [c] does not occur in [s]. *)
Definition free_of (c : ascii) (s : string) : Prop :=
  ~ In c (list_ascii_of_string s).

(** The characters of an encoded text. *)
Definition encoded_char (c : ascii) : bool :=
  unreserved c || Ascii.eqb c "%"
  || existsb (Ascii.eqb c) (list_ascii_of_string "0123456789ABCDEF").

(** The fields [buildFormData] keeps, each with its text before
    encoding. *)
Fixpoint kept (stringify : Ledger.json -> string) (data : list (string * value))
  : list (string * string) :=
  match data with
  | [] => []
  | (key, v) :: rest =>
      match raw stringify v with
      | Some t => (key, t) :: kept stringify rest
      | None => kept stringify rest
      end
  end.

(** Reading the front of an encoded text: the character whose encoding
    it starts with, and the rest. *)
Definition hex_value (c : ascii) : option nat :=
  if Js.is_digit c then Some (Js.code c - 48)
  else if (Nat.leb 65 (Js.code c) && Nat.leb (Js.code c) 70)%bool
       then Some (Js.code c - 55)
       else None.

Definition read_byte (s : string) : option (nat * string) :=
  match s with
  | String "%" (String h (String l r)) =>
      match hex_value h, hex_value l with
      | Some a, Some b => Some (16 * a + b, r)
      | _, _ => None
      end
  | _ => None
  end.

Definition read_char (s : string) : option (ascii * string) :=
  match s with
  | EmptyString => None
  | String c r =>
      if unreserved c then Some (c, r)
      else match read_byte s with
           | Some (b, r1) =>
               if Nat.ltb b 128 then Some (ascii_of_nat b, r1)
               else match read_byte r1 with
                    | Some (b2, r2) =>
                        Some (ascii_of_nat (64 * (b - 192) + (b2 - 128)), r2)
                    | None => None
                    end
           | None => None
           end
  end.

End FormEncoding.

(* ================================================================== *)
(** ** The sheet with typed cells

    [getValues] gives a text for a cell that holds text (the empty text
    for an empty cell), and a number, a truth value or a date for a cell
    the spreadsheet has typed so: a tracking number typed in by hand as
    digits only is a number. [Ledger] is the script on sheets of text;
    here is the script on a sheet of typed cells. *)

Module Typed.
Import Ledger.

Inductive value : Type :=
| Text : string -> value
| Number : Q -> value
| Boolean : bool -> value
(** a date, by the ISO text [JSON.stringify] prints for it *)
| DateValue : string -> value.

(** Truthiness of a cell value. *)
Definition truthy (v : value) : bool :=
  match v with
  | Text s => Js.truthy s
  | Number q => negb (Z.eqb (Qnum q) 0)
  | Boolean b => b
  | DateValue _ => true
  end.

(** [v === s] for a text [s] *)
Definition is_text (v : value) (s : string) : bool :=
  match v with
  | Text t => String.eqb t s
  | _ => false
  end.

(** [sessionId === v] for a possibly undefined text *)
Definition strict_eq (sessionId : option string) (v : value) : bool :=
  match sessionId with
  | Some s => is_text v s
  | None => false
  end.

Record Platform : Type :=
  { base : Env;
    (** [String(v)] for a value that is no text *)
    show : value -> string;
    (** what [v.trim()] throws for a value that is no text *)
    no_trim : value -> exn }.

(** [String(v)]: a value spliced into a text. *)
Definition text_of (pf : Platform) (v : value) : string :=
  match v with
  | Text s => s
  | _ => show pf v
  end.

Definition Row : Type := list value.

Record World : Type :=
  { sheet : list Row;
    outbox : list Mail;
    requests : list StripeRequest;
    log : list string;
    ticks : nat }.

Definition M (A : Type) : Type := World -> result A * World.

Definition ret {A} (a : A) : M A := fun w => (Ok a, w).

Definition throw {A} (e : exn) : M A := fun w => (Throw e, w).

Definition bind {A B} (m : M A) (k : A -> M B) : M B :=
  fun w =>
    match m w with
    | (Ok a, w') => k a w'
    | (Throw e, w') => (Throw e, w')
    end.

Definition try_catch {A} (m : M A) (h : exn -> M A) : M A :=
  fun w =>
    match m w with
    | (Ok a, w') => (Ok a, w')
    | (Throw e, w') => h e w'
    end.

Definition lift {A} (r : result A) : M A := fun w => (r, w).

Declare Scope typed_scope.
Delimit Scope typed_scope with typed.
Notation "x <- m ;; k" := (bind m (fun x => k))
  (at level 100, m at next level, right associativity) : typed_scope.
Notation "m ;; k" := (bind m (fun _ => k))
  (at level 100, right associativity) : typed_scope.

Local Open Scope typed_scope.

Definition Logger_log (msg : string) : M unit :=
  fun w => (Ok tt, {| sheet := sheet w; outbox := outbox w;
                      requests := requests w;
                      log := (log w ++ [msg])%list; ticks := ticks w |}).

Definition now (pf : Platform) : M string :=
  fun w => (Ok (clock (base pf) (ticks w)),
            {| sheet := sheet w; outbox := outbox w;
               requests := requests w; log := log w;
               ticks := S (ticks w) |}).

Definition set_sheet (f : list Row -> list Row) : M unit :=
  fun w => (Ok tt, {| sheet := f (sheet w); outbox := outbox w;
                      requests := requests w; log := log w;
                      ticks := ticks w |}).

Definition getSheet : M (list Row) := fun w => (Ok (sheet w), w).

Definition MailApp_sendEmail (pf : Platform) (m : Mail) : M unit :=
  fun w =>
    match transport (base pf) m with
    | Some e => (Throw e, w)
    | None => (Ok tt, {| sheet := sheet w; outbox := (outbox w ++ [m])%list;
                         requests := requests w; log := log w;
                         ticks := ticks w |})
    end.

Definition UrlFetchApp_fetch (pf : Platform) (r : StripeRequest) : M StripeSession :=
  fun w =>
    (processor (base pf) r,
     {| sheet := sheet w; outbox := outbox w;
        requests := (requests w ++ [r])%list; log := log w;
        ticks := ticks w |}).

(** [row[k]]: the empty text past the row's end. *)
Definition cell (r : Row) (k : nat) : value := nth k r (Text "").

Definition getValues (sh : list Row) : list Row :=
  match sh with
  | [] => [[Text ""]]
  | _ => sh
  end.

(** [sheet.getRange(row, col).setValue(v)] for a text [v], both 1-based. *)
Definition setValue (row col : nat) (v : string) : M unit :=
  set_sheet (update_nth [] (update_nth (Text "") (fun _ => Text v) (col - 1))
                        (row - 1)).

(** [sheet.appendRow(r)] for a row of texts. *)
Definition appendRow (r : list string) : M unit :=
  set_sheet (fun sh => (sh ++ [map Text r])%list).

Definition getRange9 (sh : list Row) (row : nat) : Row :=
  map (cell (nth (row - 1) sh [])) (seq 0 9).

Fixpoint findFrom (i : nat) (rows : list Row) (sessionId : option string) : nat :=
  match rows with
  | [] => 0
  | r :: rest =>
      if strict_eq sessionId (cell r 0) then i + 1
      else findFrom (S i) rest sessionId
  end.

Definition findOrderRow (sh : list Row) (sessionId : option string) : nat :=
  findFrom 1 (tl (getValues sh)) sessionId.

(** *** Responses *)

(** The order object of a status answer: seven cells as they are and
    the two parsed documents. *)
Record Order : Type :=
  { order_sessionId : value; order_email : value; order_date : value;
    order_status : value; order_items : json; order_shippingAddress : json;
    order_trackingNumber : value; order_emailSent : value;
    order_lastUpdated : value }.

Inductive Response : Type :=
| RespError : string -> Response
| RespReceived : Response
| RespCheckout : option string -> option string -> Response
| RespOrder : Order -> Response.

(** *** Ingestion *)

Definition saveOrderToSheet (pf : Platform) (session : option Session) : M unit :=
  try_catch
    (sh <- getSheet ;;
     match session with
     | None =>
         throw (TypeError "Cannot read properties of undefined (reading 'id')")
     | Some session =>
         let existingRow := findOrderRow sh (Some (id session)) in
         if Nat.ltb 0 existingRow then
           Logger_log ("Order already exists: " ++ id session)
         else
           let customerEmail := customerEmail_of session in
           let items := format_items session in
           let formattedAddress := format_address session in
           date <- now pf ;;
           lastUpdated <- now pf ;;
           appendRow [ id session; customerEmail; date; "Placed";
                       JSON_stringify (base pf) items;
                       JSON_stringify (base pf) formattedAddress;
                       ""; "No"; lastUpdated ] ;;
           Logger_log ("Order saved: " ++ id session)
     end)
    (fun error =>
       Logger_log ("Error saving order: " ++ toString error) ;;
       throw error).

Definition handleStripeWebhook (pf : Platform) (e : PostEvent) : M Response :=
  try_catch
    (let signature := stripe_signature e in
     event <- lift (contents e) ;;
     (if Js.strict_eq (type event) "checkout.session.completed" then
        match data event with
        | None =>
            throw (TypeError
                     "Cannot read properties of undefined (reading 'object')")
        | Some session => saveOrderToSheet pf session
        end
      else ret tt) ;;
     ret RespReceived)
    (fun error =>
       Logger_log ("Error handling webhook: " ++ toString error) ;;
       ret (RespError (toString error))).

(** *** Status *)

(** [v || fallback] *)
Definition or_text (v : value) (fallback : string) : value :=
  if truthy v then v else Text fallback.

Definition getOrderStatus (pf : Platform) (sessionId : option string) : M Response :=
  try_catch
    (sh <- getSheet ;;
     let row := findOrderRow sh sessionId in
     if Nat.leb row 0 then ret (RespError "Order not found")
     else
       let data := getRange9 sh row in
       items <- lift (JSON_parse (base pf)
                        (text_of pf (or_text (cell data 4) "[]"))) ;;
       shippingAddress <-
         lift (JSON_parse (base pf)
                 (text_of pf (or_text (cell data 5) "{}"))) ;;
       ret (RespOrder
              {| order_sessionId := cell data 0;
                 order_email := cell data 1;
                 order_date := cell data 2;
                 order_status := cell data 3;
                 order_items := items;
                 order_shippingAddress := shippingAddress;
                 order_trackingNumber := or_text (cell data 6) "";
                 order_emailSent := cell data 7;
                 order_lastUpdated := cell data 8 |}))
    (fun error =>
       Logger_log ("Error getting order status: " ++ toString error) ;;
       ret (RespError (toString error))).

Definition doGet (pf : Platform) (e : GetEvent) : M Response :=
  try_catch
    (if Js.strict_eq (get_action e) "getOrderStatus"
     then getOrderStatus pf (get_sessionId e)
     else ret (RespError "Invalid action"))
    (fun error =>
       Logger_log ("Error in doGet: " ++ toString error) ;;
       ret (RespError (toString error))).

(** *** Checkout sessions *)

Definition createCheckoutSession (pf : Platform) (data : Body) : M Response :=
  try_catch
    (let environment := Js.or_else (environment data) "production" in
     match cart data with
     | None => throw (Error "Cart is empty")
     | Some cart =>
         match items cart with
         | None => throw (Error "Cart is empty")
         | Some [] => throw (Error "Cart is empty")
         | Some cart_items =>
             let lineItems :=
               map (fun item => {| price := stripePriceId item;
                                   line_quantity := item_quantity item |})
                   cart_items in
             let baseUrl :=
               if String.eqb environment "development"
               then "http://127.0.0.1:8000"
               else "https://www.agroverse.shop" in
             let successUrl :=
               baseUrl ++ "/order-status?session_id={CHECKOUT_SESSION_ID}" in
             let cancelUrl := baseUrl ++ "/checkout" in
             let meta :=
               {| cartSessionId := Js.or_else (cart_sessionId cart) "";
                  meta_environment := environment;
                  source := "agroverse_shop" |} in
             let payload :=
               match shippingAddress data with
               | None =>
                   {| mode := "payment";
                      line_items := lineItems;
                      success_url := successUrl;
                      cancel_url := cancelUrl;
                      shipping_address_collection := Some ["US"];
                      billing_address_collection := "required";
                      phone_number_collection := true;
                      metadata := meta;
                      shipping_address := None |}
               | Some shippingAddress =>
                   {| mode := "payment";
                      line_items := lineItems;
                      success_url := successUrl;
                      cancel_url := cancelUrl;
                      shipping_address_collection := None;
                      billing_address_collection := "required";
                      phone_number_collection := true;
                      metadata := meta;
                      shipping_address :=
                        Some {| sa_line1 := form_address shippingAddress;
                                sa_city := form_city shippingAddress;
                                sa_state := form_state shippingAddress;
                                sa_postal_code := form_zip shippingAddress;
                                sa_country :=
                                  Js.or_else (form_country shippingAddress) "US" |} |}
               end in
             session <-
               UrlFetchApp_fetch pf
                 {| url := "https://api.stripe.com/v1/checkout/sessions";
                    authorization := "Bearer " ++ stripeSecretKey (CONFIG (base pf));
                    content_type := "application/x-www-form-urlencoded";
                    payload := payload |} ;;
             match session_error session with
             | Some message => throw (Error message)
             | None =>
                 ret (RespCheckout (session_url session) (session_id session))
             end
         end
     end)
    (fun error =>
       Logger_log ("Error creating checkout session: " ++ toString error) ;;
       ret (RespError (toString error))).

Definition doPost (pf : Platform) (e : PostEvent) : M Response :=
  try_catch
    (data <- lift (contents e) ;;
     if Js.strict_eq (action data) "createCheckoutSession"
     then createCheckoutSession pf data
     else
       match stripe_signature e with
       | Some (String _ _) => handleStripeWebhook pf e
       | _ => ret (RespError "Invalid action")
       end)
    (fun error =>
       Logger_log ("Error in doPost: " ++ toString error) ;;
       ret (RespError (toString error))).

(** *** Tracking e-mails *)

(** [sendTrackingEmail]; the tracking number is a text when the scan
    calls it. *)
Definition sendTrackingEmail (pf : Platform) (email sessionId : value)
           (trackingNumber : string) (status : value) : M unit :=
  try_catch
    (MailApp_sendEmail pf
       (tracking_mail (text_of pf email) (text_of pf sessionId) trackingNumber
                      (text_of pf status)) ;;
     Logger_log ("Tracking email sent to: " ++ text_of pf email))
    (fun error => Logger_log ("Error sending email: " ++ toString error)).

(** The body of the scan loop at index [i]:
    [trackingNumber && trackingNumber.trim() && emailSent !== 'Yes']
    calls [trim] on every truthy tracking cell, which only a text has. *)
Definition scan_row (pf : Platform) (i : nat) (row : Row) : M unit :=
  let sessionId := cell row 0 in
  let email := cell row 1 in
  let status := cell row 3 in
  let trackingNumber := cell row 6 in
  let emailSent := cell row 7 in
  if truthy trackingNumber then
    match trackingNumber with
    | Text t =>
        if Js.truthy (Js.trim t) && negb (is_text emailSent "Yes") then
          sendTrackingEmail pf email sessionId t status ;;
          setValue (i + 1) 8 "Yes" ;;
          lastUpdated <- now pf ;;
          setValue (i + 1) 9 lastUpdated
        else ret tt
    | v => throw (no_trim pf v)
    end
  else ret tt.

Fixpoint scan_from (pf : Platform) (i : nat) (rows : list Row) : M unit :=
  match rows with
  | [] => ret tt
  | row :: rest => scan_row pf i row ;; scan_from pf (S i) rest
  end.

Definition sendTrackingEmails (pf : Platform) : M unit :=
  try_catch
    (sh <- getSheet ;;
     let data := getValues sh in
     scan_from pf 1 (tl data))
    (fun error =>
       Logger_log ("Error sending tracking emails: " ++ toString error)).

(** *** The operations of the back end *)

Definition step (pf : Platform) (op : Op) (w : World) : World :=
  match op with
  | Post e => snd (doPost pf e w)
  | Get e => snd (doGet pf e w)
  | Tick => snd (sendTrackingEmails pf w)
  end.

Fixpoint runs (pf : Platform) (n : nat) (w : World) : World :=
  match n with
  | O => w
  | S k => runs pf k (snd (sendTrackingEmails pf w))
  end.

(** *** Vocabulary *)

(** A row the scan notifies: a tracking number that is a text and not
    blank, and an "Email Sent" cell other than the text [Yes]. *)
Definition due (row : Row) : bool :=
  match cell row 6 with
  | Text t => Js.truthy (Js.trim t) && negb (is_text (cell row 7) "Yes")
  | _ => false
  end.

(** A tracking cell the scan can read: a text (an empty cell reads as
    the empty text). *)
Definition textual (row : Row) : Prop :=
  exists t, cell row 6 = Text t.

Definition mail_of (pf : Platform) (row : Row) : Mail :=
  tracking_mail (text_of pf (cell row 1)) (text_of pf (cell row 0))
                (text_of pf (cell row 6)) (text_of pf (cell row 3)).

Definition marked (t : string) (row : Row) : Row :=
  update_nth (Text "") (fun _ => Text t) 8
             (update_nth (Text "") (fun _ => Text "Yes") 7 row).

Definition scanned (row row' : Row) : Prop :=
  if due row then exists t, row' = marked t row else row' = row.



(** What [getOrderStatus] answers on a sheet, as a function of the
    sheet. *)
Definition status_answer (pf : Platform) (sh : list Row) (k : option string)
  : Response :=
  let row := findOrderRow sh k in
  if Nat.leb row 0 then RespError "Order not found"
  else
    let data := getRange9 sh row in
    match JSON_parse (base pf) (text_of pf (or_text (cell data 4) "[]")) with
    | Throw x => RespError (toString x)
    | Ok items =>
        match JSON_parse (base pf) (text_of pf (or_text (cell data 5) "{}")) with
        | Throw x => RespError (toString x)
        | Ok shippingAddress =>
            RespOrder
              {| order_sessionId := cell data 0;
                 order_email := cell data 1;
                 order_date := cell data 2;
                 order_status := cell data 3;
                 order_items := items;
                 order_shippingAddress := shippingAddress;
                 order_trackingNumber := or_text (cell data 6) "";
                 order_emailSent := cell data 7;
                 order_lastUpdated := cell data 8 |}
        end
    end.

(** *** Sheets of text

    [Ledger] against the script on typed cells: what an operation does
    on a sheet of typed cells that are all texts. *)





End Typed.

(* ================================================================== *)
(** ** Sheets of typed cells *)

Module TypedCases.
Import Ledger Scenario.

(** A platform on which every service answers and that prints numbers
    and truth values as JavaScript does (the sheets below hold no date;
    one would print as its ISO text here). *)
Definition platform : Typed.Platform :=
  {| Typed.base := env;
     Typed.show := fun v =>
       match v with
       | Typed.Text s => s
       | Typed.Number q => Codec.stringify (JNum q)
       | Typed.Boolean b => if b then "true" else "false"
       | Typed.DateValue iso => iso
       end;
     Typed.no_trim := fun _ => TypeError "trackingNumber.trim is not a function" |}.

Definition world_of (sh : list Typed.Row) : Typed.World :=
  {| Typed.sheet := sh; Typed.outbox := []; Typed.requests := [];
     Typed.log := []; Typed.ticks := 0 |}.

Definition order_row (k : string) (tracking : Typed.value) : Typed.Row :=
  [ Typed.Text k; Typed.Text "a@b.com"; Typed.Text (stamp 0); Typed.Text "Shipped";
    Typed.Text "[]"; Typed.Text "{}"; tracking; Typed.Text "No"; Typed.Text (stamp 1) ].



(** The same orders, the number of the second keyed in as digits: the
    cell holds a number. *)
Definition keyed_in : Typed.World :=
  world_of [ map Typed.Text header;
             order_row "tx_1" (Typed.Text "1Z999AA10123456784");
             order_row "tx_2" (Typed.Number (inject_Z 123456789012));
             order_row "tx_3" (Typed.Text "9400111899223100001234") ].

End TypedCases.

(* ================================================================== *)
(** ** The order-status page ([js/order-status.js])

    [fetch] and [response.json()] are awaited one after the other, so the
    page's asynchronous functions are read as sequential ones. What the
    page writes to the console is left out. The order of an answer is the
    JSON document the page receives. *)

Module StatusPage.
Import Ledger.

(** The parsed answer of the back end, through the two fields the page
    reads: [data.error] as a text and [data.order]. *)
Record StatusData : Type :=
  { data_error : option string; data_order : option json }.

(** What [fetch] resolves to: [response.ok] and what [response.json()]
    gives. *)
Record HttpResponse : Type := { ok : bool; body : result StatusData }.

(** What a page view shows in its container. *)
Inductive Screen : Type :=
| Loading : Screen
| Failed : string -> Screen
| Shown : json -> Screen.

(** What a [TypeError] of the browser is about. *)
Inductive Fault : Type :=
(** [items.map] of items that are no list *)
| NoMap : json -> Fault
(** [item.name] of the item [null] *)
| NullItem : Fault
(** [trackingNumber.trim] of a tracking number that is no text *)
| NoTrim : json -> Fault
(** a value that has no primitive form, spliced into a text or
    multiplied *)
| NoPrimitive : json -> Fault.

Record Page : Type :=
  { (** [config.googleScriptUrl] *)
    googleScriptUrl : option string;
    (** [fetch(url)]: [Throw] when the request fails *)
    fetch : string -> result HttpResponse;
    (** is there an element [order-status-container]? *)
    container : bool;
    (** the [TypeError] the browser throws *)
    type_error : Fault -> exn }.

(** Truthiness of a JSON value, and of a property that may be missing. *)
Definition json_truthy (j : json) : bool :=
  match j with
  | JNull => false
  | JBool b => b
  | JNum q => negb (Z.eqb (Qnum q) 0)
  | JStr s => Js.truthy s
  | JArr _ | JObj _ => true
  end.

Definition truthy (x : option json) : bool :=
  match x with
  | Some j => json_truthy j
  | None => false
  end.

(** [fields[name]] in an object as [JSON.parse] builds it: the last
    member of that name. *)
Fixpoint member (name : string) (fields : list (string * json)) : option json :=
  match fields with
  | [] => None
  | (k, v) :: rest =>
      match member name rest with
      | Some v' => Some v'
      | None => if String.eqb k name then Some v else None
      end
  end.

(** [order.name] for a truthy [order]: undefined unless [order] is an
    object with that member. *)
Definition prop (order : json) (name : string) : option json :=
  match order with
  | JObj fields => member name fields
  | _ => None
  end.

Definition fetchOrderStatus (page : Page) (sessionId : string)
  : result (option json) :=
  let scriptUrl := googleScriptUrl page in
  if CheckoutPage.falsy scriptUrl
     || CheckoutPage.includes (CheckoutPage.text scriptUrl) "YOUR_"
  then Throw (Error "Google App Script URL not configured")
  else
    let url := CheckoutPage.text scriptUrl ++ "?action=getOrderStatus&sessionId="
               ++ FormEncoding.encodeURIComponent sessionId in
    match fetch page url with
    | Throw error => Throw error
    | Ok response =>
        if negb (ok response) then Throw (Error "Failed to fetch order status")
        else
          match body response with
          | Throw error => Throw error
          | Ok data =>
              if negb (CheckoutPage.falsy (data_error data))
              then Throw (Error (CheckoutPage.text (data_error data)))
              else Ok (if truthy (data_order data) then data_order data else None)
          end
    end.

(** Has an object a member of its own under [name]? *)
Definition has_own (name : string) (fields : list (string * json)) : bool :=
  existsb (fun kv => String.eqb (fst kv) name) fields.

(** Can a parsed document be converted to a text or a number? An object
    can unless it has a [toString] of its own (which is no function, so
    no conversion is left: the inherited [valueOf] gives the object back);
    a list can when its items can, [join] printing them one by one. *)
Fixpoint printable (j : json) : bool :=
  match j with
  | JObj fields => negb (has_own "toString" fields)
  | JArr l => forallb printable l
  | _ => true
  end.

Definition and_then {A} (r : result unit) (k : result A) : result A :=
  match r with
  | Ok _ => k
  | Throw error => Throw error
  end.

(** [${x || fallback}] and [(x || 0) * ...]: a falsy or missing [x] is
    replaced, a truthy one converted. *)
Definition convert (page : Page) (x : option json) : result unit :=
  match x with
  | Some j => if printable j then Ok tt else Throw (type_error page (NoPrimitive j))
  | None => Ok tt
  end.

(** The text of one item: its name, its quantity, and its price times
    its quantity. *)
Definition render_item (page : Page) (item : json) : result unit :=
  match item with
  | JNull => Throw (type_error page NullItem)
  | _ =>
      and_then (convert page (prop item "name"))
        (and_then (convert page (prop item "quantity"))
                  (convert page (prop item "price")))
  end.

Fixpoint render_items (page : Page) (items : list json) : result unit :=
  match items with
  | [] => Ok tt
  | item :: rest => and_then (render_item page item) (render_items page rest)
  end.

(** [(order.items || []).map(item => ...)] *)
Definition render_list (page : Page) (items : option json) : result unit :=
  match items with
  | Some (JArr l) => render_items page l
  | Some j => if json_truthy j then Throw (type_error page (NoMap j)) else Ok tt
  | None => Ok tt
  end.

(** The page's [getTrackingUrl(order.trackingNumber)]: [null] for a
    falsy or missing tracking number; [trackingNumber.trim()] needs a
    text. *)
Definition getTrackingUrl (page : Page) (trackingNumber : option json)
  : result (option string) :=
  if negb (truthy trackingNumber) then Ok None
  else
    match trackingNumber with
    | Some (JStr tn) => Ok (OrderStatus.getTrackingUrl (Some tn))
    | Some j => Throw (type_error page (NoTrim j))
    | None => Ok None
    end.

(** The six lines of a truthy shipping address. *)
Definition render_address (page : Page) (shippingAddress : option json)
  : result unit :=
  match shippingAddress with
  | Some a =>
      if json_truthy a then
        and_then (convert page (prop a "fullName"))
          (and_then (convert page (prop a "address"))
             (and_then (convert page (prop a "city"))
                (and_then (convert page (prop a "state"))
                   (and_then (convert page (prop a "zip"))
                             (convert page (prop a "country"))))))
      else Ok tt
  | None => Ok tt
  end.

Definition display (page : Page) (s : Screen) : list Screen :=
  if container page then [s] else [].

(** [displayOrderStatus]: the item list is rendered first, then the
    tracking link, then the container is written: the status (as the key
    of its badge and as a text), the order number, the date, the items,
    the address, the tracking block. *)
Definition displayOrderStatus (page : Page) (order : json) : result (list Screen) :=
  if negb (container page) then Ok []
  else
    and_then (render_list page (prop order "items"))
      (match getTrackingUrl page (prop order "trackingNumber") with
       | Throw error => Throw error
       | Ok _ =>
           and_then (convert page (prop order "status"))
             (and_then (convert page (prop order "sessionId"))
                (and_then (convert page (prop order "date"))
                   (and_then (render_address page (prop order "shippingAddress"))
                             (Ok [Shown order]))))
       end).

(** [error.message || fallback] *)
Definition message_or (error : exn) (fallback : string) : string :=
  if Js.truthy (err_message error) then err_message error else fallback.

(** [initOrderStatus], given what [getSessionIdFromUrl] returns: the
    screens the container shows, one after the other. *)
Definition initOrderStatus (page : Page) (session_id : option string) : list Screen :=
  if CheckoutPage.falsy session_id
  then display page
         (Failed "No order number provided. Please check your order confirmation email for the order number.")
  else
    (display page Loading ++
     let failed error :=
       display page
         (Failed (message_or error "Failed to load order status. Please try again later.")) in
     match fetchOrderStatus page (CheckoutPage.text session_id) with
     | Throw error => failed error
     | Ok None =>
         display page (Failed "Order not found. Please verify your order number.")
     | Ok (Some order) =>
         match displayOrderStatus page order with
         | Ok screens => screens
         | Throw error => failed error
         end
     end)%list.

(** *** The page against the back end *)

(** A cell value in the JSON text of an answer. *)
Definition value_json (v : Typed.value) : json :=
  match v with
  | Typed.Text s => JStr s
  | Typed.Number q => JNum q
  | Typed.Boolean b => JBool b
  | Typed.DateValue iso => JStr iso
  end.

Definition order_json (o : Typed.Order) : json :=
  JObj [ ("sessionId", value_json (Typed.order_sessionId o));
         ("email", value_json (Typed.order_email o));
         ("date", value_json (Typed.order_date o));
         ("status", value_json (Typed.order_status o));
         ("items", Typed.order_items o);
         ("shippingAddress", Typed.order_shippingAddress o);
         ("trackingNumber", value_json (Typed.order_trackingNumber o));
         ("emailSent", value_json (Typed.order_emailSent o));
         ("lastUpdated", value_json (Typed.order_lastUpdated o)) ].

(** The back end's answer as the page reads it. *)
Definition wire (r : Typed.Response) : StatusData :=
  match r with
  | Typed.RespError m => {| data_error := Some m; data_order := None |}
  | Typed.RespOrder o => {| data_error := None; data_order := Some (order_json o) |}
  | Typed.RespReceived | Typed.RespCheckout _ _ =>
      {| data_error := None; data_order := None |}
  end.

(** The GET the page's address stands for. *)
Definition status_query (sessionId : string) : GetEvent :=
  {| get_action := Some "getOrderStatus"; get_sessionId := Some sessionId |}.

(** The page is configured, and its request for [sessionId] is answered
    by the back end on the sheet of [w]. *)
Definition served_by (pf : Typed.Platform) (w : Typed.World) (page : Page)
           (sessionId : string) : Prop :=
  exists u r,
    googleScriptUrl page = Some u /\ u <> "" /\
    CheckoutPage.includes u "YOUR_" = false /\
    fst (Typed.doGet pf (status_query sessionId) w) = Ok r /\
    fetch page (u ++ "?action=getOrderStatus&sessionId="
                ++ FormEncoding.encodeURIComponent sessionId)
    = Ok {| ok := true; body := Ok (wire r) |}.

(** A tracking cell the page can link: a text, a date (which arrives as
    its ISO text) or a falsy value. *)
Definition linkable (v : Typed.value) : bool :=
  match v with
  | Typed.Text _ | Typed.DateValue _ => true
  | _ => negb (Typed.truthy v)
  end.

(** A missing, falsy or printable member. *)
Definition plain (x : option json) : bool :=
  match x with
  | Some j => printable j
  | None => true
  end.

(** An item the page can print: not [null], and with a plain name,
    quantity and price. *)
Definition item_ok (item : json) : bool :=
  match item with
  | JNull => false
  | _ => plain (prop item "name") && plain (prop item "quantity")
         && plain (prop item "price")
  end.

(** Items the page can list: a falsy value, or a list of items it can
    print. *)
Definition listable (items : json) : bool :=
  match items with
  | JArr l => forallb item_ok l
  | _ => negb (json_truthy items)
  end.

(** An address the page can print. *)
Definition addressable (a : json) : bool :=
  negb (json_truthy a)
  || (plain (prop a "fullName") && plain (prop a "address") && plain (prop a "city")
      && plain (prop a "state") && plain (prop a "zip") && plain (prop a "country")).

(** An order of the back end the page can show. *)
Definition presentable (o : Typed.Order) : bool :=
  listable (Typed.order_items o) && linkable (Typed.order_trackingNumber o)
  && addressable (Typed.order_shippingAddress o).

(** What a page with its container shows for an answer of the back
    end. *)
Definition screen_of (page : Page) (r : Typed.Response) : Screen :=
  match r with
  | Typed.RespOrder order =>
      match displayOrderStatus page (order_json order) with
      | Ok _ => Shown (order_json order)
      | Throw error =>
          Failed (message_or error "Failed to load order status. Please try again later.")
      end
  | Typed.RespError "" => Failed "Order not found. Please verify your order number."
  | Typed.RespError m => Failed m
  | _ => Failed "Order not found. Please verify your order number."
  end.

End StatusPage.

(* ================================================================== *)
(** ** Submitting the checkout form ([js/checkout.js])

    As on the status page, the awaited calls are read as sequential ones
    and the console is left out. The page's display helpers ([clearErrors],
    [showErrors], [setLoading]) and the redirect are recorded as calls. *)

Module CheckoutFlow.
Import Ledger CheckoutPage.

(** The parsed answer of the back end, through the two fields the page
    reads. *)
Record CheckoutData : Type :=
  { data_error : option string; data_checkoutUrl : option string }.

(** What [fetch] resolves to: [response.ok], [response.text()] and what
    [response.json()] gives. *)
Record HttpResponse : Type :=
  { ok : bool; text_body : string; body : result CheckoutData }.

(** The object the page posts as JSON; its [action] is always
    [createCheckoutSession]. *)
Record Posted : Type :=
  { posted_cart : CartJs.Cart;
    posted_shippingAddress : FormData;
    posted_environment : option string }.

Record Page : Type :=
  { (** [config.googleScriptUrl] *)
    googleScriptUrl : option string;
    (** [config.environment] *)
    config_environment : option string;
    (** [fetch(scriptUrl, {method: 'POST', ...})]: [Throw] when the
        request fails *)
    fetch : string -> Posted -> result HttpResponse }.

Inductive Call : Type :=
| ClearErrors : Call
| ShowErrors : list string -> Call
| SetLoading : bool -> Call
| Redirect : string -> Call.

(** The checkout address, or what was thrown; with the requests sent. *)
Definition createCheckoutSession (page : Page) (cart : CartJs.Cart)
           (shippingAddress : FormData) : result string * list Posted :=
  let scriptUrl := googleScriptUrl page in
  if falsy scriptUrl || includes (text scriptUrl) "YOUR_"
  then (Throw (Error "Google App Script URL not configured. Please set AGROVERSE_CONFIG.googleScriptUrl"),
        [])
  else
    let payload :=
      {| posted_cart := cart; posted_shippingAddress := shippingAddress;
         posted_environment := config_environment page |} in
    (match fetch page (text scriptUrl) payload with
     | Throw error => Throw error
     | Ok response =>
         if negb (ok response)
         then Throw (Error (if Js.truthy (text_body response) then text_body response
                            else "Failed to create checkout session"))
         else
           match body response with
           | Throw error => Throw error
           | Ok data =>
               if negb (falsy (data_error data))
               then Throw (Error (text (data_error data)))
               else if falsy (data_checkoutUrl data)
                    then Throw (Error "No checkout URL received")
                    else Ok (text (data_checkoutUrl data))
           end
     end, [payload]).

Record Outcome : Type :=
  { calls : list Call; sent : list Posted; browser : CartJs.Browser }.

(** [handleCheckoutSubmit] for the submitted form, on a page whose cart
    is the one of [js/cart.js]. *)
Definition handleCheckoutSubmit (page : Page) (p : CartJs.Platform) (form : Form)
           (st : CartJs.Browser) : Outcome :=
  let formData := getFormData form in
  let validation := validateShippingForm formData in
  if negb (valid validation)
  then {| calls := [ClearErrors; ShowErrors (errors validation)]; sent := [];
          browser := st |}
  else
    let (cart, st1) := CartJs.getCart p st in
    if Nat.eqb (length (CartJs.items cart)) 0
    then {| calls := [ClearErrors; ShowErrors ["Your cart is empty"]]; sent := [];
            browser := st1 |}
    else
      let (answer, requests) := createCheckoutSession page cart formData in
      {| calls :=
           match answer with
           | Ok checkoutUrl => [ClearErrors; SetLoading true; Redirect checkoutUrl]
           | Throw error =>
               [ ClearErrors; SetLoading true;
                 ShowErrors
                   [ if Js.truthy (err_message error) then err_message error
                     else "Failed to process checkout. Please try again." ];
                 SetLoading false ]
           end;
         sent := requests;
         browser := st1 |}.

(** *** The page against the back end *)

(** The body the back end receives for a posted object, as [JSON.parse]
    reads it, through the fields the handlers read. *)
Definition body_of (payload : Posted) : Body :=
  let c := posted_cart payload in
  let f := posted_shippingAddress payload in
  {| action := Some "createCheckoutSession";
     cart :=
       Some {| items :=
                 Some (map (fun item =>
                              {| stripePriceId := CartJs.stripePriceId item;
                                 item_quantity := CartJs.quantity item |})
                           (CartJs.items c));
               cart_sessionId := Some (CartJs.sessionId c) |};
     shippingAddress :=
       Some {| form_address := CheckoutPage.address f;
               form_city := CheckoutPage.city f;
               form_state := CheckoutPage.state f;
               form_zip := CheckoutPage.zip f;
               form_country := CheckoutPage.country f |};
     environment := posted_environment payload;
     type := None; data := None |}.

(** The POST: the request carries no [stripe-signature] parameter. *)
Definition request_of (payload : Posted) : PostEvent :=
  {| stripe_signature := None; contents := Ok (body_of payload) |}.

(** The back end's answer as the page reads it. *)
Definition wire (r : Response) : CheckoutData :=
  match r with
  | RespError m => {| data_error := Some m; data_checkoutUrl := None |}
  | RespCheckout u _ => {| data_error := None; data_checkoutUrl := u |}
  | RespReceived | RespOrder _ => {| data_error := None; data_checkoutUrl := None |}
  end.

(** The page is configured, and whatever it posts is answered by the
    back end in world [w]. *)
Definition served_by (env : Env) (w : World) (page : Page) : Prop :=
  exists u,
    googleScriptUrl page = Some u /\ u <> "" /\ includes u "YOUR_" = false /\
    forall payload,
      exists r t,
        fst (doPost env (request_of payload) w) = Ok r /\
        fetch page u payload = Ok {| ok := true; text_body := t; body := Ok (wire r) |}.

(** The line of the processor call for a cart item. *)
Definition line_of (item : CartJs.Item) : LineItem :=
  {| price := CartJs.stripePriceId item; line_quantity := CartJs.quantity item |}.

(** What the page does with the processor's answer. *)
Definition after_answer (answer : result StripeSession) : list Call :=
  let failed m := [ShowErrors [m]; SetLoading false] in
  match answer with
  | Throw x =>
      failed (if Js.truthy (toString x) then toString x
              else "No checkout URL received")
  | Ok s =>
      match session_error s with
      | Some message => failed (toString (Error message))
      | None =>
          if falsy (session_url s) then failed "No checkout URL received"
          else [Redirect (text (session_url s))]
      end
  end.

End CheckoutFlow.

(* ================================================================== *)
(** ** The configuration of the pages ([js/config.js]) *)

Module Config.

Record Settings : Type :=
  { isLocal : bool; isProduction : bool; baseUrl : string;
    googleScriptUrl : string; stripe_mode : string; environment : string;
    urls_checkout : string; urls_orderStatus : string; urls_cart : string;
    debug : bool }.

(** [window.AGROVERSE_CONFIG] on a page served from [hostname]. *)
Definition config (hostname : string) : Settings :=
  let isLocal :=
    String.eqb hostname "localhost" || String.eqb hostname "127.0.0.1"
    || CheckoutPage.includes hostname "localhost:"
    || CheckoutPage.includes hostname "127.0.0.1:" in
  let isProduction :=
    String.eqb hostname "www.agroverse.shop" || String.eqb hostname "agroverse.shop"
    || CheckoutPage.includes hostname "github.io" in
  let baseUrl :=
    if isLocal then "http://127.0.0.1:8000" else "https://www.agroverse.shop" in
  let GOOGLE_SCRIPT_URL :=
    if isLocal then "YOUR_LOCAL_DEV_SCRIPT_URL" else "YOUR_PRODUCTION_SCRIPT_URL" in
  {| isLocal := isLocal;
     isProduction := isProduction;
     baseUrl := baseUrl;
     googleScriptUrl := GOOGLE_SCRIPT_URL;
     stripe_mode := if isLocal then "test" else "live";
     environment := if isLocal then "development" else "production";
     urls_checkout := baseUrl ++ "/checkout";
     urls_orderStatus := baseUrl ++ "/order-status";
     urls_cart := baseUrl ++ "/#cart";
     debug := isLocal |}.

(** The checkout page and the status page under a configuration. *)
Definition checkout_page (c : Settings)
           (fetch : string -> CheckoutFlow.Posted -> Ledger.result CheckoutFlow.HttpResponse)
  : CheckoutFlow.Page :=
  {| CheckoutFlow.googleScriptUrl := Some (googleScriptUrl c);
     CheckoutFlow.config_environment := Some (environment c);
     CheckoutFlow.fetch := fetch |}.

Definition status_page (c : Settings)
           (fetch : string -> Ledger.result StatusPage.HttpResponse)
           (container : bool) (type_error : StatusPage.Fault -> Ledger.exn)
  : StatusPage.Page :=
  {| StatusPage.googleScriptUrl := Some (googleScriptUrl c);
     StatusPage.fetch := fetch;
     StatusPage.container := container;
     StatusPage.type_error := type_error |}.

End Config.

(* ================================================================== *)
(** ** The add-to-cart buttons (the button handler script) *)

Module AddToCartButton.
Import CartJs.

(** The [data-] attributes of a button; any may be missing. *)
Record Dataset : Type :=
  { data_productId : option string; data_productName : option string;
    data_productPrice : option string; data_productImage : option string;
    data_stripePriceId : option string }.

(** What the handler does besides the cart: the toasts it shows and the
    opening of the cart sidebar it schedules. *)
Inductive Call : Type :=
| Toast : string -> Call
| OpenCart : Call.

Record Site : Type :=
  { (** [parseFloat] of a text: [None] for [NaN] *)
    parseFloat : string -> option Q;
    (** is [window.CartUI] there? *)
    cart_ui : bool }.

(** The product object the handler builds from the button. *)
Definition product_of (site : Site) (d : Dataset) : Product :=
  {| product_productId := data_productId d;
     product_name := data_productName d;
     product_price :=
       match data_productPrice d with
       | Some t => parseFloat site t
       | None => None
       end;
     product_quantity := Some 1%Z;
     product_image := data_productImage d;
     product_stripePriceId := Some (Js.or_else (data_stripePriceId d) "") |}.

(** [handleAddToCart] for a click; [button] is the closest
    [.add-to-cart-btn], if there is one. *)
Definition handleAddToCart (site : Site) (p : Platform) (button : option Dataset)
  : Browser -> list Call * Browser :=
  fun st =>
    match button with
    | None => ([], st)
    | Some d =>
        let product := product_of site d in
        if no_text (product_productId product) || no_text (product_name product)
           || no_number (product_price product)
        then ([Toast "Error: Invalid product data"], st)
        else
          let (success, st1) := addToCart p product st in
          if success
          then ((Toast "Added to cart!" :: if cart_ui site then [OpenCart] else [])%list,
                st1)
          else ([Toast "Failed to add to cart. Please try again."], st1)
    end.

(** A listener run [n] times in a row on the same click. *)
Fixpoint run_times (n : nat) (h : Browser -> list Call * Browser)
  : Browser -> list Call * Browser :=
  fun st =>
    match n with
    | O => ([], st)
    | S k =>
        let (calls1, st1) := h st in
        let (calls2, st2) := run_times k h st1 in
        ((calls1 ++ calls2)%list, st2)
    end.

(** A click, once [initAddToCart] has run. The handler listens on the
    document, where it is called when the target lies in an element of
    class [add-to-cart-btn], and on every such element that was there when
    the page was initialised. A click runs the listeners of the elements
    it bubbles through, [registered] of which carry the handler, and then
    the document's; every run finds the same closest button. *)
Definition click (site : Site) (p : Platform) (registered : nat)
           (button : option Dataset) : Browser -> list Call * Browser :=
  run_times (registered + match button with Some _ => 1 | None => 0 end)
            (handleAddToCart site p button).

End AddToCartButton.

(* ================================================================== *)
(** ** Pages wired to the back end and a product button, for the examples *)

Module PageCases.
Import Ledger.

Definition script_url : string := "https://script.google.com/macros/s/abc/exec".

(** What the network hands the page for the back end's answer. *)
Definition delivered {A B} (f : A -> B) (answer : result A) : result B :=
  match answer with
  | Ok r => Ok (f r)
  | Throw x => Throw x
  end.

(** The browser's [TypeError]s. *)
Definition type_error (f : StatusPage.Fault) : exn :=
  match f with
  | StatusPage.NoMap _ => TypeError "items.map is not a function"
  | StatusPage.NullItem => TypeError "Cannot read properties of null (reading 'name')"
  | StatusPage.NoTrim _ => TypeError "trackingNumber.trim is not a function"
  | StatusPage.NoPrimitive _ => TypeError "Cannot convert object to primitive value"
  end.

(** A status page whose request for [k] is answered by the back end on
    the sheet of [w]. *)
Definition status_page (pf : Typed.Platform) (w : Typed.World) (k : string)
  : StatusPage.Page :=
  {| StatusPage.googleScriptUrl := Some script_url;
     StatusPage.fetch := fun _ =>
       Ok {| StatusPage.ok := true;
             StatusPage.body :=
               delivered StatusPage.wire
                         (fst (Typed.doGet pf (StatusPage.status_query k) w)) |};
     StatusPage.container := true;
     StatusPage.type_error := type_error |}.

(** A checkout page whose requests are answered by the back end in world
    [w]. *)
Definition checkout_page (env : Env) (w : World) : CheckoutFlow.Page :=
  {| CheckoutFlow.googleScriptUrl := Some script_url;
     CheckoutFlow.config_environment := None;
     CheckoutFlow.fetch := fun _ payload =>
       Ok {| CheckoutFlow.ok := true;
             CheckoutFlow.text_body := "";
             CheckoutFlow.body :=
               delivered CheckoutFlow.wire
                         (fst (doPost env (CheckoutFlow.request_of payload) w)) |} |}.

(** Two objects in the manner of the processor call's payload. *)
Definition collecting : list (string * FormEncoding.value) :=
  [ ("mode", FormEncoding.Text "payment");
    ("shipping_address_collection", FormEncoding.Undefined);
    ("metadata", FormEncoding.Object (JObj [("source", JStr "agroverse_shop")])) ].

Definition plain : list (string * FormEncoding.value) :=
  [ ("mode", FormEncoding.Text "payment");
    ("metadata", FormEncoding.Object (JObj [("source", JStr "agroverse_shop")]));
    ("shipping_address", FormEncoding.Null) ].

(** A shop whose price texts read as numbers, with a cart sidebar. *)
Definition shop_site : AddToCartButton.Site :=
  {| AddToCartButton.parseFloat := fun t =>
       if String.eqb t "25.00" then Some (Qmake 25 1) else None;
     AddToCartButton.cart_ui := true |}.

Definition cacao_button : AddToCartButton.Dataset :=
  {| AddToCartButton.data_productId := Some "cacao-200g";
     AddToCartButton.data_productName := Some "Cacao";
     AddToCartButton.data_productPrice := Some "25.00";
     AddToCartButton.data_productImage := None;
     AddToCartButton.data_stripePriceId := Some "price_1" |}.

End PageCases.

(* ================================================================== *)
(** * Properties *)

(** ** Strings *)

Section StringFacts.

Lemma append_empty_r (s : string) : s ++ "" = s.
Proof. induction s as [|c s IH]; simpl; [reflexivity | now rewrite IH]. Qed.

Lemma append_assoc (a b c : string) : (a ++ b) ++ c = a ++ (b ++ c).
Proof. induction a as [|x a IH]; simpl; [reflexivity | now rewrite IH]. Qed.

Lemma append_eq_empty (u v : string) : u ++ v = "" -> u = "" /\ v = "".
Proof. destruct u; simpl; [auto | discriminate]. Qed.

(** How a text that starts with [c] splits in two. *)
Lemma append_eq_String (u v w : string) (c : ascii) :
  u ++ v = String c w ->
  (u = "" /\ v = String c w) \/ (exists u', u = String c u' /\ w = u' ++ v).
Proof.
  destruct u as [|x u]; simpl; intros H.
  - left; auto.
  - right; injection H as -> <-; eauto.
Qed.

Lemma append_length (u v : string) :
  String.length (u ++ v) = String.length u + String.length v.
Proof. induction u as [|x u IH]; simpl; [reflexivity | now rewrite IH]. Qed.

Lemma list_ascii_of_append (u v : string) :
  list_ascii_of_string (u ++ v) =
  (list_ascii_of_string u ++ list_ascii_of_string v)%list.
Proof. induction u as [|x u IH]; simpl; [reflexivity | now rewrite IH]. Qed.

End StringFacts.

(** ** The matcher decides the language of a pattern *)

Section RegexFacts.
Import Regex.
Import Js (all_chars).

Lemma nullable_Lang (r : regex) : nullable r = true <-> Lang r "".
Proof.
  split.
  - induction r; simpl; intros H; try discriminate.
    + constructor.
    + apply andb_true_iff in H as [Ha Hb].
      change "" with ("" ++ ""). constructor; auto.
    + apply orb_true_iff in H as [Ha | Hb]; [apply LAltL | apply LAltR]; auto.
    + constructor.
  - intros H. remember "" as w eqn:Ew.
    induction H; simpl; subst; try reflexivity; try discriminate.
    + apply append_eq_empty in Ew as [-> ->].
      rewrite IHLang1, IHLang2; auto.
    + rewrite IHLang; auto.
    + rewrite IHLang; auto using orb_true_r.
Qed.

Lemma Lang_deriv_intro (r : regex) (s : string) :
  Lang r s -> forall c w, s = String c w -> Lang (deriv c r) w.
Proof.
  induction 1 as [ | p x Hp | a b u v Ha IHa Hb IHb | a b u Ha IHa
                 | a b u Hb IHb | a | a u v Ha IHa Hs IHs ];
    intros c w E; simpl.
  - discriminate.
  - injection E as -> <-. rewrite Hp. constructor.
  - apply append_eq_String in E as [[-> ->] | [u' [-> ->]]].
    + apply nullable_Lang in Ha. rewrite Ha. apply LAltR. now apply IHb.
    + assert (Lang (Cat (deriv c a) b) (u' ++ v)) by (constructor; auto).
      destruct (nullable a); [now apply LAltL | assumption].
  - apply LAltL. now apply IHa.
  - apply LAltR. now apply IHb.
  - discriminate.
  - apply append_eq_String in E as [[-> ->] | [u' [-> ->]]].
    + now apply IHs.
    + constructor; auto.
Qed.

Lemma Lang_deriv_elim (r : regex) :
  forall c w, Lang (deriv c r) w -> Lang r (String c w).
Proof.
  induction r as [ | | p | a IHa b IHb | a IHa b IHb | a IHa ];
    intros c w H; simpl in H.
  - inversion H.
  - inversion H.
  - destruct (p c) eqn:Hp; inversion H; subst. now constructor.
  - assert (Hcat : forall w, Lang (Cat (deriv c a) b) w -> Lang (Cat a b) (String c w)).
    { intros w' H'. inversion H'; subst.
      change (String c (u ++ v)) with (String c u ++ v). constructor; auto. }
    destruct (nullable a) eqn:Hn; [ | now apply Hcat ].
    inversion H; subst; [ now apply Hcat | ].
    change (String c w) with ("" ++ String c w).
    constructor; [ now apply nullable_Lang | auto ].
  - inversion H; subst; [apply LAltL | apply LAltR]; auto.
  - inversion H; subst.
    change (String c (u ++ v)) with (String c u ++ v). constructor; auto.
Qed.

(** The derivative matcher accepts exactly the words of the pattern. *)
Lemma test_Lang (s : string) : forall r, test r s = true <-> Lang r s.
Proof.
  induction s as [|c s IH]; intros r; simpl.
  - apply nullable_Lang.
  - rewrite IH. split.
    + apply Lang_deriv_elim.
    + intros H. now apply Lang_deriv_intro with (s := String c s).
Qed.

Lemma Lang_Cat (a b : regex) (w : string) :
  Lang (Cat a b) w <-> exists u v, w = u ++ v /\ Lang a u /\ Lang b v.
Proof.
  split.
  - intros H; inversion H; subst; eauto.
  - intros (u & v & -> & Ha & Hb). now constructor.
Qed.

Lemma Lang_Class (p : ascii -> bool) (w : string) :
  Lang (Class p) w <-> exists c, w = String c "" /\ p c = true.
Proof.
  split.
  - intros H; inversion H; subst; eauto.
  - intros (c & -> & Hp). now constructor.
Qed.

Lemma Lang_Eps (w : string) : Lang Eps w <-> w = "".
Proof.
  split; [intros H; now inversion H | intros ->; constructor].
Qed.

Lemma all_chars_String (p : ascii -> bool) (c : ascii) (w : string) :
  all_chars p (String c w) <-> p c = true /\ all_chars p w.
Proof.
  unfold all_chars; simpl; split.
  - intros H; split; [apply H; auto | intros x Hx; apply H; auto].
  - intros [Hc Hw] x [<- | Hx]; auto.
Qed.

Lemma all_chars_append (p : ascii -> bool) (u v : string) :
  all_chars p (u ++ v) <-> all_chars p u /\ all_chars p v.
Proof.
  unfold all_chars. rewrite list_ascii_of_append. split.
  - intros H; split; intros c Hc; apply H, in_or_app; auto.
  - intros [Hu Hv] c Hc. apply in_app_or in Hc as [Hc | Hc]; auto.
Qed.

Lemma Lang_Star_Class (p : ascii -> bool) (w : string) :
  Lang (Star (Class p)) w <-> all_chars p w.
Proof.
  split.
  - intros H. remember (Star (Class p)) as r eqn:Er.
    induction H; try discriminate.
    + intros x [].
    + injection Er as ->. apply all_chars_append. split; auto.
      inversion H; subst. apply all_chars_String. split; auto. intros x [].
  - induction w as [|c w IH]; intros H.
    + constructor.
    + apply all_chars_String in H as [Hc Hw].
      change (String c w) with (String c "" ++ w).
      constructor; [now constructor | auto].
Qed.

(** [p+]: a text that is not empty, made of [p] characters. *)
Lemma Lang_Plus_Class (p : ascii -> bool) (w : string) :
  Lang (Plus (Class p)) w <-> w <> "" /\ all_chars p w.
Proof.
  unfold Plus. rewrite Lang_Cat. split.
  - intros (u & v & -> & Hu & Hv).
    apply Lang_Class in Hu as (c & -> & Hc).
    apply Lang_Star_Class in Hv. split; [discriminate | ].
    apply all_chars_String; auto.
  - intros [Hne H]. destruct w as [|c w]; [congruence | ].
    apply all_chars_String in H as [Hc Hw].
    exists (String c ""), w. repeat split.
    + now constructor.
    + now apply Lang_Star_Class.
Qed.

(** [p{n}]: exactly [n] characters, all [p]. *)
Lemma Lang_Times_Class (p : ascii -> bool) (n : nat) :
  forall w, Lang (Times n (Class p)) w <-> String.length w = n /\ all_chars p w.
Proof.
  induction n as [|n IH]; intros w; simpl.
  - rewrite Lang_Eps. split.
    + intros ->; split; [reflexivity | intros c []].
    + intros [H _]. destruct w; [reflexivity | discriminate].
  - rewrite Lang_Cat. split.
    + intros (u & v & -> & Hu & Hv).
      apply Lang_Class in Hu as (c & -> & Hc). apply IH in Hv as [Hl Hv].
      simpl. split; [now rewrite Hl | apply all_chars_String; auto].
    + intros [Hl H]. destruct w as [|c w]; [discriminate | ].
      apply all_chars_String in H as [Hc Hw]. injection Hl as Hl.
      exists (String c ""), w. repeat split.
      * now constructor.
      * apply IH; auto.
Qed.

Lemma Lang_Lit (s : string) : forall w, Lang (Lit s) w <-> w = s.
Proof.
  induction s as [|c s IH]; intros w; simpl.
  - apply Lang_Eps.
  - rewrite Lang_Cat. split.
    + intros (u & v & -> & Hu & Hv).
      apply Lang_Class in Hu as (x & -> & Hx). apply IH in Hv as ->.
      apply Ascii.eqb_eq in Hx as ->. reflexivity.
    + intros ->. exists (String c ""), s. repeat split.
      * constructor. apply Ascii.eqb_refl.
      * now apply IH.
Qed.

End RegexFacts.

(** ** The two patterns and the prefix test, against the specification's words *)

Section CarrierFacts.
Import Regex Carrier.

Lemma USPS_PATTERN_shape (t : string) :
  test USPS_PATTERN t = true <-> usps_shape t.
Proof.
  rewrite test_Lang. unfold USPS_PATTERN, usps_shape, digit, upper. split.
  - intros H.
    apply Lang_Cat in H as (d1 & r1 & -> & Hd1 & H).
    apply Lang_Cat in H as (ab & r2 & -> & Hab & H).
    apply Lang_Cat in H as (d2 & us & -> & Hd2 & Hus).
    apply Lang_Plus_Class in Hd1 as [Hne1 Hd1].
    apply Lang_Plus_Class in Hd2 as [Hne2 Hd2].
    apply Lang_Lit in Hus as ->.
    simpl in Hab.
    apply Lang_Cat in Hab as (a & r & -> & Ha & Hab).
    apply Lang_Cat in Hab as (b & e & -> & Hb & He).
    apply Lang_Class in Ha as (a' & -> & Ha).
    apply Lang_Class in Hb as (b' & -> & Hb).
    apply Lang_Eps in He as ->.
    exists d1, a', b', d2. simpl. repeat split; auto.
  - intros (d1 & a & b & d2 & -> & Hne1 & Hd1 & Ha & Hb & Hne2 & Hd2).
    apply Lang_Cat. exists d1, (String a (String b "") ++ d2 ++ "US").
    repeat split; [now apply Lang_Plus_Class | ].
    apply Lang_Cat. exists (String a (String b "")), (d2 ++ "US").
    repeat split.
    + simpl. change (String a (String b "")) with (String a "" ++ (String b "" ++ "")).
      constructor; [now constructor | ].
      constructor; [now constructor | constructor ].
    + apply Lang_Cat. exists d2, "US". repeat split.
      * now apply Lang_Plus_Class.
      * now apply Lang_Lit.
Qed.

Lemma FEDEX_PATTERN_shape (t : string) :
  test FEDEX_PATTERN t = true <-> fedex_shape t.
Proof.
  rewrite test_Lang. unfold FEDEX_PATTERN, digit. apply Lang_Times_Class.
Qed.

Lemma startsWith_1Z_shape (t : string) :
  Js.startsWith t "1Z" = true <-> ups_shape t.
Proof.
  unfold Js.startsWith, ups_shape. split.
  - destruct t as [|a [|b r]]; cbn [Js.startsWith];
      rewrite ?andb_false_r, ?andb_true_r; try discriminate.
    intros H. apply andb_true_iff in H as [Ha Hb].
    apply Ascii.eqb_eq in Ha as <-. apply Ascii.eqb_eq in Hb as <-.
    now exists r.
  - intros [r ->]. reflexivity.
Qed.

End CarrierFacts.

(** ** [trim] and [toUpperCase] *)

Section NormalizeFacts.
Import Js.

Lemma upper_char_space (c : ascii) : is_space (upper_char c) = is_space c.
Proof. destruct c as [[] [] [] [] [] [] [] []]; reflexivity. Qed.

Lemma upper_char_not_lower (c : ascii) : is_lower (upper_char c) = false.
Proof. destruct c as [[] [] [] [] [] [] [] []]; reflexivity. Qed.

Lemma upper_char_idempotent (c : ascii) : upper_char (upper_char c) = upper_char c.
Proof. unfold upper_char at 1. now rewrite upper_char_not_lower. Qed.

Lemma toUpperCase_idempotent (s : string) :
  toUpperCase (toUpperCase s) = toUpperCase s.
Proof.
  induction s as [|c s IH]; simpl; [reflexivity | ].
  now rewrite upper_char_idempotent, IH.
Qed.

(** The result of [toUpperCase] holds no small letter. *)
Lemma toUpperCase_no_lower (s : string) :
  forall c, In c (list_ascii_of_string (toUpperCase s)) -> is_lower c = false.
Proof.
  induction s as [|x s IH]; simpl; intros c H; [contradiction | ].
  destruct H as [<- | H]; [apply upper_char_not_lower | auto].
Qed.

Lemma toUpperCase_length (s : string) :
  String.length (toUpperCase s) = String.length s.
Proof. induction s as [|c s IH]; simpl; [reflexivity | now rewrite IH]. Qed.

(** [trimStart] removes a run of white space from the front. *)
Lemma trimStart_spec (s : string) :
  exists l, s = l ++ trimStart s /\ all_chars is_space l.
Proof.
  induction s as [|c s [l [E Hl]]]; simpl.
  - exists "". split; [reflexivity | intros x []].
  - destruct (is_space c) eqn:Hc.
    + exists (String c l). simpl. split; [now rewrite <- E | ].
      apply all_chars_String; auto.
    + exists "". split; [reflexivity | intros x []].
Qed.

(** [trimEnd] removes a run of white space from the back. *)
Lemma trimEnd_spec (s : string) :
  exists r, s = trimEnd s ++ r /\ all_chars is_space r.
Proof.
  induction s as [|c s [r [E Hr]]]; simpl.
  - exists "". split; [reflexivity | intros x []].
  - destruct (trimEnd s) as [|d t] eqn:Et.
    + simpl in E. subst r. destruct (is_space c) eqn:Hc.
      * exists (String c s). split; [reflexivity | ].
        apply all_chars_String; auto.
      * exists s. split; [reflexivity | assumption].
    + exists r. simpl. split; [now rewrite E at 1 | assumption].
Qed.

Lemma trimStart_head (s : string) (c : ascii) (r : string) :
  trimStart s = String c r -> is_space c = false.
Proof.
  induction s as [|x s IH]; simpl; [discriminate | ].
  destruct (is_space x) eqn:Hx; [assumption | ].
  intros H; injection H as <- _; assumption.
Qed.

Lemma trimEnd_last (s : string) :
  forall r c, trimEnd s = r ++ String c "" -> is_space c = false.
Proof.
  induction s as [|x s IH]; simpl; intros r c H.
  - destruct r; discriminate.
  - destruct (trimEnd s) as [|d t] eqn:Et.
    + destruct (is_space x) eqn:Hx.
      * destruct r; discriminate.
      * destruct r as [|y [|z r]]; simpl in H; try discriminate.
        injection H as <-; assumption.
    + destruct r as [|y r]; simpl in H; [discriminate | ].
      injection H as _ H. eapply IH; eassumption.
Qed.

Lemma trimStart_fixed (s : string) :
  (forall c r, s = String c r -> is_space c = false) -> trimStart s = s.
Proof.
  destruct s as [|c r]; simpl; intros H; [reflexivity | ].
  now rewrite (H c r eq_refl).
Qed.

Lemma trimEnd_head (s : string) (c : ascii) (r : string) :
  trimEnd s = String c r -> exists r', s = String c r'.
Proof.
  destruct s as [|x s]; simpl; [discriminate | ].
  destruct (trimEnd s); [destruct (is_space x) | ]; try discriminate;
    intros H; injection H as <- _; eauto.
Qed.

Lemma trimEnd_idempotent (s : string) : trimEnd (trimEnd s) = trimEnd s.
Proof.
  induction s as [|c s IH]; simpl; [reflexivity | ].
  destruct (trimEnd s) as [|d t] eqn:Et.
  - destruct (is_space c) eqn:Hc; simpl; [reflexivity | now rewrite Hc].
  - simpl in *. now rewrite IH.
Qed.

Lemma trim_idempotent (s : string) : trim (trim s) = trim s.
Proof.
  unfold trim. rewrite (@trimStart_fixed (trimEnd (trimStart s))).
  - apply trimEnd_idempotent.
  - intros c r H. apply trimEnd_head in H as [r' H].
    now apply trimStart_head in H.
Qed.

Lemma trimStart_toUpperCase (s : string) :
  trimStart (toUpperCase s) = toUpperCase (trimStart s).
Proof.
  induction s as [|c s IH]; simpl; [reflexivity | ].
  rewrite upper_char_space. now destruct (is_space c).
Qed.

Lemma trimEnd_toUpperCase (s : string) :
  trimEnd (toUpperCase s) = toUpperCase (trimEnd s).
Proof.
  induction s as [|c s IH]; simpl; [reflexivity | ].
  rewrite IH, upper_char_space.
  destruct (trimEnd s); simpl; [now destruct (is_space c) | reflexivity].
Qed.

Lemma trim_toUpperCase (s : string) :
  trim (toUpperCase s) = toUpperCase (trim s).
Proof.
  unfold trim. now rewrite trimStart_toUpperCase, trimEnd_toUpperCase.
Qed.

(** [trim] strips white space at both ends and nothing else. *)
Lemma trim_spec (s : string) :
  (exists l r, s = l ++ trim s ++ r /\
               all_chars is_space l /\ all_chars is_space r) /\
  (forall c r, trim s = String c r -> is_space c = false) /\
  (forall r c, trim s = r ++ String c "" -> is_space c = false).
Proof.
  unfold trim. split; [ | split].
  - destruct (trimStart_spec s) as [l [El Hl]].
    destruct (trimEnd_spec (trimStart s)) as [r [Er Hr]].
    exists l, r. split; [ | auto]. now rewrite <- Er.
  - intros c r H. apply trimEnd_head in H as [r' H].
    now apply trimStart_head in H.
  - apply trimEnd_last.
Qed.

(** Normalizing twice is normalizing once. *)
Lemma normalize_idempotent (s : string) :
  toUpperCase (trim (toUpperCase (trim s))) = toUpperCase (trim s).
Proof.
  now rewrite trim_toUpperCase, trim_idempotent, toUpperCase_idempotent.
Qed.

End NormalizeFacts.

(** ** Tracking links *)

Section TrackingLinks.
Import Regex Carrier.

(** The four branches of [getTrackingUrl], read on the normalized text
    and on the shapes as the specification words them. *)
Lemma getTrackingUrl_cases (tn : string) :
  let t := Js.toUpperCase (Js.trim tn) in
  (usps_shape t /\ Server.getTrackingUrl tn = usps_link t) \/
  (~ usps_shape t /\ ups_shape t /\ Server.getTrackingUrl tn = ups_link t) \/
  (~ usps_shape t /\ ~ ups_shape t /\ fedex_shape t /\
   Server.getTrackingUrl tn = fedex_link t) \/
  (~ usps_shape t /\ ~ ups_shape t /\ ~ fedex_shape t /\
   Server.getTrackingUrl tn = usps_link t).
Proof.
  intros t. unfold Server.getTrackingUrl. fold t.
  destruct (test USPS_PATTERN t) eqn:Husps.
  { left. split; [now apply USPS_PATTERN_shape | reflexivity]. }
  assert (~ usps_shape t) as Nusps
      by (intros H; apply USPS_PATTERN_shape in H; congruence).
  right. destruct (Js.startsWith t "1Z") eqn:Hups.
  { left. repeat split; [assumption | now apply startsWith_1Z_shape]. }
  assert (~ ups_shape t) as Nups
      by (intros H; apply startsWith_1Z_shape in H; congruence).
  right. destruct (test FEDEX_PATTERN t) eqn:Hfedex.
  { left. repeat split; try assumption; now apply FEDEX_PATTERN_shape. }
  right. repeat split; try assumption.
  intros H; apply FEDEX_PATTERN_shape in H; congruence.
Qed.

(** The page's helper answers [null] for a missing or empty tracking
    number and agrees with the back end's on every other. *)
Lemma OrderStatus_getTrackingUrl_eq (tn : option string) :
  OrderStatus.getTrackingUrl tn =
  match tn with
  | None | Some EmptyString => None
  | Some s => Some (Server.getTrackingUrl s)
  end.
Proof.
  destruct tn as [[|c s]|]; try reflexivity.
  unfold OrderStatus.getTrackingUrl, Server.getTrackingUrl.
  cbn [Js.truthy negb].
  repeat match goal with |- context [if ?b then _ else _] => destruct b end;
    reflexivity.
Qed.


(** The USPS pattern wins over the 1Z prefix, and the second tracking
    number of the specification reaches the USPS link by default, not by
    the USPS pattern. *)
Example precedence_examples :
  Server.getTrackingUrl "1ZA1US" = usps_link "1ZA1US" /\
  test USPS_PATTERN "1ZA1US" = true /\
  Js.startsWith "1ZA1US" "1Z" = true /\
  test USPS_PATTERN "9400111899223197428490" = false /\
  test USPS_PATTERN "EC123456789US" = false /\
  test USPS_PATTERN "12AB3456US" = true.
Proof. repeat split; reflexivity. Qed.

(** C10, as the code has it. For every input text the back end's
    [getTrackingUrl] returns one of the three carrier addresses followed
    by the trimmed, upper-cased text, and the choice depends on that
    normalized text alone (the link of a text is the link of its
    normalized form); the page's helper returns [null] for the empty text
    and for a missing tracking number, and the same link as the back end's
    for every other text; the small-letter input 1z999aa10123456784 gets
    the UPS link of 1Z999AA10123456784. *)
Theorem tracking_link_normalized :
  (forall tn : string,
      let t := Js.toUpperCase (Js.trim tn) in
      (Server.getTrackingUrl tn = usps_link t \/
       Server.getTrackingUrl tn = ups_link t \/
       Server.getTrackingUrl tn = fedex_link t) /\
      Server.getTrackingUrl tn = Server.getTrackingUrl t /\
      OrderStatus.getTrackingUrl (Some tn) =
        match tn with
        | EmptyString => None
        | _ => Some (Server.getTrackingUrl tn)
        end) /\
  OrderStatus.getTrackingUrl None = None /\
  Server.getTrackingUrl "1z999aa10123456784" =
    "https://www.ups.com/track?tracknum=1Z999AA10123456784" /\
  OrderStatus.getTrackingUrl (Some "1z999aa10123456784") =
    Some "https://www.ups.com/track?tracknum=1Z999AA10123456784".
Proof.
  split; [ | repeat split; reflexivity ].
  intros tn t. split; [ | split ].
  - destruct (getTrackingUrl_cases tn) as [H | [H | [H | H]]];
      fold t in H; intuition.
  - unfold Server.getTrackingUrl. subst t.
    now rewrite (normalize_idempotent tn).
  - apply (OrderStatus_getTrackingUrl_eq (Some tn)).
Qed.

(** C10 as stated fails on the page's helper: the empty text gets no
    link at all. *)
Lemma tracking_link_not_total :
  OrderStatus.getTrackingUrl (Some "") = None.
Proof. reflexivity. Qed.

End TrackingLinks.

(** ** Sheets *)

Create HintDb js_run.
#[local] Hint Unfold Ledger.ret Ledger.throw Ledger.bind Ledger.try_catch
Ledger.lift Ledger.Logger_log Ledger.now Ledger.set_sheet Ledger.getSheet
Ledger.appendRow Ledger.setValue Ledger.MailApp_sendEmail
Ledger.UrlFetchApp_fetch : js_run.

(** Run the monad's plumbing in the goal. *)
Ltac js_run := autounfold with js_run; cbn [fst snd].

Section SheetFacts.
Import Ledger.

Lemma update_nth_app {A} (d : A) (f : A -> A) (pre : list A) :
  forall x rest,
    update_nth d f (length pre) (pre ++ x :: rest)%list = (pre ++ f x :: rest)%list.
Proof.
  induction pre as [|y pre IH]; intros x rest; simpl; [reflexivity | ].
  now rewrite IH.
Qed.

Lemma nth_update_nth_same {A} (d : A) (f : A -> A) (n : nat) :
  forall l, nth n (update_nth d f n l) d = f (nth n l d).
Proof.
  induction n as [|n IH]; intros [|x l]; simpl; auto.
  rewrite IH. now destruct n.
Qed.

Lemma nth_update_nth_other {A} (d : A) (f : A -> A) (n : nat) :
  forall m l, n <> m -> nth m (update_nth d f n l) d = nth m l d.
Proof.
  induction n as [|n IH]; intros [|m] [|x l] H; simpl; try congruence.
  - now destruct m.
  - rewrite IH by congruence. now destruct m.
  - apply IH. congruence.
Qed.

Lemma cell_marked_sent (t : string) (row : Row) : cell (marked t row) 7 = "Yes".
Proof.
  unfold cell, marked.
  rewrite nth_update_nth_other by discriminate.
  now rewrite nth_update_nth_same.
Qed.

Lemma cell_marked_updated (t : string) (row : Row) : cell (marked t row) 8 = t.
Proof. unfold cell, marked. now rewrite nth_update_nth_same. Qed.

Lemma cell_marked_other (t : string) (row : Row) (k : nat) :
  k <> 7 -> k <> 8 -> cell (marked t row) k = cell row k.
Proof.
  intros H7 H8. unfold cell, marked.
  rewrite !nth_update_nth_other by congruence. reflexivity.
Qed.

Lemma due_marked (t : string) (row : Row) : due (marked t row) = false.
Proof.
  unfold due. rewrite cell_marked_sent. apply andb_false_r.
Qed.

Lemma due_sent (row : Row) : cell row 7 = "Yes" -> due row = false.
Proof. unfold due. intros ->. apply andb_false_r. Qed.

Lemma tl_getValues (sh : list Row) : tl (getValues sh) = tl sh.
Proof. now destruct sh. Qed.

Lemma findFrom_undefined (rows : list Row) : forall i, findFrom i rows None = 0.
Proof. induction rows; intros i; simpl; auto. Qed.

(** No hit exactly when no row carries the id. *)
Lemma findFrom_zero (k : string) (rows : list Row) :
  forall i, findFrom i rows (Some k) = 0 <->
            filter (fun r => String.eqb (cell r 0) k) rows = [].
Proof.
  induction rows as [|r rows IH]; intros i; simpl; [tauto | ].
  rewrite (String.eqb_sym k). destruct (String.eqb (cell r 0) k).
  - split; [lia | discriminate].
  - apply IH.
Qed.

(** A hit is the row number of the first row that carries the id. *)
Lemma findFrom_hit (k : string) (rows : list Row) :
  forall i n,
    findFrom i rows (Some k) = n -> n <> 0 ->
    exists j row,
      n = i + j + 1 /\ nth_error rows j = Some row /\ cell row 0 = k /\
      filter (fun r => String.eqb (cell r 0) k) (firstn j rows) = [].
Proof.
  induction rows as [|r rows IH]; intros i n; simpl; [congruence | ].
  rewrite (String.eqb_sym k). destruct (String.eqb (cell r 0) k) eqn:E.
  - intros <- _. exists 0, r. simpl. apply String.eqb_eq in E.
    repeat split; auto; lia.
  - intros H Hn. destruct (IH _ _ H Hn) as (j & row & -> & Hj & Hk & Hf).
    exists (S j), row. simpl. rewrite E. repeat split; auto; lia.
Qed.

Lemma findFrom_app_last (k : string) (row : Row) (rows : list Row) :
  forall i,
    filter (fun r => String.eqb (cell r 0) k) rows = [] ->
    cell row 0 = k ->
    findFrom i (rows ++ [row])%list (Some k) = i + length rows + 1.
Proof.
  induction rows as [|r rows IH]; intros i Hf Hk; simpl.
  - rewrite Hk, String.eqb_refl. lia.
  - simpl in Hf. rewrite (String.eqb_sym k).
    destruct (String.eqb (cell r 0) k); [discriminate | ].
    rewrite IH by assumption. lia.
Qed.

Lemma findOrderRow_zero (sh : list Row) (k : string) :
  findOrderRow sh (Some k) = 0 <-> orders_of sh k = [].
Proof.
  unfold findOrderRow, orders_of. rewrite tl_getValues. apply findFrom_zero.
Qed.

Lemma orders_of_app (sh : list Row) (row : Row) (k : string) :
  sh <> [] ->
  orders_of (sh ++ [row])%list k =
  (orders_of sh k ++ (if String.eqb (cell row 0) k then [row] else []))%list.
Proof.
  unfold orders_of. destruct sh as [|h sh]; [congruence | intros _].
  simpl. now rewrite filter_app.
Qed.

End SheetFacts.

(** ** Ingestion *)

Section Ingestion.
Import Ledger.
Variable env : Env.

(** A replay: the order is on the sheet, nothing but a log line happens. *)
Lemma saveOrderToSheet_known (s : Session) (w : World) :
  orders_of (sheet w) (id s) <> [] ->
  saveOrderToSheet env (Some s) w =
  (Ok tt, {| sheet := sheet w; outbox := outbox w; requests := requests w;
             log := (log w ++ [("Order already exists: " ++ id s)%string])%list;
             ticks := ticks w |}).
Proof.
  intros H. rewrite <- findOrderRow_zero in H.
  unfold saveOrderToSheet. js_run.
  destruct (findOrderRow (sheet w) (Some (id s))); [congruence | reflexivity].
Qed.

(** A first delivery: one row is appended, the clock is read twice. *)
Lemma saveOrderToSheet_fresh (s : Session) (w : World) :
  orders_of (sheet w) (id s) = [] ->
  saveOrderToSheet env (Some s) w =
  (Ok tt, {| sheet := (sheet w ++ [new_row env (ticks w) s])%list;
             outbox := outbox w; requests := requests w;
             log := (log w ++ [("Order saved: " ++ id s)%string])%list;
             ticks := S (S (ticks w)) |}).
Proof.
  intros H. rewrite <- findOrderRow_zero in H.
  unfold saveOrderToSheet. js_run. rewrite H. reflexivity.
Qed.

Lemma handleStripeWebhook_completed (e : PostEvent) (b : Body) (s : Session)
      (w : World) :
  contents e = Ok b -> completion_of b s ->
  handleStripeWebhook env e w =
  (Ok RespReceived, snd (saveOrderToSheet env (Some s) w)).
Proof.
  intros Hb [Ht Hd]. unfold handleStripeWebhook. js_run.
  rewrite Hb, Ht, Hd. cbn [Js.strict_eq]. rewrite String.eqb_refl.
  destruct (orders_of (sheet w) (id s)) eqn:E.
  - now rewrite saveOrderToSheet_fresh.
  - rewrite saveOrderToSheet_known; [reflexivity | congruence].
Qed.

Lemma orders_of_new_row (sh : list Row) (n : nat) (s : Session) :
  sh <> [] ->
  orders_of (sh ++ [new_row env n s])%list (id s) =
  (orders_of sh (id s) ++ [new_row env n s])%list.
Proof.
  intros H. rewrite orders_of_app by assumption.
  unfold new_row at 1. cbn [cell nth]. now rewrite String.eqb_refl.
Qed.

(** After one delivery the order is on the sheet (the sheet has its
    header row), so every further delivery is a replay. *)
Lemma deliver_replay (e : PostEvent) (b : Body) (s : Session) (n : nat) :
  contents e = Ok b -> completion_of b s ->
  forall w,
    orders_of (sheet w) (id s) <> [] ->
    let w' := deliver env e n w in
    sheet w' = sheet w /\ outbox w' = outbox w /\ requests w' = requests w /\
    ticks w' = ticks w /\
    log w' = (log w ++ repeat ("Order already exists: " ++ id s)%string n)%list.
Proof.
  intros Hb Hc. induction n as [|n IH]; intros w Hw; cbn [deliver].
  - cbn. now rewrite app_nil_r.
  - rewrite (handleStripeWebhook_completed e w Hb Hc).
    rewrite saveOrderToSheet_known by assumption. cbn [snd].
    match goal with |- context [deliver env e n ?w0] =>
      destruct (IH w0 Hw) as (Hs & Ho & Hr & Ht & Hl) end.
    cbn [sheet outbox requests ticks log] in *.
    rewrite Hs, Ho, Hr, Ht, Hl, <- app_assoc. cbn. auto.
Qed.

(** C1. Idempotent ingestion: on a sheet with its header row that holds
    at most one order under the event's transaction id, delivering a
    completion event [n >= 1] times in a row leaves exactly one order
    under that id; every delivery is acknowledged; and the deliveries
    after the first leave the sheet as the first left it, send no mail,
    call no processor and read no clock (each replay writes the one log
    line "Order already exists"). *)
Theorem idempotent_ingestion (e : PostEvent) (b : Body) (s : Session)
        (w : World) (n : nat) :
  contents e = Ok b -> completion_of b s ->
  sheet w <> [] ->
  length (orders_of (sheet w) (id s)) <= 1 ->
  1 <= n ->
  let w1 := deliver env e 1 w in
  let wn := deliver env e n w in
  length (orders_of (sheet wn) (id s)) = 1 /\
  fst (handleStripeWebhook env e (deliver env e (n - 1) w)) = Ok RespReceived /\
  sheet wn = sheet w1 /\
  outbox wn = outbox w /\ requests wn = requests w /\ ticks wn = ticks w1 /\
  log wn = (log w1 ++ repeat ("Order already exists: " ++ id s)%string (n - 1))%list.
Proof.
  intros Hb Hc Hh Hu Hn w1 wn.
  assert (H1 : orders_of (sheet w1) (id s) <> [] /\
               length (orders_of (sheet w1) (id s)) = 1 /\
               outbox w1 = outbox w /\ requests w1 = requests w).
  { subst w1. cbn [deliver].
    rewrite (handleStripeWebhook_completed e w Hb Hc).
    destruct (orders_of (sheet w) (id s)) as [|r l] eqn:E.
    - rewrite saveOrderToSheet_fresh by assumption. cbn [snd sheet outbox requests].
      rewrite orders_of_new_row, E by assumption. cbn. repeat split; congruence.
    - rewrite saveOrderToSheet_known by congruence. cbn [snd sheet outbox requests].
      rewrite E. destruct l; cbn in Hu |- *; [ | lia]. repeat split; congruence. }
  destruct H1 as (Hne & Hone & Ho & Hr).
  assert (Hwn : wn = deliver env e (n - 1) w1).
  { subst wn w1. destruct n as [|n]; [lia | ].
    replace (S n - 1) with n by lia. reflexivity. }
  destruct (@deliver_replay e b s (n - 1) Hb Hc w1 Hne) as (Hs' & Ho' & Hr' & Ht' & Hl').
  rewrite <- Hwn in *.
  repeat split; try congruence.
  rewrite (handleStripeWebhook_completed e _ Hb Hc). reflexivity.
Qed.

(** C9. An event that parses and whose type is not the completed type is
    acknowledged and nothing at all changes: sheet, mail, processor
    calls, log and clock are as before. *)
Theorem non_completion_event_discarded (e : PostEvent) (b : Body) (w : World) :
  contents e = Ok b ->
  type b <> Some "checkout.session.completed" ->
  handleStripeWebhook env e w = (Ok RespReceived, w).
Proof.
  intros Hb Ht. unfold handleStripeWebhook. js_run. rewrite Hb.
  destruct (Js.strict_eq (type b) "checkout.session.completed") eqn:E;
    [ | reflexivity ].
  exfalso. apply Ht. unfold Js.strict_eq in E.
  destruct (type b) as [t|]; [ | discriminate ].
  apply String.eqb_eq in E. now subst.
Qed.

Lemma strict_eq_true (a : option string) (b : string) :
  Js.strict_eq a b = true <-> a = Some b.
Proof.
  destruct a as [x|]; simpl; [ | split; discriminate ].
  rewrite String.eqb_eq. split; congruence.
Qed.

(** What a webhook call can do to the sheet: nothing, or append the new
    row of the completed session it carries. *)
Lemma handleStripeWebhook_sheet (e : PostEvent) (w : World) :
  let w' := snd (handleStripeWebhook env e w) in
  sheet w' = sheet w \/
  exists b s,
    contents e = Ok b /\ completion_of b s /\
    orders_of (sheet w) (id s) = [] /\
    sheet w' = (sheet w ++ [new_row env (ticks w) s])%list.
Proof.
  destruct (contents e) as [b|x] eqn:Hb.
  2:{ left. unfold handleStripeWebhook. js_run. now rewrite Hb. }
  destruct (Js.strict_eq (type b) "checkout.session.completed") eqn:Ht.
  2:{ left. unfold handleStripeWebhook. js_run. now rewrite Hb, Ht. }
  apply strict_eq_true in Ht.
  destruct (data b) as [[s|]|] eqn:Hd.
  - assert (Hc : completion_of b s) by (split; assumption).
    cbn zeta. rewrite (handleStripeWebhook_completed e w Hb Hc). cbn [snd].
    destruct (orders_of (sheet w) (id s)) eqn:E.
    + right. exists b, s. rewrite saveOrderToSheet_fresh by assumption. auto.
    + left. rewrite saveOrderToSheet_known by congruence. reflexivity.
  - left. unfold handleStripeWebhook, saveOrderToSheet. js_run.
    rewrite Hb, Ht, Hd. cbn [Js.strict_eq]. rewrite String.eqb_refl.
    reflexivity.
  - left. unfold handleStripeWebhook. js_run.
    rewrite Hb, Ht, Hd. cbn [Js.strict_eq]. rewrite String.eqb_refl.
    reflexivity.
Qed.

(** C8. Ingestion defaults: whenever a webhook call adds a record, it
    adds one row at the end of the sheet, for the completed session the
    event carries, with that session's id and customer e-mail, status
    Placed, an empty tracking number and Email Sent = No; and a
    completion event whose id is not on the sheet does add that row. *)
Theorem ingestion_defaults (e : PostEvent) (w : World) :
  let w' := snd (handleStripeWebhook env e w) in
  (sheet w' = sheet w \/
   exists b s row,
     contents e = Ok b /\ completion_of b s /\
     sheet w' = (sheet w ++ [row])%list /\
     cell row 0 = id s /\
     cell row 1 = Js.or_else
                    (Js.or_opt (match customer_details s with
                                | Some cd => email cd
                                | None => None
                                end)
                               (customer_email s)) "" /\
     cell row 3 = "Placed" /\ cell row 6 = "" /\ cell row 7 = "No") /\
  (forall b s,
      contents e = Ok b -> completion_of b s ->
      orders_of (sheet w) (id s) = [] ->
      sheet w' = (sheet w ++ [new_row env (ticks w) s])%list /\
      cell (new_row env (ticks w) s) 3 = "Placed" /\
      cell (new_row env (ticks w) s) 6 = "" /\
      cell (new_row env (ticks w) s) 7 = "No").
Proof.
  intros w'. split.
  - destruct (handleStripeWebhook_sheet e w) as [H | (b & s & Hb & Hc & _ & H)];
      [now left | right].
    exists b, s, (new_row env (ticks w) s).
    split; [assumption | split; [assumption | split; [assumption | ]]].
    repeat split.
  - intros b s Hb Hc Hf. subst w'.
    rewrite (handleStripeWebhook_completed e w Hb Hc).
    rewrite saveOrderToSheet_fresh by assumption. repeat split.
Qed.

Lemma getRange9_new_row (sh : list Row) (n : nat) (s : Session) :
  getRange9 (sh ++ [new_row env n s])%list (length sh + 1) = new_row env n s.
Proof.
  unfold getRange9. rewrite Nat.add_sub.
  rewrite app_nth2, Nat.sub_diag by lia. reflexivity.
Qed.

Lemma findOrderRow_new_row (sh : list Row) (n : nat) (s : Session) :
  sh <> [] -> orders_of sh (id s) = [] ->
  findOrderRow (sh ++ [new_row env n s])%list (Some (id s)) = length sh + 1.
Proof.
  intros Hh Hf. destruct sh as [|h rows]; [congruence | ].
  unfold findOrderRow, orders_of in *. rewrite tl_getValues. cbn [tl app length] in *.
  rewrite findFrom_app_last by (assumption || reflexivity). lia.
Qed.

Lemma getOrderStatus_not_found (k : option string) (w : World) :
  match k with Some k => orders_of (sheet w) k = [] | None => True end ->
  getOrderStatus env k w = (Ok (RespError "Order not found"), w).
Proof.
  intros H. unfold getOrderStatus. js_run.
  assert (E : findOrderRow (sheet w) k = 0).
  { destruct k as [k|]; [now apply findOrderRow_zero | ].
    unfold findOrderRow. apply findFrom_undefined. }
  now rewrite E.
Qed.

Lemma truthy_iff (s : string) : Js.truthy s = true <-> s <> "".
Proof. destruct s; simpl; split; congruence. Qed.

(** C6. Status read reflects latest write: on a sheet with its header
    row that holds no order under the session's id, and a text codec
    that gives back the two documents it prints, the webhook call is
    acknowledged and appends the session's row, and a status query for
    the session id right after it answers success with the order read
    from that row (id, e-mail, the two clock readings, Placed, the items
    and address documents, no tracking number, Email Sent = No) and
    leaves the world as it is; in any world, a query for a reference that
    no data row carries (or for no reference at all) answers "Order not
    found" and leaves the world as it is. *)
Theorem status_read_reflects_ingestion (e : PostEvent) (b : Body) (s : Session)
        (w : World) :
  contents e = Ok b -> completion_of b s ->
  sheet w <> [] ->
  orders_of (sheet w) (id s) = [] ->
  round_trips env (format_items s) ->
  round_trips env (format_address s) ->
  let w1 := snd (handleStripeWebhook env e w) in
  fst (handleStripeWebhook env e w) = Ok RespReceived /\
  sheet w1 = (sheet w ++ [new_row env (ticks w) s])%list /\
  getOrderStatus env (Some (id s)) w1 =
    (Ok (RespOrder (new_order env (ticks w) s)), w1) /\
  (forall (w' : World) (k : option string),
      match k with
      | Some k => orders_of (sheet w') k = []
      | None => True
      end ->
      getOrderStatus env k w' = (Ok (RespError "Order not found"), w')).
Proof.
  intros Hb Hc Hh Hf [Hi1 Hi2] [Ha1 Ha2] w1. subst w1.
  rewrite (handleStripeWebhook_completed e w Hb Hc).
  rewrite saveOrderToSheet_fresh by assumption. cbn [fst snd].
  split; [reflexivity | split; [reflexivity | split]].
  - unfold getOrderStatus. js_run. cbn [sheet].
    rewrite findOrderRow_new_row by assumption.
    replace (Nat.leb (length (sheet w) + 1) 0) with false
      by (symmetry; apply Nat.leb_gt; lia).
    rewrite getRange9_new_row.
    unfold new_row at 1 2 3 4. cbn [cell nth].
    apply truthy_iff in Hi1. apply truthy_iff in Ha1.
    rewrite Hi1, Ha1, Hi2, Ha2. reflexivity.
  - intros w' k Hk. now apply getOrderStatus_not_found.
Qed.

End Ingestion.

(** ** The tracking e-mail scan *)

Section Dispatcher.
Import Ledger.
Variable env : Env.

(** Sending never throws to the caller: the failure is logged. *)
Lemma sendTrackingEmail_run (email sessionId trackingNumber status : string)
      (w : World) :
  let m := tracking_mail email sessionId trackingNumber status in
  exists l,
    sendTrackingEmail env email sessionId trackingNumber status w =
    (Ok tt, {| sheet := sheet w;
               outbox := (outbox w ++ accepted env [m])%list;
               requests := requests w; log := (log w ++ [l])%list;
               ticks := ticks w |}).
Proof.
  intros m. unfold sendTrackingEmail, accepted. js_run. fold m. cbn [filter].
  destruct (transport env m) as [x|]; eexists; cbn [sheet outbox requests log ticks].
  - rewrite app_nil_r. reflexivity.
  - reflexivity.
Qed.

Lemma scan_row_run (i : nat) (row : Row) (pre rest : list Row) (w : World) :
  sheet w = (pre ++ row :: rest)%list -> length pre = i ->
  exists w' row',
    scan_row env i row w = (Ok tt, w') /\
    sheet w' = (pre ++ row' :: rest)%list /\ scanned row row' /\
    outbox w' = (outbox w ++ accepted env (map mail_of (filter due [row])))%list /\
    requests w' = requests w.
Proof.
  intros Hs Hi. unfold scan_row, scanned. cbn [filter].
  destruct (due row) eqn:Hd.
  - destruct (sendTrackingEmail_run (cell row 1) (cell row 0) (cell row 6)
                                    (cell row 3) w) as [l Hl].
    cbn zeta in Hl. js_run. rewrite Hl. cbn [sheet outbox requests log ticks].
    rewrite Hs, Nat.add_sub. subst i. rewrite !update_nth_app.
    eexists; eexists. split; [reflexivity | ].
    cbn [sheet outbox requests]. repeat split. eexists. reflexivity.
  - exists w, row. cbn. rewrite app_nil_r. auto.
Qed.

Lemma scan_from_run (rows : list Row) :
  forall (i : nat) (pre : list Row) (w : World),
    sheet w = (pre ++ rows)%list -> length pre = i ->
    exists w' rows',
      scan_from env i rows w = (Ok tt, w') /\
      sheet w' = (pre ++ rows')%list /\ Forall2 scanned rows rows' /\
      outbox w' = (outbox w ++ accepted env (map mail_of (filter due rows)))%list /\
      requests w' = requests w.
Proof.
  induction rows as [|row rows IH]; intros i pre w Hs Hi; cbn [scan_from].
  - exists w, []. cbn. rewrite !app_nil_r. rewrite app_nil_r in Hs.
    repeat split; auto.
  - destruct (scan_row_run row pre rows w Hs Hi)
      as (w1 & row' & Hrun & Hs1 & Hsc & Ho1 & Hr1).
    unfold bind. rewrite Hrun.
    destruct (IH (S i) (pre ++ [row'])%list w1) as (w2 & rows' & Hrun2 & Hs2 & Hf & Ho2 & Hr2).
    { now rewrite Hs1, <- app_assoc. }
    { rewrite length_app. cbn. lia. }
    exists w2, (row' :: rows'). rewrite Hrun2. repeat split.
    + now rewrite Hs2, <- app_assoc.
    + now constructor.
    + rewrite Ho2, Ho1, <- app_assoc. f_equal.
      unfold accepted. rewrite <- filter_app, <- map_app. f_equal. f_equal.
      cbn [filter]. now destruct (due row).
    + congruence.
Qed.

(** A run never fails; it rewrites the data rows as [scanned] says and
    posts the accepted messages of the due rows, in sheet order. *)
Lemma sendTrackingEmails_run (w : World) :
  exists w' rows',
    sendTrackingEmails env w = (Ok tt, w') /\
    sheet w' = (firstn 1 (sheet w) ++ rows')%list /\
    Forall2 scanned (tl (sheet w)) rows' /\
    outbox w' =
      (outbox w ++ accepted env (map mail_of (filter due (tl (sheet w)))))%list /\
    requests w' = requests w.
Proof.
  unfold sendTrackingEmails. js_run. rewrite tl_getValues.
  destruct (sheet w) as [|h rows] eqn:E.
  - exists w, []. cbn. rewrite E, !app_nil_r. repeat split; auto.
  - destruct (@scan_from_run rows 1 [h] w E eq_refl) as (w' & rows' & Hrun & H).
    exists w', rows'. cbn [tl firstn]. rewrite Hrun. auto.
Qed.

(** A scan over rows none of which is due does nothing at all. *)
Lemma scan_from_idle (rows : list Row) :
  Forall (fun r => due r = false) rows ->
  forall i w, scan_from env i rows w = (Ok tt, w).
Proof.
  induction 1 as [|row rows Hd _ IH]; intros i w; cbn [scan_from].
  - reflexivity.
  - unfold bind, scan_row. rewrite Hd. cbn. apply IH.
Qed.

Lemma sendTrackingEmails_idle (w : World) :
  Forall (fun r => due r = false) (tl (sheet w)) ->
  sendTrackingEmails env w = (Ok tt, w).
Proof.
  intros H. unfold sendTrackingEmails. js_run. rewrite tl_getValues.
  now rewrite scan_from_idle.
Qed.

Lemma scanned_not_due (rows rows' : list Row) :
  Forall2 scanned rows rows' -> Forall (fun r => due r = false) rows'.
Proof.
  induction 1 as [|r r' rows rows' Hs _ IH]; constructor; auto.
  unfold scanned in Hs. destruct (due r) eqn:Hd.
  - destruct Hs as [t ->]. apply due_marked.
  - now subst.
Qed.

(** After one run nothing is due, so the next run is idle. *)
Lemma second_run_idle (w : World) :
  let w1 := snd (sendTrackingEmails env w) in
  sendTrackingEmails env w1 = (Ok tt, w1).
Proof.
  destruct (sendTrackingEmails_run w) as (w' & rows' & Hrun & Hs & Hf & _).
  cbn zeta. rewrite Hrun. cbn [snd]. apply sendTrackingEmails_idle.
  rewrite Hs. destruct (sheet w); cbn in *.
  - inversion Hf. constructor.
  - now apply scanned_not_due in Hf.
Qed.

Lemma runs_stable (w : World) (n : nat) :
  1 <= n -> runs env n w = runs env 1 w.
Proof.
  intros Hn. destruct n as [|n]; [lia | clear Hn]. cbn [runs].
  induction n as [|n IH]; [reflexivity | ].
  cbn [runs] in *. rewrite second_run_idle. cbn [snd]. exact IH.
Qed.

(** Where a data row goes in one run. *)
Lemma run_row (w : World) (i : nat) (row : Row) :
  nth_error (sheet w) i = Some row ->
  exists row',
    nth_error (sheet (runs env 1 w)) i = Some row' /\
    (i = 0 /\ row' = row \/ 1 <= i /\ scanned row row').
Proof.
  intros Hi. cbn [runs].
  destruct (sendTrackingEmails_run w) as (w' & rows' & Hrun & Hs & Hf & _).
  rewrite Hrun. cbn [snd]. rewrite Hs.
  destruct (sheet w) as [|h rows]; [destruct i; discriminate | ].
  cbn [firstn tl app] in *. destruct i as [|i]; cbn [nth_error] in *.
  - exists row. split; [assumption | auto].
  - clear Hs Hrun. revert i Hi.
    induction Hf as [|r r' rows rows' Hr _ IH]; intros [|i] Hi;
      cbn [nth_error] in *; try discriminate.
    + injection Hi as <-. exists r'. split; [reflexivity | right; split; [lia | auto]].
    + destruct (IH i Hi) as (row' & Hn & [[? ?] | [_ Hsc]]); [lia | ].
      exists row'. split; [assumption | right; split; [lia | auto]].
Qed.

End Dispatcher.

(** ** Checkout sessions *)

Section Checkout.
Import Ledger.
Variable env : Env.

Lemma createCheckoutSession_empty (b : Body) (w : World) :
  cart_is_empty b ->
  createCheckoutSession env b w =
  (Ok (RespError "Error: Cart is empty"),
   {| sheet := sheet w; outbox := outbox w; requests := requests w;
      log := (log w ++ ["Error creating checkout session: Error: Cart is empty"])%list;
      ticks := ticks w |}).
Proof.
  unfold cart_is_empty, createCheckoutSession. js_run.
  destruct (cart b) as [c|]; [ | reflexivity ].
  destruct (items c) as [[|x l]|]; [reflexivity | contradiction | reflexivity].
Qed.

(** A cart with an item costs exactly one call of the processor, whose
    line items are the cart's. *)
Lemma createCheckoutSession_calls (b : Body) (c : Cart) (x : CartItem)
      (l : list CartItem) (w : World) :
  cart b = Some c -> items c = Some (x :: l) ->
  exists r,
    requests (snd (createCheckoutSession env b w)) = (requests w ++ [r])%list /\
    line_items (payload r) =
      map (fun item => {| price := stripePriceId item;
                          line_quantity := item_quantity item |}) (x :: l).
Proof.
  intros Hc Hi. unfold createCheckoutSession. js_run. rewrite Hc, Hi.
  match goal with |- context [processor env ?r] =>
    exists r; destruct (processor env r) as [ss|err] end.
  - destruct (session_error ss); split;
      solve [reflexivity | now destruct (shippingAddress b)].
  - split; solve [reflexivity | now destruct (shippingAddress b)].
Qed.

(** Session creation never touches the sheet or the mail. *)
Lemma createCheckoutSession_frame (b : Body) (w : World) :
  let w' := snd (createCheckoutSession env b w) in
  sheet w' = sheet w /\ outbox w' = outbox w.
Proof.
  unfold createCheckoutSession. js_run.
  destruct (cart b) as [c|]; [ | split; reflexivity ].
  destruct (items c) as [[|x l]|]; try (split; reflexivity).
  match goal with |- context [processor env ?r] =>
    destruct (processor env r) as [ss|err] end;
    [destruct (session_error ss) | ]; split; reflexivity.
Qed.

(** C7. Empty-cart rejection: a session-creation request with no cart,
    no item list or an empty item list is answered with the error
    "Error: Cart is empty", and the processor is not called (sheet and
    mail are untouched as well); so it is when the request comes in
    through [doPost]. *)
Theorem empty_cart_rejected (b : Body) (w : World) :
  cart_is_empty b ->
  fst (createCheckoutSession env b w) = Ok (RespError "Error: Cart is empty") /\
  requests (snd (createCheckoutSession env b w)) = requests w /\
  sheet (snd (createCheckoutSession env b w)) = sheet w /\
  outbox (snd (createCheckoutSession env b w)) = outbox w /\
  (forall e : PostEvent,
      contents e = Ok b -> action b = Some "createCheckoutSession" ->
      fst (doPost env e w) = Ok (RespError "Error: Cart is empty") /\
      requests (snd (doPost env e w)) = requests w).
Proof.
  intros H. rewrite (@createCheckoutSession_empty b w H).
  cbn [fst snd requests sheet outbox].
  repeat split; try reflexivity;
    unfold doPost; js_run; rewrite H0, H1; cbn [Js.strict_eq];
    rewrite String.eqb_refl, (@createCheckoutSession_empty b w H); reflexivity.
Qed.

End Checkout.

(** ** Every operation of the back end *)

Section Operations.
Import Ledger.
Variable env : Env.

Lemma getOrderStatus_frame (k : option string) (w : World) :
  sheet (snd (getOrderStatus env k w)) = sheet w.
Proof.
  unfold getOrderStatus. js_run.
  destruct (Nat.leb (findOrderRow (sheet w) k) 0); [reflexivity | ].
  repeat match goal with
         | |- context [JSON_parse env ?t] => destruct (JSON_parse env t)
         end; reflexivity.
Qed.

(** A POST leaves the sheet alone or appends the row of a session whose
    id was not on it. *)
Lemma doPost_sheet (e : PostEvent) (w : World) :
  sheet (snd (doPost env e w)) = sheet w \/
  exists s,
    orders_of (sheet w) (id s) = [] /\
    sheet (snd (doPost env e w)) = (sheet w ++ [new_row env (ticks w) s])%list.
Proof.
  unfold doPost. js_run.
  destruct (contents e) as [b|x] eqn:Hb; [ | now left ].
  destruct (Js.strict_eq (action b) "createCheckoutSession").
  - left. destruct (createCheckoutSession_frame env b w) as [H _].
    destruct (createCheckoutSession env b w) as [[r|x] w']; exact H.
  - assert (Hh : sheet (snd (handleStripeWebhook env e w)) = sheet w \/
                 exists s,
                   orders_of (sheet w) (id s) = [] /\
                   sheet (snd (handleStripeWebhook env e w)) =
                     (sheet w ++ [new_row env (ticks w) s])%list).
    { destruct (handleStripeWebhook_sheet env e w) as [H | (b' & s & _ & _ & Hf & H)];
        [now left | right; eauto]. }
    destruct (stripe_signature e) as [[|c sig]|]; try now left.
    destruct (handleStripeWebhook env e w) as [[r|x] w']; exact Hh.
Qed.

(** A [try] whose [catch] block answers always answers. *)
Lemma try_catch_answers {A} (m : M A) (h : exn -> M A) (w : World) :
  (forall x w0, exists a w', h x w0 = (Ok a, w')) ->
  exists a w', try_catch m h w = (Ok a, w').
Proof.
  intros Hh. unfold try_catch. destruct (m w) as [[a|x] w']; eauto.
Qed.

(** The four handlers catch whatever is thrown: each call ends with a
    response. *)
Lemma handlers_answer (w : World) :
  (forall e, exists r w', handleStripeWebhook env e w = (Ok r, w')) /\
  (forall b, exists r w', createCheckoutSession env b w = (Ok r, w')) /\
  (forall k, exists r w', getOrderStatus env k w = (Ok r, w')) /\
  (forall e, exists r w', doPost env e w = (Ok r, w')) /\
  (forall e, exists r w', doGet env e w = (Ok r, w')).
Proof.
  repeat split; intros; apply try_catch_answers; intros; js_run; eauto.
Qed.

(** A POST that is no checkout request and has a signature parameter,
    whatever it holds, is the webhook handler's. *)
Lemma doPost_webhook (e : PostEvent) (b : Body) (c : ascii) (sig : string)
      (w : World) :
  contents e = Ok b ->
  Js.strict_eq (action b) "createCheckoutSession" = false ->
  stripe_signature e = Some (String c sig) ->
  doPost env e w = handleStripeWebhook env e w.
Proof.
  intros Hb Ha Hs. unfold doPost. js_run. rewrite Hb, Ha, Hs.
  destruct (proj1 (handlers_answer w) e) as (r & w' & ->). reflexivity.
Qed.

(** No operation removes or reorders rows; the only rows it rewrites are
    the data rows a scan marks. *)
Lemma step_keeps_rows (op : Op) (w : World) (i : nat) (row : Row) :
  nth_error (sheet w) i = Some row ->
  exists row',
    nth_error (sheet (step env op w)) i = Some row' /\
    (row' = row \/ 1 <= i /\ scanned row row').
Proof.
  intros Hi. destruct op as [e|e|]; cbn [step].
  - destruct (doPost_sheet e w) as [-> | (s & _ & ->)]; [eauto | ].
    exists row. split; [ | auto].
    rewrite nth_error_app1; [assumption | ].
    apply nth_error_Some. congruence.
  - exists row. split; [ | auto]. unfold doGet. js_run.
    destruct (Js.strict_eq (get_action e) "getOrderStatus"); [ | assumption].
    pose proof (getOrderStatus_frame (get_sessionId e) w) as H.
    destruct (getOrderStatus env (get_sessionId e) w) as [[r|x] w'];
      cbn [snd sheet] in *; congruence.
  - destruct (run_row env w i Hi) as (row' & Hn & [[_ ->] | H]); eauto.
Qed.

(** A run marks every due record, whatever the mail transport did with
    its notification. *)
Lemma run_marks_due (w : World) (i : nat) (row : Row) :
  1 <= i -> nth_error (sheet w) i = Some row -> due row = true ->
  exists t, nth_error (sheet (runs env 1 w)) i = Some (marked t row).
Proof.
  intros Hi Hn Hd.
  destruct (run_row env w i Hn) as (row' & Hn' & [[-> _] | [_ Hs]]); [lia | ].
  unfold scanned in Hs. rewrite Hd in Hs. destruct Hs as [t ->]. eauto.
Qed.

(** Exactly-once notification on the ledger of text cells, while the
    mail transport is up: one run of the scan sends one notification for each
    record whose tracking number is not blank (white space only counts as
    blank) and whose Email Sent cell is not Yes, in sheet order, and
    marks each of them Yes; every later run leaves the whole world as the
    first left it; and no operation of the back end (POST, GET, scan)
    changes a row whose Email Sent cell is Yes. *)
Theorem exactly_once_notification (w : World) :
  transport_up env ->
  let w1 := runs env 1 w in
  outbox w1 = (outbox w ++ map mail_of (filter due (tl (sheet w))))%list /\
  (forall i row,
      1 <= i -> nth_error (sheet w) i = Some row -> due row = true ->
      exists t, nth_error (sheet w1) i = Some (marked t row) /\
                cell (marked t row) 7 = "Yes") /\
  (forall n, 1 <= n -> runs env n w = w1) /\
  (forall op i row,
      nth_error (sheet w) i = Some row -> cell row 7 = "Yes" ->
      nth_error (sheet (step env op w)) i = Some row).
Proof.
  intros Hup w1. repeat split.
  - subst w1. cbn [runs].
    destruct (sendTrackingEmails_run env w) as (w' & rows' & Hrun & _ & _ & Ho & _).
    rewrite Hrun. cbn [snd]. rewrite Ho. f_equal.
    unfold accepted. apply forallb_filter_id. apply forallb_forall.
    intros m _. now rewrite Hup.
  - intros i row Hi Hn Hd.
    destruct (run_marks_due w Hi Hn Hd) as [t Ht].
    exists t. split; [assumption | apply cell_marked_sent].
  - intros n Hn. now apply runs_stable.
  - intros op i row Hn Hy.
    destruct (step_keeps_rows op w i Hn) as (row' & Hn' & [-> | [_ Hs]]);
      [assumption | ].
    unfold scanned in Hs. rewrite (due_sent row Hy) in Hs. now subst.
Qed.

Lemma scanned_first_cell (row row' : Row) :
  scanned row row' -> cell row' 0 = cell row 0.
Proof.
  unfold scanned. destruct (due row).
  - intros [t ->]. now apply cell_marked_other.
  - now intros ->.
Qed.

Lemma scanned_orders (k : string) (rows rows' : list Row) :
  Forall2 scanned rows rows' ->
  length (filter (fun r => String.eqb (cell r 0) k) rows') =
  length (filter (fun r => String.eqb (cell r 0) k) rows).
Proof.
  induction 1 as [|r r' rows rows' Hs _ IH]; cbn [filter]; [reflexivity | ].
  rewrite (@scanned_first_cell r r' Hs).
  destruct (String.eqb (cell r 0) k); cbn [length]; now rewrite IH.
Qed.

(** The sheet keeps its header row and its ids stay unique under every
    operation of the back end: uniqueness is enforced at ingestion. *)
Lemma well_formed_preserved (op : Op) (w : World) :
  well_formed (sheet w) -> well_formed (sheet (step env op w)).
Proof.
  intros [Hh Hu]. destruct op as [e|e|]; cbn [step].
  - destruct (doPost_sheet e w) as [-> | (s & Hf & ->)]; [now split | ].
    split; [now destruct (sheet w) | ].
    intros k. rewrite orders_of_app by assumption.
    unfold new_row at 1. cbn [cell nth].
    destruct (String.eqb (id s) k) eqn:E.
    + apply String.eqb_eq in E as <-. now rewrite Hf.
    + rewrite app_nil_r. apply Hu.
  - unfold doGet. js_run.
    destruct (Js.strict_eq (get_action e) "getOrderStatus"); [ | now split].
    pose proof (getOrderStatus_frame (get_sessionId e) w) as H.
    destruct (getOrderStatus env (get_sessionId e) w) as [[r|x] w'];
      cbn [snd sheet] in *; rewrite H; now split.
  - destruct (sendTrackingEmails_run env w) as (w' & rows' & Hrun & Hs & Hf & _).
    rewrite Hrun. cbn [snd]. rewrite Hs.
    destruct (sheet w) as [|h rows]; [congruence | ].
    cbn [firstn tl app] in *. split; [discriminate | ].
    intros k. unfold orders_of in *. cbn [tl] in *.
    rewrite (@scanned_orders k rows rows' Hf). apply Hu.
Qed.

End Operations.

(** ** The specification's scenario and closed instances *)

Section Instances.
Import Ledger Scenario.

(** C3: the code does not do it. [handleStripeWebhook] reads the
    signature and never uses it: its result is the same under every
    signature, and a completion event posted under a forged signature is
    acknowledged and written to the sheet. The one check on the way is
    [doPost]'s, which turns away a POST that has no signature parameter at
    all (as an invalid action). *)
Theorem webhook_signature_not_verified :
  (forall env e sig w,
      handleStripeWebhook env
        {| stripe_signature := sig; contents := contents e |} w =
      handleStripeWebhook env e w) /\
  fst (doPost env tx_1_forged fresh) = Ok RespReceived /\
  sheet (snd (doPost env tx_1_forged fresh)) = [header; new_row env 0 tx_1] /\
  sheet (snd (handleStripeWebhook env (completed tx_1 None) fresh)) =
    [header; new_row env 0 tx_1] /\
  doPost env (completed tx_1 None) fresh = (Ok (RespError "Invalid action"), fresh).
Proof. repeat split; reflexivity. Qed.

(** C4: the code does not do it. With a mail transport that refuses
    every message, a run over two due records logs both failures (the
    scan goes on), sends nothing, and marks both records Yes; the next
    run, with the transport back, sends nothing either. *)
Theorem failed_send_marked_sent :
  let w1 := runs env_mail_down 1 shipped_twice in
  outbox w1 = [] /\
  log w1 = [ "Error sending email: Error: Invalid email";
             "Error sending email: Error: Invalid email" ] /\
  map (fun r => cell r 7) (sheet w1) = ["Email Sent"; "Yes"; "Yes"] /\
  outbox (runs env 1 w1) = [].
Proof. repeat split; reflexivity. Qed.

(** On the ledger of text cells: a tracking cell that holds a blank is
    not empty, the Email Sent cell is No, and a run neither sends a
    notification nor touches the record (nor will any later run: the
    world is as before). *)
Lemma blank_tracking_never_notified :
  map (fun r => Js.truthy (cell r 6)) (tl (sheet blank_tracking)) = [true] /\
  map (fun r => cell r 7) (tl (sheet blank_tracking)) = ["No"] /\
  sendTrackingEmails env blank_tracking = (Ok tt, blank_tracking).
Proof. repeat split; reflexivity. Qed.

(** The scenario's event delivered three times to a fresh sheet. *)
Lemma idempotent_ingestion_witness :
  let w1 := deliver env tx_1_event 1 fresh in
  let wn := deliver env tx_1_event 3 fresh in
  length (orders_of (sheet wn) (id tx_1)) = 1 /\
  fst (handleStripeWebhook env tx_1_event (deliver env tx_1_event (3 - 1) fresh))
    = Ok RespReceived /\
  sheet wn = sheet w1 /\
  outbox wn = outbox fresh /\ requests wn = requests fresh /\
  ticks wn = ticks w1 /\
  log wn = (log w1 ++ repeat ("Order already exists: " ++ id tx_1)%string (3 - 1))%list.
Proof.
  apply (@idempotent_ingestion env tx_1_event
           (event_body "checkout.session.completed" tx_1) tx_1 fresh 3).
  - reflexivity.
  - split; reflexivity.
  - discriminate.
  - repeat constructor.
  - repeat constructor.
Defined.

(** The row the scenario's event adds to a fresh sheet. *)
Lemma ingestion_defaults_witness :
  sheet (snd (handleStripeWebhook env tx_1_event fresh)) =
    (sheet fresh ++ [new_row env (ticks fresh) tx_1])%list /\
  cell (new_row env (ticks fresh) tx_1) 3 = "Placed" /\
  cell (new_row env (ticks fresh) tx_1) 6 = "" /\
  cell (new_row env (ticks fresh) tx_1) 7 = "No".
Proof.
  apply (proj2 (@ingestion_defaults env tx_1_event fresh)
               (event_body "checkout.session.completed" tx_1) tx_1).
  - reflexivity.
  - split; reflexivity.
  - reflexivity.
Defined.

(** An expired-session event on a fresh sheet. *)
Lemma non_completion_event_discarded_witness :
  handleStripeWebhook env tx_1_expired fresh = (Ok RespReceived, fresh).
Proof.
  apply (@non_completion_event_discarded env tx_1_expired
           (event_body "checkout.session.expired" tx_1) fresh).
  - reflexivity.
  - discriminate.
Defined.

(** The scenario's event, then its status, with the JSON codec of the
    examples. *)
Lemma status_read_reflects_ingestion_witness :
  let w1 := snd (handleStripeWebhook env tx_1_event fresh) in
  fst (handleStripeWebhook env tx_1_event fresh) = Ok RespReceived /\
  sheet w1 = (sheet fresh ++ [new_row env (ticks fresh) tx_1])%list /\
  getOrderStatus env (Some (id tx_1)) w1 =
    (Ok (RespOrder (new_order env (ticks fresh) tx_1)), w1) /\
  (forall (w' : World) (k : option string),
      match k with
      | Some k => orders_of (sheet w') k = []
      | None => True
      end ->
      getOrderStatus env k w' = (Ok (RespError "Order not found"), w')).
Proof.
  apply (@status_read_reflects_ingestion env tx_1_event
           (event_body "checkout.session.completed" tx_1) tx_1 fresh).
  - reflexivity.
  - split; reflexivity.
  - discriminate.
  - reflexivity.
  - split; [intros H; vm_compute in H; discriminate H | reflexivity].
  - split; [intros H; vm_compute in H; discriminate H | reflexivity].
Defined.

(** A checkout request whose cart holds nothing. *)
Lemma empty_cart_rejected_witness :
  fst (createCheckoutSession env empty_cart_request fresh)
    = Ok (RespError "Error: Cart is empty") /\
  requests (snd (createCheckoutSession env empty_cart_request fresh))
    = requests fresh /\
  sheet (snd (createCheckoutSession env empty_cart_request fresh)) = sheet fresh /\
  outbox (snd (createCheckoutSession env empty_cart_request fresh)) = outbox fresh /\
  (forall e : PostEvent,
      contents e = Ok empty_cart_request ->
      action empty_cart_request = Some "createCheckoutSession" ->
      fst (doPost env e fresh) = Ok (RespError "Error: Cart is empty") /\
      requests (snd (doPost env e fresh)) = requests fresh).
Proof.
  apply (@empty_cart_rejected env empty_cart_request fresh). exact I.
Defined.

(** One shipped order and a transport that delivers. *)
Lemma exactly_once_notification_witness :
  let w1 := runs env 1 shipped in
  outbox w1 = (outbox shipped ++ map mail_of (filter due (tl (sheet shipped))))%list /\
  (forall i row,
      1 <= i -> nth_error (sheet shipped) i = Some row -> due row = true ->
      exists t, nth_error (sheet w1) i = Some (marked t row) /\
                cell (marked t row) 7 = "Yes") /\
  (forall n, 1 <= n -> runs env n shipped = w1) /\
  (forall op i row,
      nth_error (sheet shipped) i = Some row -> cell row 7 = "Yes" ->
      nth_error (sheet (step env op shipped)) i = Some row).
Proof.
  apply (@exactly_once_notification env shipped). intros m. reflexivity.
Defined.

(** A cart with an item does reach the processor, once. *)
Example cart_request_calls_processor :
  fst (createCheckoutSession env cart_request fresh) =
    Ok (RespCheckout (Some "https://checkout.stripe.com/c/pay/cs_1") (Some "cs_1")) /\
  length (requests (snd (createCheckoutSession env cart_request fresh))) = 1.
Proof. split; reflexivity. Qed.

(** On a sheet with no header row the first order takes the header's
    place, where [findOrderRow] does not look: the replay is appended. *)
Example no_header_row_no_idempotence :
  sheet (deliver env tx_1_event 2 (world_of [])) =
    [new_row env 0 tx_1; new_row env 2 tx_1] /\
  getOrderStatus env (Some "tx_1") (deliver env tx_1_event 1 (world_of [])) =
    (Ok (RespError "Order not found"), deliver env tx_1_event 1 (world_of [])).
Proof. split; reflexivity. Qed.

(** C1 as stated fails on an Orders tab without a header row: the first
    row takes the header's place, the replay does not find it and is
    appended (after two more readings of the clock), and the sheet holds
    two rows under the one id; the third delivery finds the second row,
    and what it leaves behind is a line in the log. *)
Lemma replay_appended_without_header :
  map (fun r => cell r 0) (sheet (deliver env tx_1_event 1 (world_of []))) = ["tx_1"] /\
  map (fun r => cell r 0) (sheet (deliver env tx_1_event 2 (world_of []))) =
    ["tx_1"; "tx_1"] /\
  ticks (deliver env tx_1_event 1 (world_of [])) = 2 /\
  ticks (deliver env tx_1_event 2 (world_of [])) = 4 /\
  sheet (deliver env tx_1_event 3 (world_of [])) =
    sheet (deliver env tx_1_event 2 (world_of [])) /\
  log (deliver env tx_1_event 3 (world_of [])) =
    ["Order saved: tx_1"; "Order saved: tx_1"; "Order already exists: tx_1"].
Proof. repeat split; reflexivity. Qed.

(** C6 as stated fails there too: the event is ingested and
    acknowledged, and the status query right after it does not find the
    order. *)
Lemma status_not_found_without_header :
  handleStripeWebhook env tx_1_event (world_of []) =
    (Ok RespReceived, deliver env tx_1_event 1 (world_of [])) /\
  sheet (deliver env tx_1_event 1 (world_of [])) = [new_row env 0 tx_1] /\
  fst (getOrderStatus env (Some "tx_1") (deliver env tx_1_event 1 (world_of []))) =
    Ok (RespError "Order not found").
Proof. repeat split; reflexivity. Qed.

(** The scenario of the specification: the event is ingested; the
    administrator writes the tracking number; the next run sends one
    notification to a@b.com with the UPS link and marks the record; the
    run after sends nothing; a replay of the event adds no record. *)
Example scenario :
  let w1 := deliver env tx_1_event 1 fresh in
  let w2 := snd (setValue 2 7 "1Z999AA10123456784" w1) in
  let w3 := runs env 1 w2 in
  let w4 := runs env 1 w3 in
  let w5 := deliver env tx_1_event 1 w4 in
  map (fun r => (cell r 0, cell r 1, cell r 3, cell r 6, cell r 7)) (tl (sheet w1)) =
    [("tx_1", "a@b.com", "Placed", "", "No")] /\
  map to (outbox w3) = ["a@b.com"] /\
  map (fun r => (cell r 0, cell r 6, cell r 7)) (tl (sheet w3)) =
    [("tx_1", "1Z999AA10123456784", "Yes")] /\
  outbox w4 = outbox w3 /\
  sheet w5 = sheet w3 /\
  mails_carry_ups_link w3 = true.
Proof. repeat split; reflexivity. Qed.

End Instances.

(** * Further properties of the back end *)

Unset Implicit Arguments.

(** ** Histories *)

Section Histories.
Import Ledger Traces.
Variable env : Env.

(** Every operation keeps every row in its place and leaves its first
    cell, the order id, as it is. *)
Lemma step_keeps_ids (op : Op) (w : World) (i : nat) (row : Row) :
  nth_error (sheet w) i = Some row ->
  exists row',
    nth_error (sheet (step env op w)) i = Some row' /\ cell row' 0 = cell row 0.
Proof.
  intros Hi.
  destruct (step_keeps_rows env op w i Hi) as (row' & Hn & [-> | [_ Hs]]).
  - eauto.
  - exists row'. split; [assumption | now apply scanned_first_cell].
Qed.

Lemma run_ops_keeps_ids (ops : list Op) :
  forall (w : World) (i : nat) (row : Row),
    nth_error (sheet w) i = Some row ->
    exists row',
      nth_error (sheet (run_ops env ops w)) i = Some row' /\
      cell row' 0 = cell row 0.
Proof.
  induction ops as [|op ops IH]; intros w i row Hi; cbn [run_ops].
  - eauto.
  - destruct (step_keeps_ids op w i row Hi) as (r1 & H1 & E1).
    destruct (IH _ _ _ H1) as (r2 & H2 & E2).
    exists r2. split; [assumption | congruence].
Qed.

(** X1. Along every history of POSTs, GETs and scans that starts on a
    sheet with its header row and at most one order per id, the sheet keeps
    its header row, holds at most one order per id, and no row is removed
    or moved: the row at a position keeps its order id. *)
Theorem ids_stay_unique (ops : list Op) (w : World) :
  well_formed (sheet w) ->
  well_formed (sheet (run_ops env ops w)) /\
  (forall i row,
      nth_error (sheet w) i = Some row ->
      exists row',
        nth_error (sheet (run_ops env ops w)) i = Some row' /\
        cell row' 0 = cell row 0).
Proof.
  intros Hw. split; [ | intros i row; apply run_ops_keeps_ids ].
  revert w Hw. induction ops as [|op ops IH]; intros w Hw; cbn [run_ops].
  - assumption.
  - apply IH. now apply well_formed_preserved.
Qed.

End Histories.

(** ** Looking an order up *)

Section Lookup.
Import Ledger Traces.
Variable env : Env.

Lemma filter_firstn_none {A} (p : A -> bool) (l : list A) :
  forall j, filter p (firstn j l) = [] ->
            forall j' x, j' < j -> nth_error l j' = Some x -> p x = false.
Proof.
  induction l as [|y l IH]; intros [|j] Hf [|j'] x Hlt Hn; cbn in *;
    try lia; try discriminate.
  - injection Hn as <-. destruct (p y); [discriminate | reflexivity].
  - destruct (p y); [discriminate | ]. eapply IH; eauto. lia.
Qed.

(** An answer other than 0 is the 1-based number of the first row below
    the header that carries the id. *)
Lemma findOrderRow_hit (sh : list Row) (k : string) (n : nat) :
  findOrderRow sh (Some k) = S n ->
  1 <= n < length sh /\
  (exists row, nth_error sh n = Some row /\ cell row 0 = k) /\
  (forall j row', 1 <= j < n -> nth_error sh j = Some row' -> cell row' 0 <> k).
Proof.
  intros Hn. unfold findOrderRow in Hn. rewrite tl_getValues in Hn.
  destruct (@findFrom_hit k (tl sh) 1 (S n) Hn) as (j & row & E & Hj & Hk & Hf);
    [discriminate | ].
  assert (n = S j) as -> by lia.
  destruct sh as [|h rows]; [destruct j; discriminate | ]. cbn [tl] in *.
  split; [ | split ].
  - assert (j < length rows) by (apply nth_error_Some; congruence).
    cbn [length]. lia.
  - exists row. auto.
  - intros [|j'] row' Hlt Hn' Hk'; [lia | ]. cbn [nth_error] in Hn'.
    assert (H : String.eqb (cell row' 0) k = false).
    { apply (@filter_firstn_none _ _ rows j Hf j' row'); [lia | assumption]. }
    apply String.eqb_eq in Hk'. congruence.
Qed.

(** X2. [findOrderRow] answers 0 exactly when no row below the header
    carries the id (and always for a missing id); any other answer is the
    1-based number of the first row below the header that carries it, so
    the header row is never the answer. *)
Theorem findOrderRow_first_match (sh : list Row) (k : string) :
  (findOrderRow sh (Some k) = 0 <-> forall row, In row (tl sh) -> cell row 0 <> k) /\
  (forall n,
      findOrderRow sh (Some k) = S n ->
      1 <= n < length sh /\
      (exists row, nth_error sh n = Some row /\ cell row 0 = k) /\
      (forall j row', 1 <= j < n -> nth_error sh j = Some row' -> cell row' 0 <> k)) /\
  findOrderRow sh None = 0.
Proof.
  split; [ | split ].
  - rewrite findOrderRow_zero. unfold orders_of. split.
    + intros Hf row Hin Hk.
      assert (In row (filter (fun r => String.eqb (cell r 0) k) (tl sh))).
      { apply filter_In. split; [assumption | now apply String.eqb_eq]. }
      rewrite Hf in H. contradiction.
    + intros H. destruct (filter _ (tl sh)) as [|r l] eqn:E; [reflexivity | ].
      assert (Hin : In r (filter (fun r => String.eqb (cell r 0) k) (tl sh)))
        by (rewrite E; now left).
      apply filter_In in Hin as [Hin Hk]. apply String.eqb_eq in Hk.
      now apply H in Hin.
  - intros n Hn. now apply findOrderRow_hit.
  - unfold findOrderRow. apply findFrom_undefined.
Qed.

End Lookup.

(** ** Status queries *)

Section Status.
Import Ledger Traces.
Variable env : Env.

(** A status query answers from the sheet alone and leaves everything
    but the log as it is. *)
Lemma getOrderStatus_answer (k : option string) (w : World) :
  fst (getOrderStatus env k w) = Ok (status_answer env (sheet w) k) /\
  sheet (snd (getOrderStatus env k w)) = sheet w /\
  outbox (snd (getOrderStatus env k w)) = outbox w /\
  requests (snd (getOrderStatus env k w)) = requests w /\
  ticks (snd (getOrderStatus env k w)) = ticks w.
Proof.
  unfold getOrderStatus, status_answer, cell_or, order_of_row. js_run.
  destruct (Nat.leb (findOrderRow (sheet w) k) 0); [repeat split | ].
  repeat match goal with
         | |- context [JSON_parse env ?t] => destruct (JSON_parse env t)
         end; repeat split.
Qed.

Lemma getRange9_row (sh : list Row) (n : nat) (row : Row) :
  nth_error sh n = Some row -> getRange9 sh (S n) = map (cell row) (seq 0 9).
Proof.
  intros H. unfold getRange9. cbn [Nat.sub]. rewrite Nat.sub_0_r.
  now rewrite (nth_error_nth _ _ _ H).
Qed.

(** X3. A status query for an id that [findOrderRow] finds answers with
    the cells of that row, the first one under the id: success with the
    nine columns, Items and Shipping Address parsed (an empty cell reads as
    [[]] or [{}]), and the world untouched; when one of the two cells does
    not parse, the answer is the parser's error, not "Order not found", and
    only a log line is written. *)
Theorem getOrderStatus_reads_first_row (w : World) (k : string) (n : nat)
        (row : Row) :
  findOrderRow (sheet w) (Some k) = S n ->
  nth_error (sheet w) n = Some row ->
  match JSON_parse env (cell_or (cell row 4) "[]"),
        JSON_parse env (cell_or (cell row 5) "{}") with
  | Ok items, Ok shippingAddress =>
      getOrderStatus env (Some k) w =
      (Ok (RespOrder {| order_sessionId := cell row 0;
                        order_email := cell row 1;
                        order_date := cell row 2;
                        order_status := cell row 3;
                        order_items := items;
                        order_shippingAddress := shippingAddress;
                        order_trackingNumber := cell row 6;
                        order_emailSent := cell row 7;
                        order_lastUpdated := cell row 8 |}), w)
  | Throw x, _ | Ok _, Throw x =>
      getOrderStatus env (Some k) w =
      (Ok (RespError (toString x)),
       {| sheet := sheet w; outbox := outbox w; requests := requests w;
          log := (log w ++ [("Error getting order status: " ++ toString x)%string])%list;
          ticks := ticks w |})
  end.
Proof.
  intros Hf Hn. unfold getOrderStatus, cell_or. js_run.
  rewrite Hf, (getRange9_row _ _ _ Hn). cbn [Nat.leb map seq].
  change (cell [cell row 0; cell row 1; cell row 2; cell row 3; cell row 4;
                cell row 5; cell row 6; cell row 7; cell row 8] 4)
    with (cell row 4).
  change (cell [cell row 0; cell row 1; cell row 2; cell row 3; cell row 4;
                cell row 5; cell row 6; cell row 7; cell row 8] 5)
    with (cell row 5).
  destruct (JSON_parse env (if Js.truthy (cell row 4) then cell row 4 else "[]"));
    [ | reflexivity ].
  destruct (JSON_parse env (if Js.truthy (cell row 5) then cell row 5 else "{}"));
    reflexivity.
Qed.

Lemma doGet_frame (e : GetEvent) (w : World) :
  (exists r, fst (doGet env e w) = Ok r) /\
  sheet (snd (doGet env e w)) = sheet w /\
  outbox (snd (doGet env e w)) = outbox w /\
  requests (snd (doGet env e w)) = requests w /\
  ticks (snd (doGet env e w)) = ticks w.
Proof.
  unfold doGet. js_run.
  destruct (Js.strict_eq (get_action e) "getOrderStatus").
  - destruct (getOrderStatus_answer (get_sessionId e) w) as (Hr & Hs & Ho & Hq & Ht).
    destruct (getOrderStatus env (get_sessionId e) w) as [[r|x] w'];
      cbn [fst snd] in *; [ | discriminate ].
    repeat split; try assumption. eauto.
  - repeat split. eexists; reflexivity.
Qed.

(** X4. A GET never writes: whatever the request, [doGet] answers (it
    does not throw) and leaves the sheet, the sent mail, the processor
    calls and the clock as they were; a request whose action is not
    [getOrderStatus] is answered "Invalid action" with nothing changed at
    all. *)
Theorem doGet_read_only (e : GetEvent) (w : World) :
  (exists r, fst (doGet env e w) = Ok r) /\
  sheet (snd (doGet env e w)) = sheet w /\
  outbox (snd (doGet env e w)) = outbox w /\
  requests (snd (doGet env e w)) = requests w /\
  ticks (snd (doGet env e w)) = ticks w /\
  (Js.strict_eq (get_action e) "getOrderStatus" = false ->
   doGet env e w = (Ok (RespError "Invalid action"), w)).
Proof.
  destruct (doGet_frame e w) as (H1 & H2 & H3 & H4 & H5).
  repeat split; try assumption.
  intros Ha. unfold doGet. js_run. now rewrite Ha.
Qed.

Lemma status_answer_row (sh : list Row) (k : string) (n : nat) (row : Row) :
  findOrderRow sh (Some k) = S n -> nth_error sh n = Some row ->
  status_answer env sh (Some k) =
  match JSON_parse env (cell_or (cell row 4) "[]") with
  | Throw x => RespError (toString x)
  | Ok items =>
      match JSON_parse env (cell_or (cell row 5) "{}") with
      | Throw x => RespError (toString x)
      | Ok shippingAddress => RespOrder (order_of_row row items shippingAddress)
      end
  end.
Proof.
  intros Hf Hn. unfold status_answer. rewrite Hf, (getRange9_row _ _ _ Hn).
  reflexivity.
Qed.

Lemma findFrom_app_found (k : string) (extra rows : list Row) :
  forall i, findFrom i rows (Some k) <> 0 ->
            findFrom i (rows ++ extra)%list (Some k) = findFrom i rows (Some k).
Proof.
  induction rows as [|r rows IH]; intros i H; cbn in *; [congruence | ].
  destruct (String.eqb k (cell r 0)); [reflexivity | now apply IH].
Qed.

Lemma findFrom_scanned (k : option string) (rows rows' : list Row) :
  Forall2 scanned rows rows' ->
  forall i, findFrom i rows' k = findFrom i rows k.
Proof.
  induction 1 as [|r r' rows rows' Hs _ IH]; intros i; cbn [findFrom];
    [reflexivity | ].
  rewrite (scanned_first_cell r r' Hs), IH. reflexivity.
Qed.

Lemma scanned_agree (row row' : Row) : scanned row row' -> agree_off_flags row row'.
Proof.
  unfold scanned, agree_off_flags. destruct (due row).
  - intros [t ->] j H7 H8. now apply cell_marked_other.
  - now intros ->.
Qed.

(** One operation leaves the row number of a found order and all of its
    cells but Email Sent and Last Updated; a POST or a GET leaves the row
    itself. *)
Lemma step_keeps_order (op : Op) (w : World) (k : string) (n : nat) (row : Row) :
  findOrderRow (sheet w) (Some k) = S n -> nth_error (sheet w) n = Some row ->
  findOrderRow (sheet (step env op w)) (Some k) = S n /\
  exists row',
    nth_error (sheet (step env op w)) n = Some row' /\ agree_off_flags row row' /\
    match op with Tick => True | _ => row' = row end.
Proof.
  intros Hf Hn.
  assert (Hlt : n < length (sheet w)) by (apply nth_error_Some; congruence).
  assert (Hsame : forall sh', sh' = sheet w ->
            findOrderRow sh' (Some k) = S n /\
            exists row', nth_error sh' n = Some row' /\ agree_off_flags row row' /\
                         row' = row).
  { intros sh' ->. split; [assumption | exists row; repeat split; auto]. }
  assert (Happ : forall r,
            findOrderRow (sheet w ++ [r])%list (Some k) = S n /\
            exists row', nth_error (sheet w ++ [r])%list n = Some row' /\
                         agree_off_flags row row' /\ row' = row).
  { intros r. split.
    - unfold findOrderRow in *. rewrite tl_getValues in *.
      destruct (sheet w) as [|h rows]; [cbn in Hf; discriminate | ].
      cbn [tl app] in *. rewrite findFrom_app_found; [assumption | congruence].
    - exists row. rewrite nth_error_app1 by assumption. repeat split; auto. }
  destruct op as [e|e|]; cbn [step].
  - destruct (doPost_sheet env e w) as [H | (s & _ & H)]; rewrite H.
    + destruct (Hsame _ eq_refl) as (H1 & r' & H2 & H3 & H4); eauto 6.
    + destruct (Happ (new_row env (ticks w) s)) as (H1 & r' & H2 & H3 & H4); eauto 6.
  - destruct (doGet_frame e w) as (_ & H & _). rewrite H.
    destruct (Hsame _ eq_refl) as (H1 & r' & H2 & H3 & H4); eauto 6.
  - destruct (sendTrackingEmails_run env w) as (w' & rows' & Hrun & Hs & Hsc & _).
    rewrite Hrun. cbn [snd]. rewrite Hs.
    unfold findOrderRow in *. rewrite tl_getValues in *.
    destruct (sheet w) as [|h rows]; [cbn in Hf; discriminate | ].
    cbn [firstn tl app] in *. split.
    + now rewrite (findFrom_scanned _ _ _ Hsc).
    + destruct n as [|n]; cbn [nth_error] in *.
      * exists row. repeat split; auto.
      * clear Hf Hs Hrun Hlt Hsame Happ. revert n Hn.
        induction Hsc as [|r r' rows rows' Hr _ IH]; intros [|n] Hn;
          cbn [nth_error] in *; try discriminate.
        -- injection Hn as <-. exists r'. repeat split; auto.
           now apply scanned_agree.
        -- now apply IH.
Qed.

Lemma run_ops_keeps_order (ops : list Op) (k : string) (n : nat) :
  forall (w : World) (row : Row),
    findOrderRow (sheet w) (Some k) = S n -> nth_error (sheet w) n = Some row ->
    findOrderRow (sheet (run_ops env ops w)) (Some k) = S n /\
    exists row',
      nth_error (sheet (run_ops env ops w)) n = Some row' /\
      agree_off_flags row row'.
Proof.
  induction ops as [|op ops IH]; intros w row Hf Hn; cbn [run_ops].
  - split; [assumption | exists row; split; [assumption | ]].
    intros j _ _; reflexivity.
  - destruct (step_keeps_order op w k n row Hf Hn) as (Hf1 & r1 & Hn1 & Ha1 & _).
    destruct (IH _ _ Hf1 Hn1) as (Hf2 & r2 & Hn2 & Ha2).
    split; [assumption | exists r2; split; [assumption | ]].
    intros j H7 H8. rewrite Ha2, Ha1; auto.
Qed.

(** X5. The status of an order is stable along every history: if a query
    finds the order now, then after any sequence of POSTs, GETs and scans
    the same query finds the same row and answers the same (the same
    error, or the same order) up to the Email Sent and Last Updated
    fields, the only ones the back end rewrites. *)
Theorem status_stable_along_history (ops : list Op) (w : World) (k : string) :
  findOrderRow (sheet w) (Some k) <> 0 ->
  findOrderRow (sheet (run_ops env ops w)) (Some k) =
    findOrderRow (sheet w) (Some k) /\
  exists r r',
    fst (getOrderStatus env (Some k) w) = Ok r /\
    fst (getOrderStatus env (Some k) (run_ops env ops w)) = Ok r' /\
    answers_agree r r'.
Proof.
  intros Hf. destruct (findOrderRow (sheet w) (Some k)) as [|n] eqn:E;
    [congruence | clear Hf].
  destruct (findOrderRow_hit (sheet w) k n E) as (_ & (row & Hn & _) & _).
  destruct (run_ops_keeps_order ops k n w row E Hn) as (Hf' & row' & Hn' & Ha).
  split; [assumption | ].
  exists (status_answer env (sheet w) (Some k)),
         (status_answer env (sheet (run_ops env ops w)) (Some k)).
  split; [apply getOrderStatus_answer | split; [apply getOrderStatus_answer | ]].
  rewrite (status_answer_row _ _ _ _ E Hn), (status_answer_row _ _ _ _ Hf' Hn').
  rewrite (Ha 4), (Ha 5) by discriminate.
  destruct (JSON_parse env (cell_or (cell row 4) "[]")); [ | reflexivity].
  destruct (JSON_parse env (cell_or (cell row 5) "{}")); [ | reflexivity].
  cbn. unfold same_but_notified, order_of_row. cbn.
  rewrite (Ha 0), (Ha 1), (Ha 2), (Ha 3), (Ha 6) by discriminate.
  repeat split.
Qed.

End Status.

(** ** POSTs *)

Section Posts.
Import Ledger Traces.
Variable env : Env.

Lemma handleStripeWebhook_frame (e : PostEvent) (w : World) :
  outbox (snd (handleStripeWebhook env e w)) = outbox w /\
  requests (snd (handleStripeWebhook env e w)) = requests w.
Proof.
  destruct (contents e) as [b|x] eqn:Hb.
  2:{ unfold handleStripeWebhook. js_run. rewrite Hb. split; reflexivity. }
  destruct (Js.strict_eq (type b) "checkout.session.completed") eqn:Ht.
  2:{ unfold handleStripeWebhook. js_run. rewrite Hb, Ht. split; reflexivity. }
  destruct (data b) as [[s|]|] eqn:Hd.
  - apply strict_eq_true in Ht.
    rewrite (@handleStripeWebhook_completed env e b s w Hb (conj Ht Hd)).
    destruct (orders_of (sheet w) (id s)) eqn:E.
    + rewrite saveOrderToSheet_fresh by assumption. split; reflexivity.
    + rewrite saveOrderToSheet_known by congruence. split; reflexivity.
  - unfold handleStripeWebhook, saveOrderToSheet. js_run.
    rewrite Hb, Ht, Hd. split; reflexivity.
  - unfold handleStripeWebhook. js_run. rewrite Hb, Ht, Hd. split; reflexivity.
Qed.

Lemma createCheckoutSession_requests (b : Body) (w : World) :
  requests (snd (createCheckoutSession env b w)) = requests w \/
  ~ cart_is_empty b /\
  exists r, requests (snd (createCheckoutSession env b w)) = (requests w ++ [r])%list.
Proof.
  destruct (cart b) as [c|] eqn:Hc.
  2:{ left. rewrite createCheckoutSession_empty; [reflexivity | ].
      unfold cart_is_empty. now rewrite Hc. }
  destruct (items c) as [[|x l]|] eqn:Hi.
  - left. rewrite createCheckoutSession_empty; [reflexivity | ].
    unfold cart_is_empty. now rewrite Hc, Hi.
  - right. split.
    + unfold cart_is_empty. rewrite Hc, Hi. tauto.
    + destruct (@createCheckoutSession_calls env b c x l w Hc Hi) as (r & H & _).
      eauto.
  - left. rewrite createCheckoutSession_empty; [reflexivity | ].
    unfold cart_is_empty. now rewrite Hc, Hi.
Qed.

(** X6. What a POST can do. Every POST is answered (nothing is thrown to
    the platform) and none sends mail. The sheet changes only by the
    append of the new row of a completed session whose id is not on it,
    and only when the body is no checkout request and the request has a
    signature parameter that is not empty. The processor is called only
    for a checkout request with a cart that is not empty, and then
    once. *)
Theorem doPost_effects (e : PostEvent) (w : World) :
  (exists r, fst (doPost env e w) = Ok r) /\
  outbox (snd (doPost env e w)) = outbox w /\
  (sheet (snd (doPost env e w)) = sheet w \/
   exists b s c sig,
     contents e = Ok b /\
     Js.strict_eq (action b) "createCheckoutSession" = false /\
     stripe_signature e = Some (String c sig) /\
     completion_of b s /\ orders_of (sheet w) (id s) = [] /\
     sheet (snd (doPost env e w)) = (sheet w ++ [new_row env (ticks w) s])%list) /\
  (requests (snd (doPost env e w)) = requests w \/
   exists b r,
     contents e = Ok b /\ action b = Some "createCheckoutSession" /\
     ~ cart_is_empty b /\
     requests (snd (doPost env e w)) = (requests w ++ [r])%list).
Proof.
  split.
  { destruct (proj1 (proj2 (proj2 (proj2 (handlers_answer env w)))) e)
      as (r & w' & H).
    rewrite H. exists r. reflexivity. }
  unfold doPost. js_run.
  destruct (contents e) as [b|x] eqn:Hb; [ | repeat split; now left ].
  destruct (Js.strict_eq (action b) "createCheckoutSession") eqn:Ha.
  - destruct (createCheckoutSession_frame env b w) as [Hs Ho].
    pose proof (createCheckoutSession_requests b w) as Hr.
    destruct (createCheckoutSession env b w) as [[r|x] w']; cbn [snd] in *;
      (split; [assumption | split; [now left | ]]);
      (destruct Hr as [Hr | (Hne & r0 & Hr)]; [now left | right]);
      exists b, r0; apply strict_eq_true in Ha; auto.
  - destruct (stripe_signature e) as [[|c sig]|] eqn:Hsig;
      try (repeat split; now left).
    destruct (handleStripeWebhook_frame e w) as [Ho Hr].
    pose proof (handleStripeWebhook_sheet env e w) as Hs. cbn zeta in Hs.
    destruct (handleStripeWebhook env e w) as [[r|x] w']; cbn [snd] in *;
      (split; [assumption | split; [ | now left]]);
      (destruct Hs as [Hs | (b' & s & Hb' & Hc & Hf & Hs)]; [now left | right]);
      exists b, s, c, sig; rewrite Hb in Hb'; injection Hb' as <-; auto 7.
Qed.

Lemma base_url_or_else (environment : option string) :
  (if String.eqb (Js.or_else environment "production") "development"
   then "http://127.0.0.1:8000" else "https://www.agroverse.shop") =
  base_url environment.
Proof.
  unfold base_url, Js.or_else, Js.strict_eq.
  destruct environment as [[|c s]|]; reflexivity.
Qed.

(** X7. A checkout request with a cart that holds an item costs exactly
    one call of the processor, under the script's secret key; the call
    lists the cart's items in cart order, sends the buyer back to the
    local server when the request says [development] and to the shop
    otherwise (also when it says nothing), and asks the processor to
    collect the shipping address exactly when the request brought none.
    The answer is the processor's address and session id, or an error that
    carries the processor's message (or what the call threw); sheet and
    mail are not touched. *)
Theorem createCheckoutSession_outcome (b : Body) (c : Cart) (x : CartItem)
        (l : list CartItem) (w : World) :
  cart b = Some c -> items c = Some (x :: l) ->
  exists r,
    requests (snd (createCheckoutSession env b w)) = (requests w ++ [r])%list /\
    authorization r = "Bearer " ++ stripeSecretKey (CONFIG env) /\
    line_items (payload r) =
      map (fun item => {| price := stripePriceId item;
                          line_quantity := item_quantity item |}) (x :: l) /\
    success_url (payload r) =
      base_url (environment b) ++ "/order-status?session_id={CHECKOUT_SESSION_ID}" /\
    cancel_url (payload r) = base_url (environment b) ++ "/checkout" /\
    (shipping_address_collection (payload r) = None <-> shippingAddress b <> None) /\
    (shipping_address (payload r) = None <-> shippingAddress b = None) /\
    fst (createCheckoutSession env b w) =
      Ok (match processor env r with
          | Throw err => RespError (toString err)
          | Ok s =>
              match session_error s with
              | Some message => RespError (toString (Error message))
              | None => RespCheckout (session_url s) (session_id s)
              end
          end) /\
    sheet (snd (createCheckoutSession env b w)) = sheet w /\
    outbox (snd (createCheckoutSession env b w)) = outbox w.
Proof.
  intros Hc Hi. unfold createCheckoutSession. js_run. rewrite Hc, Hi.
  rewrite base_url_or_else.
  match goal with |- context [processor env ?r] => exists r end.
  match goal with |- context [processor env ?r] =>
    destruct (processor env r) as [ss|err] end;
    [destruct (session_error ss) | ];
    destruct (shippingAddress b); cbn;
      repeat split; try reflexivity; try congruence; try discriminate.
Qed.

(** X8. A body the webhook handler cannot ingest is answered with an
    error, not acknowledged, and leaves no trace but log lines: no row, no
    half-written row, no mail, no processor call, no clock reading. *)
Theorem malformed_event_rejected (e : PostEvent) (w : World) :
  malformed e ->
  (exists m, fst (handleStripeWebhook env e w) = Ok (RespError m)) /\
  sheet (snd (handleStripeWebhook env e w)) = sheet w /\
  outbox (snd (handleStripeWebhook env e w)) = outbox w /\
  requests (snd (handleStripeWebhook env e w)) = requests w /\
  ticks (snd (handleStripeWebhook env e w)) = ticks w.
Proof.
  unfold malformed, handleStripeWebhook, saveOrderToSheet. js_run.
  destruct (contents e) as [b|x].
  - intros [Ht [Hd | Hd]]; rewrite Ht, Hd; cbn [Js.strict_eq];
      rewrite String.eqb_refl; repeat split; eexists; reflexivity.
  - intros _. repeat split. eexists; reflexivity.
Qed.

End Posts.

(** ** The scan, once more *)

Section Scan.
Import Ledger Traces.
Variable env : Env.

Lemma accepted_in (ms : list Mail) (m : Mail) : In m (accepted env ms) -> In m ms.
Proof. unfold accepted. intros H. now apply filter_In in H. Qed.

Lemma accepted_length (ms : list Mail) : length (accepted env ms) <= length ms.
Proof. apply filter_length_le. Qed.

(** X9. What a scan can do. A run of [sendTrackingEmails] ends normally,
    keeps the number of rows and the header row, calls no processor, and
    rewrites nothing but the Email Sent and Last Updated cells of the rows
    that were due: every other cell of every row, and every row that was
    not due, is as before. It mails at most once per due row, and every
    message it sends is the notification of a row that was due. *)
Theorem scan_touches_only_flags (w : World) :
  let w1 := snd (sendTrackingEmails env w) in
  fst (sendTrackingEmails env w) = Ok tt /\
  length (sheet w1) = length (sheet w) /\
  requests w1 = requests w /\
  (forall i row,
      nth_error (sheet w) i = Some row ->
      exists row',
        nth_error (sheet w1) i = Some row' /\ agree_off_flags row row' /\
        (i = 0 \/ due row = false -> row' = row)) /\
  (exists sent,
      outbox w1 = (outbox w ++ sent)%list /\
      length sent <= length (filter due (tl (sheet w))) /\
      forall m, In m sent ->
                exists row, In row (tl (sheet w)) /\ due row = true /\ m = mail_of row).
Proof.
  destruct (sendTrackingEmails_run env w) as (w' & rows' & Hrun & Hs & Hsc & Ho & Hr).
  cbn zeta. rewrite Hrun. cbn [fst snd]. repeat split.
  - rewrite Hs. apply Forall2_length in Hsc.
    destruct (sheet w); cbn in *; [now rewrite <- Hsc | now rewrite <- Hsc].
  - assumption.
  - intros i row Hi.
    destruct (run_row env w i Hi) as (row' & Hn & H). cbn [runs] in Hn.
    rewrite Hrun in Hn. cbn [snd] in Hn.
    exists row'. split; [assumption | ].
    destruct H as [[-> ->] | [Hi1 Hsc']].
    + split; [intros j _ _; reflexivity | auto].
    + split; [now apply scanned_agree | ].
      intros [-> | Hd]; [lia | ]. unfold scanned in Hsc'. now rewrite Hd in Hsc'.
  - exists (accepted env (map mail_of (filter due (tl (sheet w))))).
    split; [assumption | split].
    + etransitivity; [apply accepted_length | now rewrite length_map].
    + intros m Hm. apply accepted_in, in_map_iff in Hm as (row & <- & Hin).
      apply filter_In in Hin as [Hin Hd]. eauto.
Qed.

End Scan.

(** ** The notification *)

Section Notification.
Import Ledger Traces Carrier.

Lemma trimEnd_blank (t : string) : Js.all_chars Js.is_space t -> Js.trimEnd t = "".
Proof.
  induction t as [|c t IH]; intros H; cbn; [reflexivity | ].
  apply all_chars_String in H as [Hc Ht]. now rewrite IH, Hc.
Qed.

Lemma trimEnd_app_blank (s t : string) :
  Js.all_chars Js.is_space t -> Js.trimEnd (s ++ t) = Js.trimEnd s.
Proof.
  intros H. induction s as [|c s IH]; cbn.
  - now apply trimEnd_blank.
  - now rewrite IH.
Qed.

Lemma trimEnd_solid (t : string) : ends_solid t -> Js.trimEnd t = t.
Proof.
  intros (r & c & -> & Hc). induction r as [|x r IH]; cbn.
  - now rewrite Hc.
  - rewrite IH. destruct r; reflexivity.
Qed.

Lemma ends_solid_app (s t : string) : ends_solid t -> ends_solid (s ++ t).
Proof.
  intros (r & c & -> & Hc). exists (s ++ r), c.
  split; [now rewrite append_assoc | assumption].
Qed.

Lemma getTrackingUrl_truthy (tn : string) :
  Js.truthy (Server.getTrackingUrl tn) = true.
Proof.
  destruct (getTrackingUrl_cases tn) as [H | [H | [H | H]]];
    repeat match type of H with _ /\ _ => destruct H as [_ H] end;
    rewrite H; reflexivity.
Qed.

(** X10. The notification of a row, whatever its cells hold (blanks
    included): it goes to the Email cell under the fixed subject, and its
    body is the template with the order id, the tracking number as typed,
    the carrier link of the normalized tracking number (the link line is
    never left out) and the status; the final [trim] removes the
    template's own outer line breaks and nothing else. *)
Theorem tracking_mail_text (email sessionId trackingNumber status : string) :
  tracking_mail email sessionId trackingNumber status =
  {| to := email;
     subject := "Your Agroverse Order Has Shipped!";
     body := mail_text sessionId trackingNumber status |}.
Proof.
  unfold tracking_mail. rewrite getTrackingUrl_truthy.
  f_equal. unfold Js.trim.
  change (Js.trimStart (Js.nl ++ ?x)) with x.
  match goal with |- Js.trimEnd ?b = _ =>
    replace b with (mail_text sessionId trackingNumber status ++ (Js.nl ++ "    "))
  end.
  - rewrite trimEnd_app_blank.
    + apply trimEnd_solid. unfold mail_text.
      repeat apply ends_solid_app.
      exists "Agroverse Tea", "m"%char. split; reflexivity.
    + intros c Hc. cbn in Hc.
      repeat (destruct Hc as [<- | Hc]; [reflexivity | ]). contradiction.
  - unfold mail_text. rewrite !append_assoc. reflexivity.
Qed.

End Notification.

(** * The checkout page *)

Section ShippingForm.
Import Regex CheckoutPage.

Lemma Lang_Alt (a b : regex) (w : string) :
  Lang (Alt a b) w <-> Lang a w \/ Lang b w.
Proof.
  split.
  - intros H; inversion H; subst; auto.
  - intros [H | H]; [now apply LAltL | now apply LAltR].
Qed.

Lemma ZIP_PATTERN_shape (z : string) : test ZIP_PATTERN z = true <-> zip_shape z.
Proof.
  rewrite test_Lang. unfold ZIP_PATTERN, zip_shape, digit. rewrite Lang_Cat. split.
  - intros (u & v & -> & Hu & Hv).
    apply Lang_Times_Class in Hu as [Hl Hd].
    apply Lang_Alt in Hv as [Hv | Hv].
    + apply Lang_Eps in Hv as ->. rewrite append_empty_r. now left.
    + apply Lang_Cat in Hv as (h & b & -> & Hh & Hb).
      apply Lang_Lit in Hh as ->. apply Lang_Times_Class in Hb as [Hlb Hdb].
      right. exists u, b. auto.
  - intros [[Hl Hd] | (a & b & -> & Hla & Hda & Hlb & Hdb)].
    + exists z, "". rewrite append_empty_r. repeat split.
      * now apply Lang_Times_Class.
      * apply LAltL. constructor.
    + exists a, ("-" ++ b). repeat split.
      * now apply Lang_Times_Class.
      * apply LAltR. apply Lang_Cat. exists "-", b. repeat split.
        -- now apply Lang_Lit.
        -- now apply Lang_Times_Class.
Qed.

Lemma includes_at (t : string) :
  includes t "@" = true <-> exists a b, t = a ++ "@" ++ b.
Proof.
  induction t as [|c t IH]; cbn [includes Js.startsWith].
  - split; [discriminate | intros ([|x a] & b & H); discriminate].
  - rewrite andb_true_r, orb_true_iff, IH, Ascii.eqb_eq. split.
    + intros [<- | (a & b & ->)].
      * now exists "", t.
      * now exists (String c a), b.
    + intros ([|x a] & b & H); cbn in H; injection H as -> ->.
      * now left.
      * right. now exists a, b.
Qed.

Lemma too_short_iff (n : nat) (x : option string) :
  1 <= n ->
  (falsy x || Nat.ltb (String.length (Js.trim (text x))) n = false <-> at_least n x).
Proof.
  intros Hn. unfold at_least. destruct x as [[|c s]|]; cbn [falsy text Js.truthy negb orb].
  - split; [discriminate | intros (s & E & H)]. injection E as <-. cbn in H. lia.
  - rewrite Nat.ltb_ge. split.
    + intros H. eauto.
    + intros (s' & E & H). now injection E as <-.
  - split; [discriminate | intros (s & E & _); discriminate].
Qed.

Lemma no_at_iff (x : option string) :
  falsy x || negb (includes (text x) "@") = false <-> has_at x.
Proof.
  unfold has_at. destruct x as [s|]; cbn [falsy text].
  - rewrite orb_false_iff, !negb_false_iff. split.
    + intros [_ H]. apply includes_at in H as (a & b & ->). eauto.
    + intros (a & b & E). injection E as ->. split.
      * destruct a; reflexivity.
      * apply includes_at. now exists a, b.
  - split; [discriminate | intros (a & b & E); discriminate].
Qed.

Lemma bad_zip_iff (x : option string) :
  falsy x || negb (test ZIP_PATTERN (text x)) = false <->
  exists z, x = Some z /\ zip_shape z.
Proof.
  destruct x as [s|]; cbn [falsy text].
  - rewrite orb_false_iff, !negb_false_iff, ZIP_PATTERN_shape. split.
    + intros [_ H]. eauto.
    + intros (z & E & H). injection E as <-. split; [ | assumption].
      destruct s; [ | reflexivity]. exfalso.
      destruct H as [[Hl _] | (a & b & E & _)]; [discriminate | ].
      destruct a; discriminate.
  - split; [discriminate | intros (z & E & _); discriminate].
Qed.

Lemma no_country_iff (x : option string) :
  falsy x = false <-> exists c, x = Some c /\ c <> "".
Proof.
  destruct x as [[|c s]|]; cbn; split; try discriminate; try congruence.
  - intros (c & E & H). injection E as <-. congruence.
  - intros _. eexists. split; [reflexivity | discriminate].
  - intros (c & E & _). discriminate.
Qed.

(** The list of errors as a function of the eight checks. *)
Lemma errors_table (b1 b2 b3 b4 b5 b6 b7 b8 : bool) :
  let errs :=
    push_if b8 "Country is required"
      (push_if b7 "Valid ZIP code is required"
         (push_if b6 "State is required"
            (push_if b5 "City is required"
               (push_if b4 "Street address is required"
                  (push_if b3 "Valid phone number is required"
                     (push_if b2 "Valid email is required"
                        (push_if b1 "Full name is required" []))))))) in
  sublist errs messages = true /\
  (Nat.eqb (length errs) 0 = true <->
   b1 = false /\ b2 = false /\ b3 = false /\ b4 = false /\
   b5 = false /\ b6 = false /\ b7 = false /\ b8 = false) /\
  (In "Full name is required" errs <-> b1 = true) /\
  (In "Valid email is required" errs <-> b2 = true) /\
  (In "Valid phone number is required" errs <-> b3 = true) /\
  (In "Street address is required" errs <-> b4 = true) /\
  (In "City is required" errs <-> b5 = true) /\
  (In "State is required" errs <-> b6 = true) /\
  (In "Valid ZIP code is required" errs <-> b7 = true) /\
  (In "Country is required" errs <-> b8 = true).
Proof.
  destruct b1, b2, b3, b4, b5, b6, b7, b8; cbn;
    (split; [reflexivity | ]);
    (split; [split; [intros H; try discriminate H; repeat split
                    | intros H; decompose [and] H; try discriminate; reflexivity] | ]);
    repeat split; intros H; try reflexivity; try discriminate H; auto 10;
    repeat (destruct H as [H | H]; [discriminate H | ]); contradiction.
Qed.

Lemma not_false_iff_true (b : bool) (P : Prop) :
  (b = false <-> P) -> (b = true <-> ~ P).
Proof. destruct b; intros [H1 H2]; split; intros; try congruence; intuition congruence. Qed.

(** X11. [validateShippingForm] accepts a form exactly when: the full
    name, the city and the state hold at least 2 characters once trimmed,
    the phone at least 10 and the street address at least 5; the e-mail has
    an at sign somewhere in it (nothing more is asked of it); the ZIP code,
    untrimmed, is five digits or five digits, a hyphen and four digits; and
    the country is not empty. A field that is missing fails its check. *)
Theorem form_valid_iff (f : FormData) :
  valid (validateShippingForm f) = true <-> acceptable f.
Proof.
  unfold validateShippingForm, acceptable. cbn [valid].
  match goal with |- context [push_if ?b8 "Country is required"
      (push_if ?b7 _ (push_if ?b6 _ (push_if ?b5 _ (push_if ?b4 _
        (push_if ?b3 _ (push_if ?b2 _ (push_if ?b1 _ _)))))))] =>
    rewrite (proj1 (proj2 (errors_table b1 b2 b3 b4 b5 b6 b7 b8)))
  end.
  rewrite !too_short_iff by lia.
  rewrite no_at_iff, bad_zip_iff, no_country_iff. reflexivity.
Qed.

(** X12. The errors of [validateShippingForm]: each of the eight messages
    is reported exactly when its own check fails, whatever the other
    fields hold; the messages come in the order of the checks, none
    twice; and the form is valid exactly when the list is empty. *)
Theorem validation_errors (f : FormData) :
  let v := validateShippingForm f in
  sublist (errors v) messages = true /\
  (valid v = true <-> errors v = []) /\
  (In "Full name is required" (errors v) <-> ~ at_least 2 (fullName f)) /\
  (In "Valid email is required" (errors v) <-> ~ has_at (email f)) /\
  (In "Valid phone number is required" (errors v) <-> ~ at_least 10 (phone f)) /\
  (In "Street address is required" (errors v) <-> ~ at_least 5 (address f)) /\
  (In "City is required" (errors v) <-> ~ at_least 2 (city f)) /\
  (In "State is required" (errors v) <-> ~ at_least 2 (state f)) /\
  (In "Valid ZIP code is required" (errors v) <->
   ~ exists z, zip f = Some z /\ zip_shape z) /\
  (In "Country is required" (errors v) <->
   ~ exists c, country f = Some c /\ c <> "").
Proof.
  unfold validateShippingForm. cbn [valid errors].
  match goal with |- context [push_if ?b8 "Country is required"
      (push_if ?b7 _ (push_if ?b6 _ (push_if ?b5 _ (push_if ?b4 _
        (push_if ?b3 _ (push_if ?b2 _ (push_if ?b1 _ _)))))))] =>
    destruct (errors_table b1 b2 b3 b4 b5 b6 b7 b8)
      as (Hs & Hv & H1 & H2 & H3 & H4 & H5 & H6 & H7 & H8);
    cbn zeta in *
  end.
  split; [exact Hs | split].
  - match goal with |- Nat.eqb (length ?l) 0 = true <-> _ => destruct l end;
      cbn; split; congruence.
  - rewrite H1, H2, H3, H4, H5, H6, H7, H8.
    repeat split;
      apply not_false_iff_true;
      first [ apply too_short_iff; lia | apply no_at_iff | apply bad_zip_iff
            | apply no_country_iff ].
Qed.

Lemma at_least_field (n : nat) (x : option string) :
  1 <= n -> (at_least n (Some (Js.or_else x "")) <-> at_least n x).
Proof.
  intros Hn. unfold at_least. destruct x as [[|c s]|]; cbn; split;
    intros (t & E & H); try discriminate; try (injection E as <-; cbn in H; lia);
    eauto.
Qed.

(** X13. A form read by [getFormData] is judged on the values of its
    seven text fields alone: a field the page lacks counts as empty, and
    the country falls back to US, so "Country is required" is never
    reported for it. *)
Theorem form_country_never_missing (form : Form) :
  let v := validateShippingForm (getFormData form) in
  ~ In "Country is required" (errors v) /\
  (valid v = true <->
   at_least 2 (form "fullName") /\ has_at (form "email") /\
   at_least 10 (form "phone") /\ at_least 5 (form "address") /\
   at_least 2 (form "city") /\ at_least 2 (form "state") /\
   exists z, form "zip" = Some z /\ zip_shape z) /\
  (forall name message,
      In (name, message)
         [ ("fullName", "Full name is required");
           ("email", "Valid email is required");
           ("phone", "Valid phone number is required");
           ("address", "Street address is required");
           ("city", "City is required"); ("state", "State is required");
           ("zip", "Valid ZIP code is required") ] ->
      form name = None -> In message (errors v)).
Proof.
  intros v.
  assert (Hc : exists c, country (getFormData form) = Some c /\ c <> "").
  { cbn. unfold field. eexists. split; [reflexivity | ].
    destruct (form "country") as [[|c s]|]; discriminate. }
  subst v. unfold validateShippingForm. cbn [valid errors].
  match goal with |- context [push_if ?b8 "Country is required"
      (push_if ?b7 _ (push_if ?b6 _ (push_if ?b5 _ (push_if ?b4 _
        (push_if ?b3 _ (push_if ?b2 _ (push_if ?b1 _ _)))))))] =>
    destruct (errors_table b1 b2 b3 b4 b5 b6 b7 b8)
      as (_ & Hv & H1 & H2 & H3 & H4 & H5 & H6 & H7 & H8);
    cbn zeta in *
  end.
  split; [ | split ].
  - rewrite H8. intros H.
    apply (proj1 (not_false_iff_true _ _ (no_country_iff _))) in H. now apply H.
  - rewrite Hv. rewrite !too_short_iff by lia.
    rewrite no_at_iff, bad_zip_iff, no_country_iff.
    cbn [getFormData fullName email phone address city state zip country].
    unfold field. rewrite !at_least_field by lia.
    assert (He : has_at (Some (Js.or_else (form "email") "")) <-> has_at (form "email")).
    { unfold has_at. destruct (form "email") as [[|c s]|]; cbn; split;
        intros (a & b & E); try discriminate; eauto;
        destruct a; discriminate. }
    assert (Hz : (exists z, Some (Js.or_else (form "zip") "") = Some z /\ zip_shape z)
                 <-> exists z, form "zip" = Some z /\ zip_shape z).
    { destruct (form "zip") as [[|c s]|]; cbn; split; intros (z & E & H);
        try discriminate; eauto; injection E as <-; exfalso;
        destruct H as [[Hl _] | (a & b & E & _)]; try discriminate;
        destruct a; discriminate. }
    rewrite He, Hz.
    cbn [getFormData country] in Hc. unfold field in Hc. intuition.
  - intros name message Hin Hnone. cbn in Hin.
    repeat (destruct Hin as [Hin | Hin];
            [ injection Hin as <- <-;
              first [ apply H1 | apply H2 | apply H3 | apply H4 | apply H5
                    | apply H6 | apply H7 ];
              cbn [getFormData fullName email phone address city state zip];
              unfold field; rewrite Hnone; reflexivity | ]).
    contradiction.
Qed.

(** A form that passes, without a country field. *)
Example sample_form_valid :
  validateShippingForm (getFormData sample_form) = {| valid := true; errors := [] |} /\
  errors (validateShippingForm (getFormData (fun _ => None))) =
    [ "Full name is required"; "Valid email is required";
      "Valid phone number is required"; "Street address is required";
      "City is required"; "State is required"; "Valid ZIP code is required" ].
Proof. split; reflexivity. Qed.

End ShippingForm.

(** * The shopping cart *)

Section CartFacts.
Import CartJs.
Variable p : Platform.

Lemma fold_quantity (l : list Item) :
  forall a : Z,
    fold_left (fun total item => (total + quantity item)%Z) l a =
    (a + total_quantity l)%Z.
Proof.
  unfold total_quantity. induction l as [|it l IH]; intros a; cbn [fold_left].
  - lia.
  - rewrite IH, (IH (0 + quantity it)%Z). lia.
Qed.

Lemma total_quantity_cons (it : Item) (l : list Item) :
  total_quantity (it :: l) = (quantity it + total_quantity l)%Z.
Proof. unfold total_quantity at 1. cbn [fold_left]. rewrite fold_quantity. lia. Qed.

Lemma total_quantity_app (l m : list Item) :
  total_quantity (l ++ m) = (total_quantity l + total_quantity m)%Z.
Proof.
  induction l as [|it l IH]; cbn [app].
  - unfold total_quantity at 2. cbn. lia.
  - rewrite !total_quantity_cons, IH. lia.
Qed.

(** The total is the quantity under one id plus the quantities of the
    others. *)
Lemma total_quantity_split (pid : string) (l : list Item) :
  total_quantity l = (quantity_of pid l + total_quantity (others pid l))%Z.
Proof.
  unfold quantity_of, others. induction l as [|it l IH]; cbn [filter].
  - reflexivity.
  - destruct (String.eqb (productId it) pid); cbn [negb];
      rewrite !total_quantity_cons, IH; lia.
Qed.

Lemma getCart_cases (st : Browser) :
  (exists c, holds p st c /\ getCart p st = (c, st)) \/
  (unusable p st /\ getCart p st = empty_cart p st).
Proof.
  unfold getCart, holds, unusable.
  destruct (storage st) as [[|a t]|] eqn:E.
  - right. split; [now left | reflexivity].
  - destruct (JSON_parse p (String a t)) as [c|x] eqn:Hp.
    + left. exists c. split; [ | reflexivity].
      exists (String a t). repeat split; [discriminate | assumption].
    + right. split; [right; eauto | reflexivity].
  - right. split; [exact I | reflexivity].
Qed.

Lemma getCart_holds (st : Browser) (c : Cart) :
  holds p st c -> getCart p st = (c, st).
Proof.
  intros (t & Hs & Hne & Hp). unfold getCart. rewrite Hs.
  destruct t; [congruence | now rewrite Hp].
Qed.

Lemma getCart_unusable (st : Browser) :
  unusable p st -> getCart p st = empty_cart p st.
Proof.
  unfold unusable, getCart. destruct (storage st) as [[|a t]|]; try reflexivity.
  intros [H | [x H]]; [discriminate | now rewrite H].
Qed.

(** Reading the cart writes nothing; what it reads from an unusable
    storage has no item. *)
Lemma getCart_frame (st : Browser) :
  storage (snd (getCart p st)) = storage st /\
  events (snd (getCart p st)) = events st /\
  (unusable p st -> items (fst (getCart p st)) = []).
Proof.
  destruct (getCart_cases st) as [(c & Hh & ->) | (Hu & ->)].
  - repeat split. intros Hu. exfalso.
    destruct Hh as (t & Hs & Hne & Hp). unfold unusable in Hu. rewrite Hs in Hu.
    destruct Hu as [-> | [x Hx]]; congruence.
  - repeat split.
Qed.

(** [saveCart] stores and announces the cart with a fresh [updatedAt], or
    does neither. *)
Lemma saveCart_cases (c : Cart) (st : Browser) :
  let c' := {| sessionId := sessionId c; items := items c;
               createdAt := createdAt c; updatedAt := clock p (ticks st) |} in
  saveCart p c st =
  if quota_exceeded p (JSON_stringify p c')
  then (false, tick st)
  else (true, {| storage := Some (JSON_stringify p c');
                 events := (events st ++ [c'])%list;
                 ticks := S (ticks st) |}).
Proof. reflexivity. Qed.

End CartFacts.

Section CartOps.
Import CartJs.
Variable p : Platform.

Lemma update_first_ids (pid : string) (f : Z -> Z) (l : list Item) :
  match update_first pid f l with
  | Some l' =>
      In pid (ids l) /\ ids l' = ids l /\ others pid l' = others pid l /\
      (exists pre it post,
          l = (pre ++ it :: post)%list /\ ~ In pid (ids pre) /\ productId it = pid /\
          l' = (pre ++ with_quantity it (f (quantity it)) :: post)%list)
  | None => ~ In pid (ids l)
  end.
Proof.
  induction l as [|it l IH]; cbn [update_first].
  - intros [].
  - destruct (String.eqb (productId it) pid) eqn:E.
    + apply String.eqb_eq in E. repeat split.
      * now left.
      * unfold others. cbn [filter with_quantity productId].
        apply String.eqb_eq in E. now rewrite E.
      * exists [], it, l. repeat split; auto.
    + destruct (update_first pid f l) as [l'|].
      * destruct IH as (Hin & Hids & Hoth & pre & x & post & -> & Hpre & Hx & ->).
        repeat split.
        -- now right.
        -- unfold ids in *. cbn [map]. now f_equal.
        -- unfold others in *. cbn [filter]. rewrite E. cbn [negb]. now rewrite Hoth.
        -- exists (it :: pre), x, post. repeat split; auto.
           cbn. intros [H | H]; [ | contradiction].
           apply String.eqb_neq in E. contradiction.
      * cbn. intros [H | H]; [ | contradiction].
        apply String.eqb_neq in E. contradiction.
Qed.

Lemma quantity_of_app (pid : string) (l m : list Item) :
  quantity_of pid (l ++ m) = (quantity_of pid l + quantity_of pid m)%Z.
Proof. unfold quantity_of. now rewrite filter_app, total_quantity_app. Qed.

Lemma quantity_of_absent (pid : string) (l : list Item) :
  ~ In pid (ids l) -> quantity_of pid l = 0%Z /\ others pid l = l.
Proof.
  unfold quantity_of, others. induction l as [|it l IH]; cbn; intros H.
  - split; reflexivity.
  - destruct (String.eqb (productId it) pid) eqn:E.
    + apply String.eqb_eq in E. tauto.
    + cbn. destruct IH as [H1 H2]; [tauto | ]. now rewrite H2.
Qed.

Lemma quantity_of_cons (pid : string) (it : Item) (l : list Item) :
  quantity_of pid (it :: l) =
  ((if String.eqb (productId it) pid then quantity it else 0) + quantity_of pid l)%Z.
Proof.
  unfold quantity_of. cbn [filter].
  destruct (String.eqb (productId it) pid); [apply total_quantity_cons | lia].
Qed.

End CartOps.

Section CartTheorems.
Import CartJs.
Variable p : Platform.

Lemma saveCart_written (c : Cart) (st : Browser) :
  saveCart p c st =
  if quota_exceeded p (JSON_stringify p (saved p st c))
  then (false, tick st) else (true, written p st c).
Proof. reflexivity. Qed.

Lemma empty_cart_frame (st : Browser) :
  storage (snd (empty_cart p st)) = storage st /\
  events (snd (empty_cart p st)) = events st /\
  items (fst (empty_cart p st)) = [].
Proof. repeat split. Qed.

(** Saving from a state that still has the storage and the events of
    [st]. *)
Lemma saveCart_all_or_nothing (c : Cart) (st1 st : Browser) :
  storage st1 = storage st -> events st1 = events st ->
  (fst (saveCart p c st1) = true /\
   exists c', storage (snd (saveCart p c st1)) = Some (JSON_stringify p c') /\
              events (snd (saveCart p c st1)) = (events st ++ [c'])%list /\
              quota_exceeded p (JSON_stringify p c') = false /\
              items c' = items c) \/
  (fst (saveCart p c st1) = false /\
   storage (snd (saveCart p c st1)) = storage st /\
   events (snd (saveCart p c st1)) = events st).
Proof.
  intros Hs He. rewrite saveCart_written.
  destruct (quota_exceeded p (JSON_stringify p (saved p st1 c))) eqn:Hq.
  - right. repeat split; assumption.
  - left. split; [reflexivity | ]. exists (saved p st1 c). cbn. rewrite He. auto.
Qed.

(** What a writing operation hands to [saveCart], if anything: the item
    list, computed from the items [getCart] read. *)
Lemma run_items (op : CartOp) (st : Browser) :
  (fst (run p op st) = false /\
   storage (snd (run p op st)) = storage st /\
   events (snd (run p op st)) = events st) \/
  (fst (run p op st) = true /\
   exists c',
     storage (snd (run p op st)) = Some (JSON_stringify p c') /\
     events (snd (run p op st)) = (events st ++ [c'])%list /\
     quota_exceeded p (JSON_stringify p c') = false /\
     let l := items (fst (getCart p st)) in
     match op with
     | Add product =>
         match update_first (text_of (product_productId product))
                            (fun old => (old + quantity_or_1 (product_quantity product))%Z) l with
         | Some l' => items c' = l'
         | None => items c' = (l ++ [item_of product])%list
         end
     | Remove pid => items c' = others pid l
     | UpdateQuantity pid q =>
         if Z.leb q 0 then items c' = others pid l
         else update_first pid (fun _ => parseInt p q) l = Some (items c')
     | Clear => items c' = []
     end).
Proof.
  destruct (getCart_frame p st) as (Hs & He & _).
  destruct op as [product | pid | pid q | ]; cbn [run].
  - unfold addToCart. destruct (getCart p st) as [cart st1]. cbn [fst snd] in *.
    destruct (no_text (product_productId product) || no_text (product_name product)
              || no_number (product_price product)).
    { left. auto. }
    destruct (update_first _ _ (items cart)) as [l'|] eqn:E;
      match goal with |- context [saveCart p ?c st1] =>
        destruct (saveCart_all_or_nothing c st1 st Hs He)
          as [(Ht & c' & H1 & H2 & H3 & H4) | H]; [right | now left]
      end; (split; [assumption | exists c'; repeat split; auto]);
      cbn zeta; rewrite ?E; exact H4.
  - unfold removeFromCart. destruct (getCart p st) as [cart st1]. cbn [fst snd] in *.
    match goal with |- context [saveCart p ?c st1] =>
      destruct (saveCart_all_or_nothing c st1 st Hs He)
        as [(Ht & c' & H1 & H2 & H3 & H4) | H]; [right | now left]
    end. split; [assumption | exists c'; repeat split; auto].
  - unfold updateQuantity. destruct (Z.leb q 0).
    + unfold removeFromCart. destruct (getCart p st) as [cart st1]. cbn [fst snd] in *.
      match goal with |- context [saveCart p ?c st1] =>
        destruct (saveCart_all_or_nothing c st1 st Hs He)
          as [(Ht & c' & H1 & H2 & H3 & H4) | H]; [right | now left]
      end. split; [assumption | exists c'; repeat split; auto].
    + destruct (getCart p st) as [cart st1]. cbn [fst snd] in *.
      destruct (update_first pid (fun _ => parseInt p q) (items cart)) as [l'|] eqn:E.
      * match goal with |- context [saveCart p ?c st1] =>
          destruct (saveCart_all_or_nothing c st1 st Hs He)
            as [(Ht & c' & H1 & H2 & H3 & H4) | H]; [right | now left]
        end. split; [assumption | exists c'; repeat split; auto].
        cbn zeta. now rewrite H4.
      * left. auto.
  - unfold clearCart.
    destruct (empty_cart_frame st) as (Hs' & He' & Hi').
    destruct (empty_cart p st) as [cart st1]. cbn [fst snd] in *.
    destruct (saveCart_all_or_nothing cart st1 st Hs' He')
      as [(Ht & c' & H1 & H2 & H3 & H4) | H]; [right | now left].
    split; [assumption | exists c'; repeat split; auto]. cbn zeta. congruence.
Qed.

(** X14. On a page whose storage is as the cart's own operations leave
    it (no text, an empty text, or the text of a cart that parses back to
    that cart), every writing operation of the cart (add, remove, update
    quantity, clear) is all or nothing: it answers [true], and then the
    storage holds the text of one cart and exactly one [cartUpdated] event
    was dispatched, carrying that cart; or it answers [false], and then
    the storage and the events are as before. The storage stays as the
    operations leave it, as long as the stored cart parses back. *)
Theorem cart_write_all_or_nothing (op : CartOp) (st : Browser) :
  stored_by_script p st ->
  (fst (run p op st) = true /\
   exists c,
     storage (snd (run p op st)) = Some (JSON_stringify p c) /\
     events (snd (run p op st)) = (events st ++ [c])%list /\
     (round_trips p c -> stored_by_script p (snd (run p op st)))) \/
  (fst (run p op st) = false /\
   storage (snd (run p op st)) = storage st /\
   events (snd (run p op st)) = events st /\
   stored_by_script p (snd (run p op st))).
Proof.
  intros Hst.
  destruct (run_items op st) as [(Hf & Hs & He) | (Ht & c' & H1 & H2 & _)];
    [right | left].
  - repeat split; try assumption. unfold stored_by_script. now rewrite Hs.
  - split; [assumption | ]. exists c'. repeat split; try assumption.
    intros Hr. unfold stored_by_script. rewrite H1. right. now exists c'.
Qed.

Lemma NoDup_ids_others (pid : string) (l : list Item) :
  NoDup (ids l) -> NoDup (ids (others pid l)).
Proof.
  unfold ids, others. induction l as [|it l IH]; cbn; intros H; [constructor | ].
  inversion H as [|x xs Hn Hd]; subst.
  destruct (negb (String.eqb (productId it) pid)); cbn; [ | auto].
  constructor; [ | auto].
  intros Hin. apply Hn. apply in_map_iff in Hin as (y & E & Hy).
  apply filter_In in Hy as [Hy _]. apply in_map_iff. eauto.
Qed.

Lemma cart_read (st : Browser) :
  (forall c, holds p st c -> NoDup (ids (items c))) ->
  NoDup (ids (items (fst (getCart p st)))).
Proof.
  intros H. destruct (getCart_cases p st) as [(c & Hh & ->) | (Hu & ->)].
  - now apply H.
  - constructor.
Qed.

(** X15. Product ids stay unique in the cart: if the stored cart lists no
    product twice (or the storage holds no usable cart), then the cart a
    writing operation stores and announces lists no product twice. *)
Theorem cart_ids_stay_unique (op : CartOp) (st : Browser) (c' : Cart) :
  (forall c, holds p st c -> NoDup (ids (items c))) ->
  events (snd (run p op st)) = (events st ++ [c'])%list ->
  NoDup (ids (items c')).
Proof.
  intros Hu He. apply cart_read in Hu.
  destruct (run_items op st) as [(_ & _ & H) | (_ & c & _ & He' & _ & Hi)].
  { rewrite H in He. exfalso. apply (f_equal (@length Cart)) in He.
    rewrite length_app in He. cbn in He. lia. }
  rewrite He' in He. apply app_inj_tail in He as [_ ->]. cbn zeta in Hi.
  set (l := items (fst (getCart p st))) in *.
  destruct op as [product | pid | pid q | ].
  - pose proof (update_first_ids (text_of (product_productId product))
                  (fun old => (old + quantity_or_1 (product_quantity product))%Z) l) as H.
    destruct (update_first _ _ l) as [l'|].
    + destruct H as (_ & Hids & _). rewrite Hi, Hids. assumption.
    + rewrite Hi. unfold ids in *. rewrite map_app. cbn [map item_of productId].
      apply NoDup_app; [assumption | repeat constructor; intros [] | ].
      intros x Hx [<- | []]. contradiction.
  - rewrite Hi. now apply NoDup_ids_others.
  - destruct (Z.leb q 0).
    + rewrite Hi. now apply NoDup_ids_others.
    + pose proof (update_first_ids pid (fun _ => parseInt p q) l) as H. rewrite Hi in H.
      destruct H as (_ & Hids & _). now rewrite Hids.
  - rewrite Hi. constructor.
Qed.

Lemma sellable_iff (product : Product) :
  no_text (product_productId product) || no_text (product_name product)
  || no_number (product_price product) = false <-> sellable product.
Proof.
  unfold sellable, no_text, no_number.
  destruct (product_productId product) as [[|a i]|];
    destruct (product_name product) as [[|b n]|];
    destruct (product_price product) as [q|]; cbn;
    try (split; [discriminate | intros ((? & E & H) & (? & E' & H') & (? & E'' & H''));
                 try discriminate; try (injection E as <-; congruence);
                 try (injection E' as <-; congruence)]).
  rewrite Z.eqb_neq. split.
  - intros H. repeat split; eexists; (split; [reflexivity | ]);
      try discriminate; assumption.
  - intros (_ & _ & (q' & E & H)). now injection E as <-.
Qed.

Lemma with_quantity_id (it : Item) (q : Z) : productId (with_quantity it q) = productId it.
Proof. reflexivity. Qed.

(** A product [addToCart] accepts, on a stored cart. *)
Lemma addToCart_stored (product : Product) (st : Browser) (c : Cart) :
  holds p st c -> sellable product ->
  let i := text_of (product_productId product) in
  let q := quantity_or_1 (product_quantity product) in
  exists c',
    sessionId c' = sessionId c /\ createdAt c' = createdAt c /\
    others i (items c') = others i (items c) /\
    quantity_of i (items c') = (quantity_of i (items c) + q)%Z /\
    total_quantity (items c') = (total_quantity (items c) + q)%Z /\
    (In i (ids (items c)) -> ids (items c') = ids (items c)) /\
    (~ In i (ids (items c)) -> items c' = (items c ++ [item_of product])%list) /\
    addToCart p product st =
      if quota_exceeded p (JSON_stringify p (saved p st c'))
      then (false, tick st) else (true, written p st c').
Proof.
  intros Hh Hs. unfold addToCart. rewrite (getCart_holds p st c Hh).
  rewrite (proj2 (sellable_iff product) Hs).
  set (i := text_of (product_productId product)).
  set (q := quantity_or_1 (product_quantity product)).
  pose proof (update_first_ids i (fun old => (old + q)%Z) (items c)) as H.
  destruct (update_first i (fun old => (old + q)%Z) (items c)) as [l'|].
  - destruct H as (Hin & Hids & Hoth & pre & it & post & E & Hpre & Hit & ->).
    exists (with_items c (pre ++ with_quantity it (quantity it + q) :: post)%list).
    cbn [with_items sessionId createdAt items].
    repeat split; try assumption.
    + rewrite E, !quantity_of_app, !quantity_of_cons, with_quantity_id. cbn [quantity with_quantity].
      rewrite Hit, String.eqb_refl. lia.
    + rewrite E, !total_quantity_app, !total_quantity_cons. cbn [quantity with_quantity]. lia.
    + intros _. assumption.
    + intros Hn. contradiction.
  - exists (with_items c (items c ++ [item_of product])%list).
    cbn [with_items sessionId createdAt items].
    destruct (quantity_of_absent i (items c) H) as [Hq Ho].
    repeat split.
    + unfold others. rewrite filter_app. cbn [filter item_of productId].
      fold i. rewrite String.eqb_refl. cbn [negb]. now rewrite app_nil_r.
    + rewrite quantity_of_app, quantity_of_cons. cbn [item_of productId quantity].
      fold i q. rewrite String.eqb_refl. unfold quantity_of at 2. cbn.
      now rewrite Z.add_0_r.
    + rewrite total_quantity_app, total_quantity_cons. cbn [item_of quantity].
      fold q. unfold total_quantity at 3. cbn. now rewrite Z.add_0_r.
    + intros Hin. contradiction.
Qed.

(** Any other product, on a stored cart. *)
Lemma addToCart_refuses (product : Product) (st : Browser) (c : Cart) :
  holds p st c -> ~ sellable product -> addToCart p product st = (false, st).
Proof.
  intros Hh Hn. unfold addToCart. rewrite (getCart_holds p st c Hh).
  pose proof (sellable_iff product) as Hsell.
  destruct (no_text (product_productId product) || no_text (product_name product)
            || no_number (product_price product)); [reflexivity | ].
  exfalso. apply Hn, Hsell. reflexivity.
Qed.

(** X16. [addToCart] on a stored cart. A product with an id, a name and
    a price other than zero is merged by product id: the cart keeps its
    session id and creation time, the items of the other products stay as
    they are and where they are, the quantity under the product's id and
    the total quantity both grow by the product's quantity (1 when it is
    missing or zero), and a product new to the cart becomes one item at the
    end; the result is saved with the clock's reading as [updatedAt], or,
    when the storage refuses the text, nothing is saved and the answer is
    [false]. Any other product is refused with [false] and the page left
    as it is. *)
Theorem addToCart_merges (product : Product) (st : Browser) (c : Cart) :
  holds p st c ->
  (sellable product ->
   let i := text_of (product_productId product) in
   let q := quantity_or_1 (product_quantity product) in
   exists c',
     sessionId c' = sessionId c /\ createdAt c' = createdAt c /\
     others i (items c') = others i (items c) /\
     quantity_of i (items c') = (quantity_of i (items c) + q)%Z /\
     total_quantity (items c') = (total_quantity (items c) + q)%Z /\
     (In i (ids (items c)) -> ids (items c') = ids (items c)) /\
     (~ In i (ids (items c)) -> items c' = (items c ++ [item_of product])%list) /\
     addToCart p product st =
       if quota_exceeded p (JSON_stringify p (saved p st c'))
       then (false, tick st) else (true, written p st c')) /\
  (~ sellable product -> addToCart p product st = (false, st)).
Proof.
  intros Hh. split.
  - intros Hs. exact (addToCart_stored product st c Hh Hs).
  - intros Hn. exact (addToCart_refuses product st c Hh Hn).
Qed.

(** X17. [removeFromCart]. On a stored cart it saves the cart without
    the items of the product: their quantity leaves the total, the other
    items stay as they are and where they are, the session id stays. With
    no usable cart in the storage it does what [clearCart] does: it stores
    and announces a new empty cart. [updateQuantity] with a quantity of
    zero or less is [removeFromCart]. *)
Theorem removeFromCart_removes (pid : string) (st : Browser) :
  (forall c,
      holds p st c ->
      exists c',
        sessionId c' = sessionId c /\ createdAt c' = createdAt c /\
        items c' = others pid (items c) /\ ~ In pid (ids (items c')) /\
        total_quantity (items c') =
          (total_quantity (items c) - quantity_of pid (items c))%Z /\
        removeFromCart p pid st =
          if quota_exceeded p (JSON_stringify p (saved p st c'))
          then (false, tick st) else (true, written p st c')) /\
  (unusable p st -> removeFromCart p pid st = clearCart p st) /\
  (forall q, (q <= 0)%Z -> updateQuantity p pid q st = removeFromCart p pid st).
Proof.
  split; [ | split ].
  - intros c Hh. unfold removeFromCart. rewrite (getCart_holds p st c Hh).
    exists (with_items c (others pid (items c))).
    cbn [with_items sessionId createdAt items]. repeat split.
    + unfold ids, others. intros Hin. apply in_map_iff in Hin as (it & E & Hin).
      apply filter_In in Hin as [_ Hne]. rewrite E, String.eqb_refl in Hne.
      discriminate.
    + rewrite (total_quantity_split pid (items c)). lia.
  - intros Hu. unfold removeFromCart, clearCart.
    rewrite (getCart_unusable p st Hu). reflexivity.
  - intros q Hq. unfold updateQuantity.
    apply Z.leb_le in Hq. now rewrite Hq.
Qed.



(** X19. A cart operation that answered [true] can be read back: if the
    codec gives back the cart that was stored, [getCart] returns that cart
    without touching the page, and [getCartItemCount] is the sum of its
    quantities. With nothing usable in the storage (no text, an empty text
    or a text that does not parse), [getCart] returns an empty cart under
    a new session id, stores nothing, and the count is 0. *)
Theorem cart_read_back (st : Browser) :
  (forall op c',
      events (snd (run p op st)) = (events st ++ [c'])%list ->
      round_trips p c' ->
      let st' := snd (run p op st) in
      getCart p st' = (c', st') /\
      getCartItemCount p st' = (total_quantity (items c'), st')) /\
  (unusable p st ->
   getCart p st =
     ({| sessionId := session_ids p (ticks st); items := [];
         createdAt := clock p (S (ticks st));
         updatedAt := clock p (S (S (ticks st))) |},
      {| storage := storage st; events := events st;
         ticks := S (S (S (ticks st))) |}) /\
   fst (getCartItemCount p st) = 0%Z).
Proof.
  split.
  - intros op c' He [Hne Hrt] st'.
    assert (Hh : holds p st' c').
    { subst st'. destruct (run_items op st) as [(_ & _ & H) | (_ & c & Hs & He' & _)].
      - rewrite H in He. exfalso. apply (f_equal (@length Cart)) in He.
        rewrite length_app in He. cbn in He. lia.
      - rewrite He' in He. apply app_inj_tail in He as [_ ->].
        exists (JSON_stringify p c'). auto. }
    unfold getCartItemCount. rewrite (getCart_holds p st' c' Hh). split; reflexivity.
  - intros Hu. unfold getCartItemCount. rewrite (getCart_unusable p st Hu).
    split; reflexivity.
Qed.

End CartTheorems.

(** ** Instances of the further properties *)

Section BackEndInstances.
Import Ledger Scenario Traces Cases.

(** The history of [Cases] on a fresh sheet. *)
Lemma ids_stay_unique_witness :
  well_formed (sheet (run_ops env history fresh)) /\
  (forall i row,
      nth_error (sheet fresh) i = Some row ->
      exists row',
        nth_error (sheet (run_ops env history fresh)) i = Some row' /\
        cell row' 0 = cell row 0).
Proof.
  apply (ids_stay_unique env history fresh).
  split; [discriminate | repeat constructor].
Defined.

(** The shipped order of the edited sheet: its empty Items and Shipping
    Address cells read as an empty list and an empty object. *)
Lemma getOrderStatus_reads_first_row_witness :
  findOrderRow (sheet edited) (Some "tx_1") = 2 /\
  getOrderStatus env (Some "tx_1") edited =
    (Ok (RespOrder {| order_sessionId := "tx_1";
                      order_email := "a@b.com";
                      order_date := stamp 0;
                      order_status := "Shipped";
                      order_items := JArr [];
                      order_shippingAddress := JObj [];
                      order_trackingNumber := "1Z999AA10123456784";
                      order_emailSent := "No";
                      order_lastUpdated := stamp 1 |}), edited).
Proof.
  split; [reflexivity | ].
  exact (getOrderStatus_reads_first_row env edited "tx_1" 1
           [ "tx_1"; "a@b.com"; stamp 0; "Shipped"; ""; ""; "1Z999AA10123456784";
             "No"; stamp 1 ] eq_refl eq_refl).
Defined.

(** The shipped order of the edited sheet, before and after the history
    of [Cases], whose scan notifies it. *)
Lemma status_stable_along_history_witness :
  findOrderRow (sheet (run_ops env history edited)) (Some "tx_1") =
    findOrderRow (sheet edited) (Some "tx_1") /\
  exists r r',
    fst (getOrderStatus env (Some "tx_1") edited) = Ok r /\
    fst (getOrderStatus env (Some "tx_1") (run_ops env history edited)) = Ok r' /\
    answers_agree r r'.
Proof.
  apply (status_stable_along_history env history edited "tx_1").
  intros H. vm_compute in H. discriminate H.
Defined.

(** The checkout request for two bags. *)
Lemma createCheckoutSession_outcome_witness :
  exists r,
    requests (snd (createCheckoutSession env cart_request fresh)) = [r] /\
    line_items (payload r) = [ {| price := "price_1"; line_quantity := 2%Z |} ] /\
    success_url (payload r) =
      "https://www.agroverse.shop/order-status?session_id={CHECKOUT_SESSION_ID}" /\
    shipping_address_collection (payload r) <> None.
Proof.
  destruct (createCheckoutSession_outcome env cart_request
              {| items := Some [ {| stripePriceId := "price_1"; item_quantity := 2%Z |} ];
                 cart_sessionId := Some "cart_1" |}
              {| stripePriceId := "price_1"; item_quantity := 2%Z |} [] fresh
              eq_refl eq_refl)
    as (r & Hr & _ & Hl & Hs & _ & Hc & _).
  exists r. repeat split; try assumption.
  intros H. apply Hc in H. now apply H.
Defined.

(** A body that is not JSON, and a completion event without a session. *)
Lemma malformed_event_rejected_witness :
  ((exists m, fst (handleStripeWebhook env garbled fresh) = Ok (RespError m)) /\
   sheet (snd (handleStripeWebhook env garbled fresh)) = sheet fresh /\
   outbox (snd (handleStripeWebhook env garbled fresh)) = outbox fresh /\
   requests (snd (handleStripeWebhook env garbled fresh)) = requests fresh /\
   ticks (snd (handleStripeWebhook env garbled fresh)) = ticks fresh) /\
  ((exists m, fst (handleStripeWebhook env hollow fresh) = Ok (RespError m)) /\
   sheet (snd (handleStripeWebhook env hollow fresh)) = sheet fresh /\
   outbox (snd (handleStripeWebhook env hollow fresh)) = outbox fresh /\
   requests (snd (handleStripeWebhook env hollow fresh)) = requests fresh /\
   ticks (snd (handleStripeWebhook env hollow fresh)) = ticks fresh).
Proof.
  split.
  - apply (malformed_event_rejected env garbled fresh). exact I.
  - apply (malformed_event_rejected env hollow fresh).
    split; [reflexivity | right; reflexivity].
Defined.

End BackEndInstances.

Section CartInstances.
Import CartJs CartCases.

(** The page of [CartCases] holds the stored cart. *)
Lemma visited_holds : holds page visited stored_cart.
Proof.
  exists (JSON_stringify page stored_cart).
  split; [reflexivity | split].
  - intros H. vm_compute in H. discriminate H.
  - vm_compute. reflexivity.
Defined.

Lemma visited_holds_only (c : Cart) : holds page visited c -> c = stored_cart.
Proof.
  intros (t & E & _ & H). cbn [visited storage] in E. injection E as <-.
  vm_compute in H. injection H as <-. reflexivity.
Defined.

Lemma cacao_sellable : sellable cacao.
Proof.
  repeat split; eexists; (split; [reflexivity | discriminate]).
Defined.

(** Two more bags of cacao in the stored cart: saved and announced. *)
Lemma cart_write_all_or_nothing_witness :
  fst (run page (Add cacao) visited) = true /\
  exists c,
    storage (snd (run page (Add cacao) visited)) = Some (JSON_stringify page c) /\
    events (snd (run page (Add cacao) visited)) = [c].
Proof.
  assert (Hs : stored_by_script page visited).
  { right. exists stored_cart. split; [reflexivity | ].
    split; [intros H; vm_compute in H; discriminate H | vm_compute; reflexivity]. }
  destruct (cart_write_all_or_nothing page (Add cacao) visited Hs)
    as [(Ht & c & H1 & H2 & _) | [H _]].
  - split; [exact Ht | ]. exists c. split; assumption.
  - vm_compute in H. discriminate H.
Defined.

(** Two more bags of cacao in the stored cart. *)
Lemma cart_ids_stay_unique_witness :
  NoDup (ids (items (saved page visited
                       (with_items stored_cart [nibs; with_quantity cacao_item 5])))).
Proof.
  apply (cart_ids_stay_unique page (Add cacao) visited).
  - intros c H. rewrite (visited_holds_only c H).
    repeat constructor; cbn; intuition discriminate.
  - reflexivity.
Defined.

Lemma addToCart_merges_witness :
  exists c',
    ids (items c') = ["nibs"; "cacao-200g"] /\
    quantity_of "cacao-200g" (items c') = 5%Z /\
    total_quantity (items c') = 6%Z /\
    addToCart page cacao visited = (true, written page visited c').
Proof.
  destruct (proj1 (addToCart_merges page cacao visited stored_cart visited_holds)
                  cacao_sellable)
    as (c' & _ & _ & _ & Hq & Ht & Hi & _ & Ha).
  exists c'. repeat split.
  - apply Hi. right. left. reflexivity.
  - exact Hq.
  - exact Ht.
  - exact Ha.
Defined.


End CartInstances.

(** ** The form encoding *)

Section FormEncodingFacts.
Import FormEncoding.
Variable stringify : Ledger.json -> string.

Lemma read_char_encode_char (c : ascii) (s : string) :
  read_char (encode_char c ++ s) = Some (c, s).
Proof.
  destruct c as [[] [] [] [] [] [] [] []]; reflexivity.
Qed.

Lemma encode_char_chars (c : ascii) :
  Js.all_chars encoded_char (encode_char c) /\ encode_char c <> "" /\
  (unreserved c = true -> encode_char c = String c "").
Proof.
  destruct c as [[] [] [] [] [] [] [] []];
    (split; [ | split; [discriminate | try reflexivity; discriminate]]);
    intros x Hx; vm_compute in Hx;
    repeat (destruct Hx as [<- | Hx]; [reflexivity | ]); contradiction.
Qed.

Lemma encodeURIComponent_chars (s : string) :
  Js.all_chars encoded_char (encodeURIComponent s).
Proof.
  induction s as [|c s IH]; cbn [encodeURIComponent].
  - intros x [].
  - apply all_chars_append. split; [apply encode_char_chars | exact IH].
Qed.

Lemma encodeURIComponent_inj (s t : string) :
  encodeURIComponent s = encodeURIComponent t -> s = t.
Proof.
  revert t. induction s as [|c s IH]; intros [|d t] H; cbn [encodeURIComponent] in H.
  - reflexivity.
  - symmetry in H. apply append_eq_empty in H as [H _].
    now apply encode_char_chars in H.
  - apply append_eq_empty in H as [H _]. now apply encode_char_chars in H.
  - apply (f_equal read_char) in H. rewrite !read_char_encode_char in H.
    injection H as -> H. f_equal. now apply IH.
Qed.

Lemma free_of_append (c : ascii) (u v : string) :
  free_of c (u ++ v) <-> free_of c u /\ free_of c v.
Proof.
  unfold free_of. rewrite list_ascii_of_append, in_app_iff. tauto.
Qed.

Lemma free_of_encoded (c : ascii) (s : string) :
  encoded_char c = false -> free_of c (encodeURIComponent s).
Proof.
  intros Hc Hin. apply encodeURIComponent_chars in Hin. congruence.
Qed.

(** A text splits in one way at the first occurrence of a character. *)
Lemma split_first (c : ascii) (x y s t : string) :
  free_of c x -> free_of c y ->
  x ++ String c s = y ++ String c t -> x = y /\ s = t.
Proof.
  unfold free_of. revert y.
  induction x as [|a x IH]; intros [|b y] Hx Hy H; cbn in *.
  - injection H as ->. auto.
  - injection H as <- _. tauto.
  - injection H as -> _. tauto.
  - injection H as -> H. destruct (IH y) as [-> ->]; auto.
Qed.

Lemma no_split (c : ascii) (x y t : string) :
  free_of c x -> x <> y ++ String c t.
Proof.
  intros Hx ->. apply Hx. rewrite list_ascii_of_append. apply in_or_app.
  right. now left.
Qed.

Lemma join_inj (c : ascii) (l1 l2 : list string) :
  (forall x, In x (l1 ++ l2)%list -> x <> "" /\ free_of c x) ->
  join (String c "") l1 = join (String c "") l2 -> l1 = l2.
Proof.
  revert l2. induction l1 as [|a l1 IH]; intros [|b l2] Hall H.
  - reflexivity.
  - exfalso. destruct (Hall b) as [Hb _]; [now left | ].
    cbn [join] in H. destruct l2; [congruence | ].
    symmetry in H. apply append_eq_empty in H as [H _]. congruence.
  - exfalso. destruct (Hall a) as [Ha _]; [now left | ].
    cbn [join] in H. destruct l1; [congruence | ].
    apply append_eq_empty in H as [H _]. congruence.
  - assert (Ha : free_of c a) by (apply Hall; now left).
    assert (Hb : free_of c b).
    { apply Hall. apply in_or_app. right. now left. }
    cbn [join] in H. destruct l1 as [|a' l1], l2 as [|b' l2].
    + congruence.
    + exfalso. now apply (no_split c a b (join (String c "") (b' :: l2)) Ha).
    + exfalso. symmetry in H.
      now apply (no_split c b a (join (String c "") (a' :: l1)) Hb).
    + cbn [append] in H. apply split_first in H as [-> H]; try assumption.
      f_equal. apply IH; [ | exact H].
      intros x Hx. apply Hall. apply in_app_iff in Hx as [Hx | Hx].
      * apply in_or_app. left. now right.
      * apply in_or_app. right. now right.
Qed.

Lemma params_kept (data : list (string * value)) :
  params stringify data =
  map (fun kt => fst kt ++ "=" ++ encodeURIComponent (snd kt)) (kept stringify data).
Proof.
  induction data as [|[k [| |j|s]] data IH]; cbn [params kept raw map fst snd];
    try rewrite IH; reflexivity.
Qed.

Lemma kept_keys (data : list (string * value)) (k t : string) :
  In (k, t) (kept stringify data) -> exists v, In (k, v) data.
Proof.
  induction data as [|[k' [| |j|s]] data IH]; cbn [kept raw]; intros H;
    try (destruct (IH H) as [v Hv]; exists v; now right);
    try contradiction;
    (destruct H as [H | H];
     [injection H as -> _; eexists; left; reflexivity
     | destruct (IH H) as [v Hv]; exists v; now right]).
Qed.

(** [encodeURIComponent] writes only letters, digits,
    [- _ . ! ~ * ' ( )], the percent sign and upper-case hexadecimal
    digits, so no [&], [=], [+], [#], [?], [/] or blank; it leaves a text
    of unreserved characters as it is; and different texts get different
    encodings. *)
Lemma encodeURIComponent_safe (s : string) :
  Js.all_chars encoded_char (encodeURIComponent s) /\
  (forall c, In c (list_ascii_of_string "&=+#?/ ") ->
             free_of c (encodeURIComponent s)) /\
  (Js.all_chars unreserved s -> encodeURIComponent s = s) /\
  (forall t, encodeURIComponent s = encodeURIComponent t -> s = t).
Proof.
  split; [apply encodeURIComponent_chars | split; [ | split]].
  - intros c Hc. apply free_of_encoded. cbn in Hc.
    repeat (destruct Hc as [<- | Hc]; [reflexivity | ]). contradiction.
  - induction s as [|c s' IH]; intros H; [reflexivity | ].
    apply all_chars_String in H as [Hc H]. cbn [encodeURIComponent].
    rewrite (proj2 (proj2 (encode_char_chars c)) Hc), (IH H). reflexivity.
  - apply encodeURIComponent_inj.
Qed.

(** X20. The text [buildFormData] builds is the [key=value] of the
    fields that are neither [undefined] nor [null], in the object's order,
    joined by [&], each value encoded (an object through its JSON text).
    When no key holds an [&] or an [=], the text determines these fields:
    two objects with the same text keep the same keys with the same
    values. *)
Theorem buildFormData_determines_fields (d1 d2 : list (string * value)) :
  (forall k v, In (k, v) (d1 ++ d2)%list -> free_of "&" k /\ free_of "=" k) ->
  buildFormData stringify d1 =
    join "&" (map (fun kt => fst kt ++ "=" ++ encodeURIComponent (snd kt))
                  (kept stringify d1)) /\
  (buildFormData stringify d1 = buildFormData stringify d2 ->
   kept stringify d1 = kept stringify d2).
Proof.
  intros Hk. unfold buildFormData. rewrite !params_kept. split; [reflexivity | ].
  assert (Hkeys : forall k t, In (k, t) (kept stringify d1 ++ kept stringify d2)%list ->
                              free_of "&" k /\ free_of "=" k).
  { intros k t H. apply in_app_iff in H as [H | H];
      apply kept_keys in H as [v Hv]; apply (Hk k v); apply in_or_app; auto. }
  clear Hk. intros H. apply join_inj in H.
  - revert H Hkeys. generalize (kept stringify d1) (kept stringify d2).
    induction l as [|[k t] l IH]; intros [|[k' t'] l'] H Hkeys; cbn [map fst snd] in H;
      try discriminate; [reflexivity | ].
    injection H as E E'.
    apply split_first in E as [-> E].
    + apply encodeURIComponent_inj in E as ->. f_equal. apply IH; [exact E' | ].
      intros k t Hin. apply (Hkeys k t). apply in_app_iff in Hin as [Hin | Hin].
      * apply in_or_app. left. now right.
      * apply in_or_app. right. now right.
    + apply (Hkeys k t). now left.
    + apply (Hkeys k' t'). apply in_or_app. right. now left.
  - intros x Hx. rewrite <- map_app in Hx. apply in_map_iff in Hx as ([k t] & <- & Hin).
    cbn [fst snd]. split.
    + destruct k; discriminate.
    + apply free_of_append. split; [now apply (Hkeys k t) | ].
      apply (free_of_append "&" "=" (encodeURIComponent t)). split.
      * cbn. intros [E | []]. discriminate.
      * now apply free_of_encoded.
Qed.

End FormEncodingFacts.

(** ** The core on typed cells *)

Create HintDb typed_run.
#[local] Hint Unfold Typed.ret Typed.throw Typed.bind Typed.try_catch
Typed.lift Typed.Logger_log Typed.now Typed.set_sheet Typed.getSheet
Typed.appendRow Typed.setValue Typed.MailApp_sendEmail
Typed.UrlFetchApp_fetch : typed_run.

Ltac typed_run := autounfold with typed_run; cbn [fst snd].

Section TypedFacts.
Import Ledger Typed.
Variable pf : Platform.


Lemma typed_marked_other (t : string) (row : Row) (k : nat) :
  k <> 7 -> k <> 8 -> cell (marked t row) k = cell row k.
Proof.
  intros H7 H8. unfold cell, marked.
  rewrite !nth_update_nth_other by congruence. reflexivity.
Qed.



Lemma typed_tl_getValues (sh : list Row) : tl (getValues sh) = tl sh.
Proof. now destruct sh. Qed.

Lemma textual_scanned (row row' : Row) :
  scanned row row' -> textual row -> textual row'.
Proof.
  unfold scanned, textual. destruct (due row).
  - intros [t ->] [s Hs]. exists s. now rewrite typed_marked_other.
  - now intros ->.
Qed.

Lemma typed_sendTrackingEmail_run (email sessionId status : value) (t : string)
      (w : World) :
  let m := tracking_mail (text_of pf email) (text_of pf sessionId) t
                         (text_of pf status) in
  exists l,
    sendTrackingEmail pf email sessionId t status w =
    (Ok tt, {| sheet := sheet w;
               outbox := (outbox w ++ accepted (base pf) [m])%list;
               requests := requests w;
               log := (log w ++ [l])%list; ticks := ticks w |}).
Proof.
  intros m. unfold sendTrackingEmail, accepted. typed_run. fold m. cbn [filter].
  destruct (transport (base pf) m) as [x|]; eexists;
    cbn [sheet outbox requests log ticks].
  - rewrite app_nil_r. reflexivity.
  - reflexivity.
Qed.

Lemma typed_scan_from_app (rows rest : list Row) :
  forall i w,
    scan_from pf i (rows ++ rest) w =
    bind (scan_from pf i rows) (fun _ => scan_from pf (i + length rows) rest) w.
Proof.
  induction rows as [|row rows IH]; intros i w; cbn [scan_from app length].
  - unfold bind, ret. rewrite Nat.add_0_r. reflexivity.
  - unfold bind. destruct (scan_row pf i row w) as [[[]|x] w1].
    + rewrite IH. unfold bind. rewrite Nat.add_succ_comm. reflexivity.
    + reflexivity.
Qed.

(** The scan of rows whose tracking cells are texts, with more rows
    below them. *)
Lemma typed_scan_prefix_run (rows : list Row) :
  Forall textual rows ->
  forall (i : nat) (pre suf : list Row) (w : World),
    sheet w = (pre ++ rows ++ suf)%list -> length pre = i ->
    exists w' rows' l,
      scan_from pf i rows w = (Ok tt, w') /\
      sheet w' = (pre ++ rows' ++ suf)%list /\ Forall2 scanned rows rows' /\
      outbox w' =
        (outbox w ++ accepted (base pf) (map (mail_of pf) (filter due rows)))%list /\
      log w' = (log w ++ l)%list.
Proof.
  induction 1 as [|row rows Ht _ IH]; intros i pre suf w Hs Hi; cbn [scan_from].
  - exists w, [], []. cbn. rewrite !app_nil_r. repeat split; auto.
  - assert (Hrow : exists w1 row' l1,
               scan_row pf i row w = (Ok tt, w1) /\
               sheet w1 = (pre ++ row' :: rows ++ suf)%list /\ scanned row row' /\
               outbox w1 =
                 (outbox w ++ accepted (base pf) (map (mail_of pf) (filter due [row])))%list /\
               log w1 = (log w ++ l1)%list).
    { destruct Ht as [t Ht]. unfold scan_row, scanned, due, mail_of. cbn [filter].
      rewrite Ht. cbn [truthy text_of].
      destruct (Js.truthy t) eqn:Htr.
      2:{ assert (Js.truthy (Js.trim t) = false) as ->
            by (destruct t; [reflexivity | discriminate]).
          cbn [andb map accepted filter]. exists w, row, [].
          rewrite !app_nil_r. auto. }
      destruct (Js.truthy (Js.trim t) && negb (is_text (cell row 7) "Yes")) eqn:Hd.
      - destruct (typed_sendTrackingEmail_run (cell row 1) (cell row 0)
                                              (cell row 3) t w) as [l Hl].
        cbn zeta in Hl. typed_run. rewrite Hl. cbn [sheet outbox log ticks].
        cbn [app] in Hs. rewrite Hs, Nat.add_sub. subst i. rewrite !update_nth_app.
        eexists; eexists; exists [l]. split; [reflexivity | ].
        cbn [sheet outbox log map]. repeat split.
        + eexists. reflexivity.
        + now rewrite Ht.
      - exists w, row, []. cbn. rewrite !app_nil_r. auto. }
    destruct Hrow as (w1 & row' & l1 & Hrun & Hs1 & Hsc & Ho1 & Hl1).
    unfold bind. rewrite Hrun.
    destruct (IH (S i) (pre ++ [row'])%list suf w1)
      as (w2 & rows' & l2 & Hrun2 & Hs2 & Hf & Ho2 & Hl2).
    { now rewrite Hs1, <- app_assoc. }
    { rewrite length_app. cbn. lia. }
    exists w2, (row' :: rows'), (l1 ++ l2)%list. rewrite Hrun2. repeat split.
    + now rewrite Hs2, <- app_assoc.
    + now constructor.
    + rewrite Ho2, Ho1, <- app_assoc. f_equal.
      unfold accepted. rewrite <- filter_app, <- map_app. f_equal. f_equal.
      cbn [filter]. now destruct (due row).
    + now rewrite Hl2, Hl1, app_assoc.
Qed.




Lemma textual_scanned_all (rows rows' : list Row) :
  Forall2 scanned rows rows' -> Forall textual rows -> Forall textual rows'.
Proof.
  induction 1 as [|r r' rows rows' Hs _ IH]; intros Ht; [constructor | ].
  inversion Ht; subst. constructor; [now apply (textual_scanned r) | auto].
Qed.








Lemma typed_getOrderStatus_answer (k : option string) (w : World) :
  fst (getOrderStatus pf k w) = Ok (status_answer pf (sheet w) k) /\
  sheet (snd (getOrderStatus pf k w)) = sheet w /\
  outbox (snd (getOrderStatus pf k w)) = outbox w /\
  ticks (snd (getOrderStatus pf k w)) = ticks w.
Proof.
  unfold getOrderStatus, status_answer. typed_run.
  destruct (Nat.leb (findOrderRow (sheet w) k) 0); [repeat split | ].
  repeat match goal with
         | |- context [JSON_parse (base pf) ?t] => destruct (JSON_parse (base pf) t)
         end; repeat split.
Qed.

Lemma typed_doGet_answer (e : GetEvent) (w : World) :
  fst (doGet pf e w) =
    Ok (if Js.strict_eq (get_action e) "getOrderStatus"
        then status_answer pf (sheet w) (get_sessionId e)
        else RespError "Invalid action") /\
  sheet (snd (doGet pf e w)) = sheet w.
Proof.
  unfold doGet. typed_run.
  destruct (Js.strict_eq (get_action e) "getOrderStatus"); [ | split; reflexivity].
  destruct (typed_getOrderStatus_answer (get_sessionId e) w) as (Hr & Hs & _).
  destruct (getOrderStatus pf (get_sessionId e) w) as [[r|x] w'];
    cbn [fst snd] in *; [ | discriminate ].
  split; assumption.
Qed.


Lemma typed_scan_row_throws (i : nat) (row : Row) (w : World) :
  truthy (cell row 6) = true -> ~ textual row ->
  scan_row pf i row w = (Throw (no_trim pf (cell row 6)), w).
Proof.
  intros Ht Hn. unfold scan_row. rewrite Ht.
  destruct (cell row 6) as [t| | |] eqn:E; try reflexivity.
  exfalso. apply Hn. now exists t.
Qed.

(** X26. A tracking cell that holds a number other than zero, the truth
    value [true] or a date ends the scan at its row:
    [trackingNumber.trim()] throws outside the per-record [try], the run
    logs the error and returns. The rows above it, whose tracking cells
    are texts, are scanned as usual (a due row is mailed, if the transport
    accepts the message, and marked); the row itself and every row below
    it are left as they are, whatever they hold, and no mail is sent for
    them. The sheet the run leaves meets the same conditions, so every
    later run ends at the same row. *)
Theorem scan_stops_at_untrimmable (w : World) (h : Row) (pre : list Row) (row : Row)
        (rest : list Row) :
  sheet w = (h :: pre ++ row :: rest)%list ->
  Forall textual pre ->
  truthy (cell row 6) = true -> ~ textual row ->
  exists w' pre' l,
    sendTrackingEmails pf w = (Ok tt, w') /\
    sheet w' = (h :: pre' ++ row :: rest)%list /\
    Forall2 scanned pre pre' /\ Forall textual pre' /\
    outbox w' =
      (outbox w ++ accepted (base pf) (map (mail_of pf) (filter due pre)))%list /\
    log w' =
      (log w ++ l ++
       [("Error sending tracking emails: " ++ toString (no_trim pf (cell row 6)))%string])%list.
Proof.
  intros Hs Hpre Ht Hn. unfold sendTrackingEmails, try_catch, bind at 1, getSheet.
  rewrite typed_tl_getValues, Hs. cbn [tl]. rewrite typed_scan_from_app. unfold bind.
  destruct (typed_scan_prefix_run pre Hpre 1 [h] (row :: rest) w Hs eq_refl)
    as (w1 & pre' & l & Hrun & Hs1 & Hsc & Ho & Hl).
  rewrite Hrun. cbn [scan_from]. unfold bind.
  rewrite (typed_scan_row_throws _ row w1 Ht Hn).
  exists {| sheet := sheet w1; outbox := outbox w1; requests := requests w1;
            log := (log w1 ++ [("Error sending tracking emails: "
                                ++ toString (no_trim pf (cell row 6)))%string])%list;
            ticks := ticks w1 |}, pre', l.
  unfold Logger_log. cbn [sheet outbox log]. repeat split; try assumption.
  - now apply (textual_scanned_all pre).
  - now rewrite Hl, <- app_assoc.
Qed.


End TypedFacts.

(** ** The ledger of text cells against the ledger of typed cells *)

Section TextSheets.
Import Ledger.
Variable pf : Typed.Platform.


































End TextSheets.

(** ** The order-status page against the back end *)

Section StatusPageFacts.
Import Ledger StatusPage.
Variable pf : Typed.Platform.

Lemma typed_doGet_status (k : string) (w : Typed.World) :
  fst (Typed.doGet pf (status_query k) w) =
    Ok (Typed.status_answer pf (Typed.sheet w) (Some k)).
Proof.
  rewrite (proj1 (typed_doGet_answer pf (status_query k) w)).
  unfold status_query. cbn [get_action get_sessionId Js.strict_eq].
  now rewrite String.eqb_refl.
Qed.

Lemma fetchOrderStatus_served (page : Page) (w : Typed.World) (k : string) :
  served_by pf w page k ->
  fetchOrderStatus page k =
    let data := wire (Typed.status_answer pf (Typed.sheet w) (Some k)) in
    if negb (CheckoutPage.falsy (data_error data))
    then Throw (Error (CheckoutPage.text (data_error data)))
    else Ok (if truthy (data_order data) then data_order data else None).
Proof.
  intros (u & r & Hu & Hne & Hy & Hr & Hf). rewrite typed_doGet_status in Hr.
  injection Hr as <-. unfold fetchOrderStatus. rewrite Hu.
  cbn [CheckoutPage.falsy CheckoutPage.text]. rewrite Hy.
  destruct u as [|c u]; [congruence | ]. cbn [Js.truthy negb orb].
  rewrite Hf. reflexivity.
Qed.

(** A conversion goes through exactly for a plain value. *)
Lemma convert_plain (page : Page) (x : option json) :
  (plain x = true -> convert page x = Ok tt) /\
  (plain x = false -> exists f, convert page x = Throw (type_error page f)).
Proof.
  destruct x as [j|]; cbn [plain convert].
  - destruct (printable j); split; try discriminate; try reflexivity.
    intros _. eexists. reflexivity.
  - split; [reflexivity | discriminate].
Qed.

Lemma and_then_convert {A} (page : Page) (x : option json) (k : result A) (b : bool) :
  ((b = true -> exists a, k = Ok a) /\
   (b = false -> exists f, k = Throw (type_error page f))) ->
  (plain x && b = true -> exists a, and_then (convert page x) k = Ok a) /\
  (plain x && b = false ->
   exists f, and_then (convert page x) k = Throw (type_error page f)).
Proof.
  intros [Hk1 Hk2]. destruct (convert_plain page x) as [H1 H2].
  destruct (plain x); cbn [andb].
  - rewrite (H1 eq_refl). cbn [and_then]. auto.
  - split; [discriminate | ]. intros _. destruct (H2 eq_refl) as [f ->].
    exists f. reflexivity.
Qed.

Lemma convert_last (page : Page) (x : option json) :
  (plain x = true -> exists a, convert page x = Ok a) /\
  (plain x = false -> exists f, convert page x = Throw (type_error page f)).
Proof.
  destruct (convert_plain page x) as [H1 H2]. split; [ | exact H2].
  intros H. exists tt. auto.
Qed.

Lemma render_item_ok (page : Page) (item : json) :
  (item_ok item = true -> exists a, render_item page item = Ok a) /\
  (item_ok item = false -> exists f, render_item page item = Throw (type_error page f)).
Proof.
  assert (H : forall i, 
    (plain (prop i "name") && plain (prop i "quantity") && plain (prop i "price") = true ->
     exists a, and_then (convert page (prop i "name"))
                 (and_then (convert page (prop i "quantity"))
                           (convert page (prop i "price"))) = Ok a) /\
    (plain (prop i "name") && plain (prop i "quantity") && plain (prop i "price") = false ->
     exists f, and_then (convert page (prop i "name"))
                 (and_then (convert page (prop i "quantity"))
                           (convert page (prop i "price")))
               = Throw (type_error page f))).
  { intros i. rewrite <- andb_assoc.
    apply and_then_convert, and_then_convert, convert_last. }
  destruct item; cbn [item_ok render_item]; try apply H.
  split; [discriminate | ]. intros _. eexists. reflexivity.
Qed.

Lemma render_items_ok (page : Page) (l : list json) :
  (forallb item_ok l = true -> render_items page l = Ok tt) /\
  (forallb item_ok l = false ->
   exists f, render_items page l = Throw (type_error page f)).
Proof.
  induction l as [|item l [IH1 IH2]]; cbn [forallb render_items].
  - split; [reflexivity | discriminate].
  - destruct (render_item_ok page item) as [H1 H2].
    destruct (item_ok item); cbn [andb].
    + destruct (H1 eq_refl) as [[] ->]. cbn [and_then]. auto.
    + split; [discriminate | ]. intros _. destruct (H2 eq_refl) as [f ->].
      exists f. reflexivity.
Qed.

Lemma render_list_ok (page : Page) (items : json) :
  (listable items = true -> render_list page (Some items) = Ok tt) /\
  (listable items = false ->
   exists f, render_list page (Some items) = Throw (type_error page f)).
Proof.
  destruct items as [ | b | q | s | l | fields]; cbn [listable render_list json_truthy negb];
    try (split; [reflexivity | discriminate]).
  - destruct b; cbn [negb]; split; try discriminate; try reflexivity.
    intros _. eexists. reflexivity.
  - destruct (Z.eqb (Qnum q) 0); cbn [negb]; split; try discriminate; try reflexivity.
    intros _. eexists. reflexivity.
  - destruct (Js.truthy s); cbn [negb]; split; try discriminate; try reflexivity.
    intros _. eexists. reflexivity.
  - apply (render_items_ok page l).
  - split; [discriminate | ]. intros _. eexists. reflexivity.
Qed.

Lemma render_address_ok {A} (page : Page) (a : json) (k : A) :
  (addressable a = true ->
   and_then (render_address page (Some a)) (Ok k) = Ok k) /\
  (addressable a = false ->
   exists f, and_then (render_address page (Some a)) (Ok k) = Throw (type_error page f)).
Proof.
  unfold addressable, render_address.
  destruct (json_truthy a); cbn [negb orb]; [ | split; [reflexivity | discriminate]].
  pose proof (and_then_convert page (prop a "fullName") _ _
    (and_then_convert page (prop a "address") _ _
      (and_then_convert page (prop a "city") _ _
        (and_then_convert page (prop a "state") _ _
          (and_then_convert page (prop a "zip") _ _
            (convert_last page (prop a "country"))))))) as [H1 H2].
  rewrite !andb_assoc in H1, H2. split; intros H.
  - destruct (H1 H) as [[] ->]. reflexivity.
  - destruct (H2 H) as [f ->]. exists f. reflexivity.
Qed.

Lemma printable_value (v : Typed.value) : printable (value_json v) = true.
Proof. destruct v; reflexivity. Qed.

Lemma value_json_linkable (page : Page) (v : Typed.value) :
  (linkable v = true -> exists u, getTrackingUrl page (Some (value_json v)) = Ok u) /\
  (linkable v = false ->
   getTrackingUrl page (Some (value_json v)) = Throw (type_error page (NoTrim (value_json v)))).
Proof.
  unfold getTrackingUrl, linkable.
  destruct v as [s | q | b | s]; cbn [value_json truthy json_truthy Typed.truthy].
  - split; [ | discriminate]. intros _. destruct (Js.truthy s); eexists; reflexivity.
  - destruct (Z.eqb (Qnum q) 0); cbn [negb]; split; try discriminate; try reflexivity.
    intros _. eexists. reflexivity.
  - destruct b; cbn [negb]; split; try discriminate; try reflexivity.
    intros _. eexists. reflexivity.
  - split; [ | discriminate]. intros _. destruct (Js.truthy s); eexists; reflexivity.
Qed.

Lemma or_text_number (v : Typed.value) (s : string) (q : Q) :
  Typed.or_text v s = Typed.Number q -> Z.eqb (Qnum q) 0 = false.
Proof.
  unfold Typed.or_text. destruct (Typed.truthy v) eqn:E; [ | discriminate].
  intros ->. cbn in E. now apply negb_true_iff in E.
Qed.

Lemma status_answer_tracking (sh : list Typed.Row) (k : option string)
      (order : Typed.Order) :
  Typed.status_answer pf sh k = Typed.RespOrder order ->
  exists v, Typed.order_trackingNumber order = Typed.or_text v "".
Proof.
  unfold Typed.status_answer. destruct (Nat.leb _ 0); [discriminate | ].
  repeat match goal with
         | |- context [JSON_parse (Typed.base pf) ?t] =>
             destruct (JSON_parse (Typed.base pf) t); try discriminate
         end.
  intros H. injection H as <-. eexists. reflexivity.
Qed.

(** The page on an order of the back end. *)
Lemma displayOrderStatus_order (page : Page) (o : Typed.Order) :
  container page = true ->
  (presentable o = true ->
   displayOrderStatus page (order_json o) = Ok [Shown (order_json o)]) /\
  (presentable o = false ->
   exists f, displayOrderStatus page (order_json o) = Throw (type_error page f)) /\
  (listable (Typed.order_items o) = true ->
   linkable (Typed.order_trackingNumber o) = false ->
   displayOrderStatus page (order_json o) =
     Throw (type_error page (NoTrim (value_json (Typed.order_trackingNumber o))))).
Proof.
  intros Hc. unfold displayOrderStatus, presentable. rewrite Hc. cbn [negb].
  change (prop (order_json o) "items") with (Some (Typed.order_items o)).
  change (prop (order_json o) "trackingNumber")
    with (Some (value_json (Typed.order_trackingNumber o))).
  change (prop (order_json o) "status") with (Some (value_json (Typed.order_status o))).
  change (prop (order_json o) "sessionId")
    with (Some (value_json (Typed.order_sessionId o))).
  change (prop (order_json o) "date") with (Some (value_json (Typed.order_date o))).
  change (prop (order_json o) "shippingAddress")
    with (Some (Typed.order_shippingAddress o)).
  cbn [convert]. rewrite !printable_value. cbn [and_then].
  destruct (render_list_ok page (Typed.order_items o)) as [L1 L2].
  destruct (value_json_linkable page (Typed.order_trackingNumber o)) as [T1 T2].
  destruct (render_address_ok page (Typed.order_shippingAddress o)
              [Shown (order_json o)]) as [A1 A2].
  destruct (listable (Typed.order_items o)); cbn [andb].
  - rewrite (L1 eq_refl). cbn [and_then].
    destruct (linkable (Typed.order_trackingNumber o)); cbn [andb].
    + destruct (T1 eq_refl) as [u ->].
      repeat split; try discriminate; auto.
    + rewrite (T2 eq_refl). repeat split; try discriminate; auto.
      intros _. eexists. reflexivity.
  - destruct (L2 eq_refl) as [f ->]. cbn [and_then].
    repeat split; try discriminate. intros _. exists f. reflexivity.
Qed.

(** X21. The status page against the back end, on a sheet of typed
    cells. When the page is configured, has its container and its request
    for a non-empty order id is answered by [doGet], it shows the loading
    screen and then what [displayOrderStatus] makes of the answer: the
    back end's error text, if the answer is an error ("Order not found"
    for an id that is on no data row); the order, if its items can be
    listed, its address printed and its tracking number is a text, a date
    or falsy; and otherwise the message of the browser's [TypeError] (or
    the page's fallback text, if that message is empty). In particular an
    order whose tracking cell holds a number is not shown, although its
    items can be listed: [getTrackingUrl] cannot trim the number. *)
Theorem status_page_shows_ledger (page : Page) (w : Typed.World) (k : string) :
  served_by pf w page k -> k <> "" -> container page = true ->
  let fallback := "Failed to load order status. Please try again later." in
  initOrderStatus page (Some k) =
    [ Loading; screen_of page (Typed.status_answer pf (Typed.sheet w) (Some k)) ] /\
  (Typed.findOrderRow (Typed.sheet w) (Some k) = 0 ->
   initOrderStatus page (Some k) = [Loading; Failed "Order not found"]) /\
  (forall order,
      Typed.status_answer pf (Typed.sheet w) (Some k) = Typed.RespOrder order ->
      (presentable order = true ->
       initOrderStatus page (Some k) = [Loading; Shown (order_json order)]) /\
      (presentable order = false ->
       exists f, initOrderStatus page (Some k) =
                   [Loading; Failed (message_or (type_error page f) fallback)]) /\
      (forall q,
          listable (Typed.order_items order) = true ->
          Typed.order_trackingNumber order = Typed.Number q ->
          initOrderStatus page (Some k) =
            [Loading; Failed (message_or (type_error page (NoTrim (JNum q))) fallback)])).
Proof.
  intros Hs Hk Hc fallback.
  assert (H : initOrderStatus page (Some k) =
    [ Loading; screen_of page (Typed.status_answer pf (Typed.sheet w) (Some k)) ]).
  { unfold initOrderStatus, display, screen_of.
    destruct k as [|c k]; [congruence | ].
    cbn [CheckoutPage.falsy CheckoutPage.text Js.truthy negb].
    rewrite (fetchOrderStatus_served page w (String c k) Hs), Hc. cbn zeta.
    destruct (Typed.status_answer pf (Typed.sheet w) (Some (String c k)))
      as [[|a m]| | |o];
      cbn [wire data_error data_order CheckoutPage.falsy CheckoutPage.text
           Js.truthy negb app truthy]; try reflexivity.
    change (json_truthy (order_json o)) with true. cbn iota.
    destruct (displayOrderStatus_order page o Hc) as (D1 & D2 & _).
    destruct (presentable o).
    - rewrite (D1 eq_refl). reflexivity.
    - destruct (D2 eq_refl) as [f ->]. reflexivity. }
  split; [exact H | split].
  - intros Hn. rewrite H. unfold Typed.status_answer. rewrite Hn. reflexivity.
  - intros order Ho. rewrite H, Ho. unfold screen_of.
    destruct (displayOrderStatus_order page order Hc) as (D1 & D2 & D3).
    split; [ | split].
    + intros Hp. rewrite (D1 Hp). reflexivity.
    + intros Hp. destruct (D2 Hp) as [f ->]. exists f. reflexivity.
    + intros q Hl Hq.
      destruct (status_answer_tracking _ _ _ Ho) as [v Hv].
      rewrite Hq in Hv. symmetry in Hv. apply or_text_number in Hv.
      rewrite D3; [ | exact Hl | ].
      * rewrite Hq. reflexivity.
      * rewrite Hq. cbn [linkable Typed.truthy]. now rewrite Hv.
Qed.

End StatusPageFacts.

(** ** Submitting the checkout form *)

Section CheckoutFlowFacts.
Import Ledger Traces CheckoutPage CheckoutFlow.

Lemma createCheckoutSession_sent (page : Page) (cart : CartJs.Cart) (f : FormData) :
  snd (createCheckoutSession page cart f) = [] \/
  snd (createCheckoutSession page cart f) =
    [ {| posted_cart := cart; posted_shippingAddress := f;
         posted_environment := config_environment page |} ].
Proof.
  unfold createCheckoutSession.
  destruct (falsy (googleScriptUrl page) || includes (text (googleScriptUrl page)) "YOUR_");
    [left | right]; reflexivity.
Qed.

(** X22. What a checkout submission sends. A submission sends at most one
    request to the back end, and only when [validateShippingForm] accepts
    the form as [getFormData] reads it and the cart holds an item; the
    request carries that cart, that form and the configured environment.
    A form that fails is answered with its error list and a valid form
    over an empty cart with "Your cart is empty", both without loading
    state; once the form is disabled for loading, the submission ends in a
    redirect or re-enables the form. *)
Theorem checkout_submit_guarded (page : Page) (p : CartJs.Platform) (form : Form)
        (st : CartJs.Browser) :
  let o := handleCheckoutSubmit page p form st in
  let v := validateShippingForm (getFormData form) in
  let cart := fst (CartJs.getCart p st) in
  (sent o = [] \/
   sent o = [ {| posted_cart := cart; posted_shippingAddress := getFormData form;
                 posted_environment := config_environment page |} ] /\
   valid v = true /\ CartJs.items cart <> []) /\
  (valid v = false ->
   o = {| calls := [ClearErrors; ShowErrors (errors v)]; sent := []; browser := st |}) /\
  (valid v = true -> CartJs.items cart = [] ->
   calls o = [ClearErrors; ShowErrors ["Your cart is empty"]] /\ sent o = []) /\
  (In (SetLoading true) (calls o) ->
   (exists url, calls o = [ClearErrors; SetLoading true; Redirect url]) \/
   (exists m, calls o = [ClearErrors; SetLoading true; ShowErrors [m]; SetLoading false])).
Proof.
  intros o v cart. subst o v cart. unfold handleCheckoutSubmit.
  destruct (valid (validateShippingForm (getFormData form))); cbn [negb].
  2:{ repeat split; try discriminate; auto.
      cbn. intros [H | [H | []]]; discriminate. }
  destruct (CartJs.getCart p st) as [cart st1]. cbn [fst].
  destruct (CartJs.items cart) as [|x l] eqn:Hi; cbn [length Nat.eqb].
  { repeat split; try discriminate; auto.
    cbn. intros [H | [H | []]]; discriminate. }
  pose proof (createCheckoutSession_sent page cart (getFormData form)) as Hs.
  destruct (createCheckoutSession page cart (getFormData form)) as [answer requests].
  cbn [snd sent calls] in *. repeat split; try discriminate.
  - destruct Hs as [-> | ->]; [now left | right]. repeat split. discriminate.
  - intros _. destruct answer as [url|error]; [left | right]; eexists; reflexivity.
Qed.

Variable env : Env.

Ltac js_run_in H := autounfold with js_run in H; cbn [fst snd] in H.

Lemma doPost_checkout (payload : Posted) (w : World) :
  doPost env (request_of payload) w =
  Ledger.createCheckoutSession env (body_of payload) w.
Proof.
  unfold doPost, request_of. js_run. cbn [contents].
  replace (Js.strict_eq (action (body_of payload)) "createCheckoutSession")
    with true by (cbn [body_of action Js.strict_eq]; now rewrite String.eqb_refl).
  destruct (proj1 (proj2 (@handlers_answer env w)) (body_of payload))
    as (r & w' & ->).
  reflexivity.
Qed.

(** X23. A submission from the checkout page, answered by the back end.
    With a form that [validateShippingForm] accepts and a cart that holds
    an item, the submission costs exactly one processor call: it lists the
    cart's items in cart order, each with its price id and quantity;
    carries the form's address as the shipping address (country US when
    the form has none), so the processor is not asked to collect one;
    and returns the buyer to the configured environment's addresses. The
    page then redirects to the processor's address if the answer has one
    and no error, and otherwise shows one message and re-enables the
    form. The back end's sheet and mail are untouched. *)
Theorem checkout_submit_served (page : Page) (p : CartJs.Platform) (form : Form)
        (st : CartJs.Browser) (w : World) :
  served_by env w page ->
  valid (validateShippingForm (getFormData form)) = true ->
  CartJs.items (fst (CartJs.getCart p st)) <> [] ->
  let o := handleCheckoutSubmit page p form st in
  exists payload r,
    sent o = [payload] /\
    let w' := snd (doPost env (request_of payload) w) in
    requests w' = (requests w ++ [r])%list /\
    line_items (Ledger.payload r) =
      map line_of (CartJs.items (fst (CartJs.getCart p st))) /\
    shipping_address_collection (Ledger.payload r) = None /\
    shipping_address (Ledger.payload r) =
      Some {| sa_line1 := Some (Js.or_else (form "address") "");
              sa_city := Some (Js.or_else (form "city") "");
              sa_state := Some (Js.or_else (form "state") "");
              sa_postal_code := Some (Js.or_else (form "zip") "");
              sa_country := Js.or_else (form "country") "US" |} /\
    success_url (Ledger.payload r) =
      base_url (config_environment page)
      ++ "/order-status?session_id={CHECKOUT_SESSION_ID}" /\
    cancel_url (Ledger.payload r) = base_url (config_environment page) ++ "/checkout" /\
    calls o = (ClearErrors :: SetLoading true :: after_answer (processor env r))%list /\
    sheet w' = sheet w /\ outbox w' = outbox w.
Proof.
  intros (u & Hu & Hne & Hy & Hf) Hv Hi o. subst o.
  unfold handleCheckoutSubmit. rewrite Hv. cbn [negb].
  destruct (CartJs.getCart p st) as [c st1]. cbn [fst] in *.
  destruct (CartJs.items c) as [|x l] eqn:Hc; [congruence | clear Hi].
  cbn [length Nat.eqb]. unfold CheckoutFlow.createCheckoutSession.
  rewrite Hu. cbn [falsy text]. rewrite Hy.
  destruct u as [|a u]; [congruence | ]. cbn [Js.truthy negb orb].
  match goal with |- context [fetch page _ ?pl] => set (payload := pl) end.
  destruct (Hf payload) as (r & t & Hr & ->).
  exists payload. rewrite doPost_checkout in *.
  unfold Ledger.createCheckoutSession in *. js_run. js_run_in Hr.
  cbn [body_of cart items posted_cart posted_shippingAddress posted_environment
       payload shippingAddress environment cart_sessionId] in *.
  rewrite Hc in *. cbn [map] in *. rewrite base_url_or_else in *.
  match goal with |- context [processor env ?r] => exists r end.
  cbn [sent calls ok body]. unfold after_answer.
  match goal with |- context [processor env ?r] =>
    destruct (processor env r) as [ss|err] end;
    [destruct (session_error ss) as [m|] | ];
    cbn [fst snd] in *; injection Hr as <-;
    cbn [wire data_error data_checkoutUrl falsy text negb
         requests sheet outbox Ledger.payload line_items shipping_address
         shipping_address_collection success_url cancel_url after_answer
         form_address form_city form_state form_zip form_country
         getFormData address city state zip country field
         stripePriceId item_quantity line_of].
  all: assert (Hco : Js.or_else (field form "country" "US") "US"
                    = Js.or_else (form "country") "US")
    by (unfold field; destruct (form "country") as [[|b s]|]; reflexivity).
  all: rewrite Hco, map_map; unfold field; repeat split; try reflexivity.
  - destruct m; reflexivity.
  - destruct (session_url ss) as [[|b s]|]; reflexivity.
  - destruct (toString err); reflexivity.
Qed.

End CheckoutFlowFacts.

(** ** The configuration as shipped *)

Section ConfigFacts.
Import Ledger Traces Config.

Lemma placeholder_refused (hostname : string) :
  exists u,
    googleScriptUrl (config hostname) = String "Y" u /\
    CheckoutPage.includes (googleScriptUrl (config hostname)) "YOUR_" = true.
Proof.
  unfold config. cbn [googleScriptUrl].
  match goal with |- context [if ?b then _ else _] => destruct b end;
    eexists; split; reflexivity.
Qed.

(** X24. The configuration of the pages, for every host name. The
    environment is [development] exactly on a local host and [production]
    otherwise, and the return addresses the back end builds for the
    environment the page sends start with the page's own base address.
    The script address is a placeholder both pages refuse: until it is
    replaced, a checkout submission sends no request (a valid form over a
    cart with an item gets the "not configured" message and the form is
    re-enabled), and the status page fetches nothing and shows "Google App
    Script URL not configured". *)
Theorem shipped_config_reaches_nothing (hostname : string) :
  let c := config hostname in
  (environment c = "development" <-> isLocal c = true) /\
  (environment c = "production" <-> isLocal c = false) /\
  base_url (Some (environment c)) = baseUrl c /\
  (forall fetch p form st,
      let o := CheckoutFlow.handleCheckoutSubmit (checkout_page c fetch) p form st in
      CheckoutFlow.sent o = [] /\
      (CheckoutPage.valid
         (CheckoutPage.validateShippingForm (CheckoutPage.getFormData form)) = true ->
       CartJs.items (fst (CartJs.getCart p st)) <> [] ->
       CheckoutFlow.calls o =
         [ CheckoutFlow.ClearErrors; CheckoutFlow.SetLoading true;
           CheckoutFlow.ShowErrors
             [ "Google App Script URL not configured. Please set AGROVERSE_CONFIG.googleScriptUrl" ];
           CheckoutFlow.SetLoading false ])) /\
  (forall fetch type_error a k,
      StatusPage.initOrderStatus (status_page c fetch true type_error)
                                 (Some (String a k)) =
      [ StatusPage.Loading; StatusPage.Failed "Google App Script URL not configured" ]).
Proof.
  intros c. subst c.
  destruct (placeholder_refused hostname) as (u & Hu & Hy).
  split; [ | split; [ | split; [ | split]]].
  - unfold config. cbn [environment isLocal].
    match goal with |- context [if ?b then _ else _] => destruct b end;
      split; try reflexivity; discriminate.
  - unfold config. cbn [environment isLocal].
    match goal with |- context [if ?b then _ else _] => destruct b end;
      split; try reflexivity; discriminate.
  - unfold config. cbn [environment baseUrl].
    match goal with |- context [if ?b then _ else _] => destruct b end; reflexivity.
  - intros fetch p form st o. subst o.
    unfold CheckoutFlow.handleCheckoutSubmit.
    destruct (CheckoutPage.valid _); cbn [negb].
    2:{ split; [reflexivity | discriminate]. }
    destruct (CartJs.getCart p st) as [cart st1]. cbn [fst].
    destruct (CartJs.items cart) as [|x l]; cbn [length Nat.eqb].
    { split; [reflexivity | congruence]. }
    unfold CheckoutFlow.createCheckoutSession.
    cbn [checkout_page CheckoutFlow.googleScriptUrl CheckoutPage.falsy CheckoutPage.text].
    rewrite Hy, orb_true_r. split; reflexivity.
  - intros fetch type_error a k.
    unfold StatusPage.initOrderStatus, StatusPage.fetchOrderStatus, StatusPage.display.
    cbn [status_page StatusPage.googleScriptUrl StatusPage.container
         CheckoutPage.falsy CheckoutPage.text Js.truthy negb].
    rewrite Hy, orb_true_r. reflexivity.
Qed.

End ConfigFacts.

(** ** The add-to-cart buttons *)

Section ButtonFacts.
Import CartJs AddToCartButton.
Variable site : Site.
Variable p : Platform.

Lemma handleAddToCart_run (d : Dataset) (st : Browser) (c : Cart) :
  holds p st c -> sellable (product_of site d) ->
  exists c',
    quantity_of (text_of (data_productId d)) (items c') =
      (quantity_of (text_of (data_productId d)) (items c) + 1)%Z /\
    total_quantity (items c') = (total_quantity (items c) + 1)%Z /\
    others (text_of (data_productId d)) (items c') =
      others (text_of (data_productId d)) (items c) /\
    handleAddToCart site p (Some d) st =
      if quota_exceeded p (JSON_stringify p (saved p st c'))
      then ([Toast "Failed to add to cart. Please try again."], tick st)
      else ((Toast "Added to cart!" :: if cart_ui site then [OpenCart] else [])%list,
            written p st c').
Proof.
  intros Hh Hs.
  destruct (addToCart_stored p (product_of site d) st c Hh Hs)
    as (c' & _ & _ & Ho & Hq & Ht & _ & _ & Ha).
  exists c'. cbn [product_of product_productId product_quantity quantity_or_1 Z.eqb] in *.
  repeat split; try assumption.
  unfold handleAddToCart. rewrite (proj2 (sellable_iff (product_of site d)) Hs), Ha.
  destruct (quota_exceeded p _); reflexivity.
Qed.

Lemma run_times_idle (n : nat) (h : Browser -> list Call * Browser) (st : Browser) :
  (forall st0, h st0 = ([], st0)) -> run_times n h st = ([], st).
Proof.
  intros Hh. induction n as [|n IH]; cbn [run_times]; [reflexivity | ].
  now rewrite Hh, IH.
Qed.

Lemma written_inj (st : Browser) (c1 c2 : Cart) :
  written p st c1 = written p st c2 -> saved p st c1 = saved p st c2.
Proof.
  intros H. apply (f_equal events) in H. cbn [written events] in H.
  now apply app_inj_tail in H as [_ H].
Qed.

(** X25. A click on an add-to-cart button, on a stored cart, for a
    button that names a product (an id and a name that are not empty, a
    price that reads as a number other than zero). One run of the handler
    adds one unit: the quantity under the product's id and the cart's
    total grow by 1, the other items stay as they are, and the handler
    shows "Added to cart!" (and opens the cart sidebar if there is one), or
    "Failed to add to cart. Please try again." with nothing saved when the
    storage refuses. A click runs the handler once for the document and
    once more for every listener on the button itself: on a button added
    after the page was initialised the click is one run; on a button that
    was there, the handler runs twice, and when the first run's cart is
    read back the click adds two units and shows the toast twice. A click
    outside a button does nothing. *)
Theorem click_runs_every_listener (d : Dataset) (st : Browser) (c c1 : Cart) :
  holds p st c -> sellable (product_of site d) ->
  let i := text_of (data_productId d) in
  let added := (Toast "Added to cart!" :: if cart_ui site then [OpenCart] else [])%list in
  let st1 := written p st c1 in
  (exists c',
      quantity_of i (items c') = (quantity_of i (items c) + 1)%Z /\
      total_quantity (items c') = (total_quantity (items c) + 1)%Z /\
      others i (items c') = others i (items c) /\
      handleAddToCart site p (Some d) st =
        if quota_exceeded p (JSON_stringify p (saved p st c'))
        then ([Toast "Failed to add to cart. Please try again."], tick st)
        else (added, written p st c')) /\
  click site p 0 (Some d) st = handleAddToCart site p (Some d) st /\
  (handleAddToCart site p (Some d) st = (added, st1) ->
   round_trips p (saved p st c1) ->
   exists c2,
     quantity_of i (items c2) = (quantity_of i (items c) + 2)%Z /\
     total_quantity (items c2) = (total_quantity (items c) + 2)%Z /\
     others i (items c2) = others i (items c) /\
     click site p 1 (Some d) st =
       if quota_exceeded p (JSON_stringify p (saved p st1 c2))
       then ((added ++ [Toast "Failed to add to cart. Please try again."])%list,
             tick st1)
       else ((added ++ added)%list, written p st1 c2)) /\
  (forall n, click site p n None st = ([], st)).
Proof.
  intros Hh Hs i added st1.
  destruct (handleAddToCart_run d st c Hh Hs) as (c' & Hq & Ht & Ho & Hrun).
  fold i in Hq, Ho. fold added in Hrun.
  split; [exists c'; auto | split; [ | split]].
  - unfold click. cbn [Nat.add run_times].
    destruct (handleAddToCart site p (Some d) st) as [calls st']. cbn [run_times].
    now rewrite app_nil_r.
  - intros H1 [Hne Hrt].
    assert (Hsaved : saved p st c1 = saved p st c').
    { rewrite Hrun in H1.
      destruct (quota_exceeded p (JSON_stringify p (saved p st c'))).
      - exfalso. apply (f_equal fst) in H1. cbn [fst] in H1. subst added.
        discriminate H1.
      - apply (f_equal snd) in H1. cbn [snd] in H1. symmetry. now apply written_inj. }
    assert (Hh1 : holds p st1 (saved p st c1)).
    { exists (JSON_stringify p (saved p st c1)). subst st1. cbn [written storage]. auto. }
    destruct (handleAddToCart_run d st1 (saved p st c1) Hh1 Hs)
      as (c2 & Hq2 & Ht2 & Ho2 & Hrun2).
    fold i in Hq2, Ho2. fold added in Hrun2.
    rewrite Hsaved in Hq2, Ht2, Ho2. cbn [saved items] in Hq2, Ht2, Ho2.
    exists c2. repeat split.
    + rewrite Hq2, Hq. lia.
    + rewrite Ht2, Ht. lia.
    + congruence.
    + unfold click. cbn [Nat.add run_times]. rewrite H1, Hrun2.
      destruct (quota_exceeded p (JSON_stringify p (saved p st1 c2)));
        now rewrite app_nil_r.
  - intros n. unfold click. apply run_times_idle. reflexivity.
Qed.

End ButtonFacts.

(** ** Instances of the properties of the pages *)

Section PageInstances.
Import Ledger Scenario Cases PageCases FormEncoding.

Lemma buildFormData_determines_fields_witness :
  buildFormData Codec.stringify collecting =
    "mode=payment&metadata=%7B%22source%22%3A%22agroverse_shop%22%7D" /\
  FormEncoding.kept Codec.stringify collecting = FormEncoding.kept Codec.stringify plain.
Proof.
  assert (Hk : forall k v, In (k, v) (collecting ++ plain)%list ->
                           FormEncoding.free_of "&" k /\ FormEncoding.free_of "=" k).
  { intros k v H. cbn in H.
    repeat (destruct H as [H | H];
            [injection H as <- _; split; intros Hc; cbn in Hc;
             repeat (destruct Hc as [Hc | Hc]; [discriminate Hc | ]); contradiction | ]).
    contradiction. }
  destruct (buildFormData_determines_fields Codec.stringify collecting plain Hk)
    as [H1 H2].
  split; [rewrite H1; reflexivity | apply H2; reflexivity].
Defined.

Lemma status_page_served (w : Typed.World) (k : string) :
  StatusPage.served_by TypedCases.platform w (status_page TypedCases.platform w k) k.
Proof.
  exists script_url, (Typed.status_answer TypedCases.platform (Typed.sheet w) (Some k)).
  repeat split.
  - discriminate.
  - apply typed_doGet_status.
  - cbn [status_page StatusPage.fetch]. now rewrite typed_doGet_status.
Defined.

(** The three orders of the sheet with the keyed-in number, and an id
    that is not on it: the first is shown, the second is not. *)
Lemma status_page_shows_ledger_witness :
  StatusPage.initOrderStatus
    (status_page TypedCases.platform TypedCases.keyed_in "tx_1") (Some "tx_1") =
    [ StatusPage.Loading;
      StatusPage.Shown
        (JObj [ ("sessionId", JStr "tx_1"); ("email", JStr "a@b.com");
                ("date", JStr (stamp 0)); ("status", JStr "Shipped");
                ("items", JArr []); ("shippingAddress", JObj []);
                ("trackingNumber", JStr "1Z999AA10123456784");
                ("emailSent", JStr "No"); ("lastUpdated", JStr (stamp 1)) ]) ] /\
  StatusPage.initOrderStatus
    (status_page TypedCases.platform TypedCases.keyed_in "tx_2") (Some "tx_2") =
    [ StatusPage.Loading; StatusPage.Failed "trackingNumber.trim is not a function" ] /\
  StatusPage.initOrderStatus
    (status_page TypedCases.platform TypedCases.keyed_in "tx_9") (Some "tx_9") =
    [ StatusPage.Loading; StatusPage.Failed "Order not found" ].
Proof.
  split; [ | split].
  - destruct (status_page_shows_ledger TypedCases.platform
                (status_page TypedCases.platform TypedCases.keyed_in "tx_1")
                TypedCases.keyed_in "tx_1" (status_page_served _ "tx_1")
                ltac:(discriminate) eq_refl) as (_ & _ & H).
    destruct (H _ eq_refl) as (Hs & _). rewrite (Hs eq_refl). reflexivity.
  - destruct (status_page_shows_ledger TypedCases.platform
                (status_page TypedCases.platform TypedCases.keyed_in "tx_2")
                TypedCases.keyed_in "tx_2" (status_page_served _ "tx_2")
                ltac:(discriminate) eq_refl) as (_ & _ & H).
    destruct (H _ eq_refl) as (_ & _ & Hq).
    rewrite (Hq (inject_Z 123456789012) eq_refl eq_refl). reflexivity.
  - apply (proj1 (proj2 (status_page_shows_ledger TypedCases.platform
                (status_page TypedCases.platform TypedCases.keyed_in "tx_9")
                TypedCases.keyed_in "tx_9" (status_page_served _ "tx_9")
                ltac:(discriminate) eq_refl))).
    reflexivity.
Defined.

Lemma checkout_page_served : CheckoutFlow.served_by env fresh (checkout_page env fresh).
Proof.
  exists script_url. repeat split; [discriminate | ].
  intros payload.
  destruct (proj1 (proj2 (proj2 (proj2 (@handlers_answer env fresh))))
              (CheckoutFlow.request_of payload)) as (r & w' & H).
  exists r, "". split; [now rewrite H | ].
  cbn [checkout_page CheckoutFlow.fetch]. now rewrite H.
Defined.

(** The sample form over the stored cart. *)
Lemma checkout_submit_served_witness :
  CheckoutFlow.calls
    (CheckoutFlow.handleCheckoutSubmit (checkout_page env fresh) CartCases.page
       CheckoutPage.sample_form CartCases.visited) =
    [ CheckoutFlow.ClearErrors; CheckoutFlow.SetLoading true;
      CheckoutFlow.Redirect "https://checkout.stripe.com/c/pay/cs_1" ] /\
  length (CheckoutFlow.sent
            (CheckoutFlow.handleCheckoutSubmit (checkout_page env fresh) CartCases.page
               CheckoutPage.sample_form CartCases.visited)) = 1.
Proof.
  destruct (checkout_submit_served env (checkout_page env fresh) CartCases.page
              CheckoutPage.sample_form CartCases.visited fresh checkout_page_served)
    as (payload & r & Hs & _ & _ & _ & _ & _ & _ & Hc & _).
  - reflexivity.
  - rewrite (getCart_holds CartCases.page CartCases.visited CartCases.stored_cart
               visited_holds).
    discriminate.
  - split; [rewrite Hc; reflexivity | rewrite Hs; reflexivity].
Defined.

(** A click on the cacao button, which was there when the page was
    initialised: two more bags in the stored cart, two toasts. *)
Lemma click_runs_every_listener_witness :
  exists c2,
    CartJs.total_quantity (CartJs.items c2) = 6%Z /\
    fst (AddToCartButton.click shop_site CartCases.page 1 (Some cacao_button)
                               CartCases.visited) =
      [ AddToCartButton.Toast "Added to cart!"; AddToCartButton.OpenCart;
        AddToCartButton.Toast "Added to cart!"; AddToCartButton.OpenCart ].
Proof.
  assert (Hs : CartJs.sellable (AddToCartButton.product_of shop_site cacao_button)).
  { repeat split; eexists; (split; [reflexivity | discriminate]). }
  pose (c1 := CartJs.with_items CartCases.stored_cart
                [CartCases.nibs; CartJs.with_quantity CartCases.cacao_item 4]).
  assert (Hrt : CartJs.round_trips CartCases.page
                  (CartJs.saved CartCases.page CartCases.visited c1)).
  { split; [intros H; vm_compute in H; discriminate H | vm_compute; reflexivity]. }
  destruct (click_runs_every_listener shop_site CartCases.page cacao_button
              CartCases.visited CartCases.stored_cart c1 visited_holds Hs)
    as (_ & _ & H & _).
  destruct (H ltac:(vm_compute; reflexivity) Hrt) as (c2 & _ & Ht & _ & Hc).
  exists c2. split; [rewrite Ht; reflexivity | rewrite Hc; reflexivity].
Defined.

End PageInstances.

(** ** Instances on sheets of typed cells *)

Section TypedInstances.
Import Ledger Scenario TypedCases.



(** The same orders with the second number keyed in as digits: the run
    notifies the first order, logs the error and ends; the third order,
    which is due, gets no mail and stays unmarked. *)
Lemma scan_stops_at_untrimmable_witness :
  exists w',
    Typed.sendTrackingEmails platform keyed_in = (Ok tt, w') /\
    length (Typed.outbox w') = 1 /\
    nth_error (Typed.sheet w') 2 =
      Some (order_row "tx_2" (Typed.Number (inject_Z 123456789012))) /\
    nth_error (Typed.sheet w') 3 =
      Some (order_row "tx_3" (Typed.Text "9400111899223100001234")) /\
    Typed.due (order_row "tx_3" (Typed.Text "9400111899223100001234")) = true /\
    last (Typed.log w') "" =
      "Error sending tracking emails: TypeError: trackingNumber.trim is not a function".
Proof.
  destruct (scan_stops_at_untrimmable platform keyed_in (map Typed.Text header)
              [order_row "tx_1" (Typed.Text "1Z999AA10123456784")]
              (order_row "tx_2" (Typed.Number (inject_Z 123456789012)))
              [order_row "tx_3" (Typed.Text "9400111899223100001234")])
    as (w' & pre' & l & Hrun & Hs & Hf & _ & Ho & Hl).
  - reflexivity.
  - repeat constructor. eexists. reflexivity.
  - reflexivity.
  - intros [t Ht]. discriminate Ht.
  - exists w'. split; [exact Hrun | ].
    inversion Hf as [|r r' rs rs' _ Hrest]; subst. inversion Hrest; subst.
    rewrite Hs, Ho, Hl. repeat split.
    rewrite app_assoc. apply last_last.
Defined.

End TypedInstances.
